(** * Shadow: retry policy, response extraction, usage accounting and
    permission negotiation

    A shallow embedding of the Go sources

      - internal/ai/advanced_client.go   (retry loop, prompt, extractors)
      - internal/ai/agent_manager.go     (multi-agent orchestration)
      - internal/ai/usage_tracker.go     (cost accounting)
      - internal/scanner/permission_manager.go
      - internal/scanner/scanner.go      (scanning engine)
      - the reconnaissance planner of package ai (plan parsing, wrapping)

    Go strings are byte sequences and are embedded as [string].  The
    functions of package [strings] are embedded on their ASCII path:
    [ToLower] folds the bytes 'A'..'Z' and [TrimSpace] strips the six ASCII
    blanks.  This is what Go computes on every text that is valid UTF-8
    and has no cased letter and no white space above 0x7F; the rune tables
    of package [unicode], which Go consults for such runes, are not part
    of the embedding, and "in any letter case" below means ASCII case.
    Go's [int], [int64] and [time.Duration] are 64-bit two's complement
    integers, embedded as [Z] with the wrap-around written out; [float64]
    is embedded as the primitive binary64 floats.  What comes from outside
    the process (the one-shot client, the context, the terminal, the
    clock, the programs started, the identifiers drawn) is an explicit
    argument of the function that uses it.  Lengths and indices of strings
    and slices stay far below [2^63], and sums of a few of them are written
    without the wrap-around. *)

From Stdlib Require Import ZArith Lia List Bool Ascii String Floats Uint63.
From stdpp Require Import base option list strings gmap.

Local Open Scope Z_scope.

(** ** Machine integers *)

Module GoInt.

Definition wrap64 (z : Z) : Z :=
  (z + 2 ^ 63) mod 2 ^ 64 - 2 ^ 63.

Definition add64 (a b : Z) : Z := wrap64 (a + b).
Definition mul64 (a b : Z) : Z := wrap64 (a * b).

(** Go's [/] on integers truncates toward zero. *)
Definition div64 (a b : Z) : Z := wrap64 (Z.quot a b).

End GoInt.
Export GoInt.

(** ** Package strings *)

Module GoStrings.

Definition nl : string := String (ascii_of_nat 10) EmptyString.

Definition byteOf (c : ascii) : Z := Z.of_nat (nat_of_ascii c).

Definition len (s : string) : Z := Z.of_nat (String.length s).

(** [s[i]], when [0 <= i < len(s)]. *)
Definition byteAt (s : string) (i : nat) : option Z :=
  byteOf <$> String.get i s.

Definition isUpper (c : ascii) : bool :=
  (65 <=? byteOf c) && (byteOf c <=? 90).

Definition lowerByte (c : ascii) : ascii :=
  if isUpper c then ascii_of_nat (nat_of_ascii c + 32) else c.

Fixpoint ToLower (s : string) : string :=
  match s with
  | EmptyString => EmptyString
  | String c s' => String (lowerByte c) (ToLower s')
  end.

Fixpoint HasPrefix (s p : string) {struct p} : bool :=
  match p with
  | EmptyString => true
  | String c p' =>
      match s with
      | EmptyString => false
      | String d s' => Ascii.eqb d c && HasPrefix s' p'
      end
  end.

Fixpoint Contains (s sub : string) : bool :=
  HasPrefix s sub ||
  match s with
  | EmptyString => false
  | String _ s' => Contains s' sub
  end.

(** The blanks of [strings.TrimSpace] below 0x80:
    '\t', '\n', '\v', '\f', '\r' and ' '. *)
Definition isSpace (c : ascii) : bool :=
  ((9 <=? byteOf c) && (byteOf c <=? 13)) || (byteOf c =? 32).

Fixpoint TrimLeft (s : string) : string :=
  match s with
  | EmptyString => EmptyString
  | String c s' => if isSpace c then TrimLeft s' else s
  end.

Fixpoint TrimRight (s : string) : string :=
  match s with
  | EmptyString => EmptyString
  | String c s' =>
      match TrimRight s' with
      | EmptyString => if isSpace c then EmptyString else String c EmptyString
      | t => String c t
      end
  end.

Definition TrimSpace (s : string) : string := TrimRight (TrimLeft s).

(** [strings.Split(s, "\n")]: always at least one field. *)
Fixpoint SplitLines (s : string) : list string :=
  match s with
  | EmptyString => [EmptyString]
  | String c s' =>
      let rest := SplitLines s' in
      if Ascii.eqb c (ascii_of_nat 10) then EmptyString :: rest
      else match rest with
           | l :: ls => String c l :: ls
           | [] => [String c EmptyString]
           end
  end.

Definition digitChar (d : Z) : ascii := ascii_of_nat (Z.to_nat (48 + d)).

Fixpoint itoaPos (fuel : nat) (n : Z) (acc : string) : string :=
  match fuel with
  | O => acc
  | S fuel' =>
      let acc' := String (digitChar (n mod 10)) acc in
      if n / 10 =? 0 then acc' else itoaPos fuel' (n / 10) acc'
  end.

(** The verb [%d] applied to an integer. *)
Definition Itoa (n : Z) : string :=
  if n <? 0 then String "-"%char (itoaPos 20 (- n) EmptyString)
  else itoaPos 20 n EmptyString.

End GoStrings.
Export GoStrings.

(** ** Response extraction (advanced_client.go, parse helpers) *)

Module Extractor.

Definition isDigit (b : Z) : bool := (48 <=? b) && (b <=? 57).

(** The inner loop of [parseRiskScore]:
    [for j := i; j < len(line) && line[j] >= '0' && line[j] <= '9'; j++]. *)
Fixpoint scoreLoop (fuel : nat) (line : string) (j : nat) (score : Z) : Z :=
  match fuel with
  | O => score
  | S fuel' =>
      match byteAt line j with
      | Some b =>
          if isDigit b
          then scoreLoop fuel' line (S j) (add64 (mul64 score 10) (b - 48))
          else score
      | None => score
      end
  end.

(** The middle loop: [for i := 0; i < len(line)-1; i++], entered at [i]
    with [fuel] iterations left. *)
Fixpoint scanLine (fuel : nat) (line : string) (i : nat) : option Z :=
  match fuel with
  | O => None
  | S fuel' =>
      match byteAt line i with
      | Some b =>
          if isDigit b then
            let score := scoreLoop (String.length line - i) line i 0 in
            if (0 <=? score) && (score <=? 100) then Some score
            else scanLine fuel' line (S i)
          else scanLine fuel' line (S i)
      | None => None
      end
  end.

Fixpoint riskLines (lines : list string) : Z :=
  match lines with
  | [] => 50
  | line :: rest =>
      if Contains (ToLower line) "risk score" then
        match scanLine (String.length line - 1) line 0 with
        | Some score => score
        | None => riskLines rest
        end
      else riskLines rest
  end.

Definition parseRiskScore (text : string) : Z :=
  riskLines (SplitLines text).

(** [parseAnalysisSummary]: [all] is the whole slice, [rest] the part
    still to be ranged over, [i] the index of its head. *)
Fixpoint summaryLoop (all rest : list string) (i : nat) : option string :=
  match rest with
  | [] => None
  | line :: rest' =>
      if Contains (ToLower line) "summary" && (Z.of_nat i + 1 <? Z.of_nat (length all))
      then Some (TrimSpace (default EmptyString (all !! S i)))
      else summaryLoop all rest' (S i)
  end.

Definition parseAnalysisSummary (text : string) : string :=
  let lines := SplitLines text in
  match summaryLoop lines lines 0 with
  | Some s => s
  | None => default EmptyString (SplitLines text !! 0%nat)
  end.

(** [parseCriticalIssues]: the loop body with its [continue] and
    [break], threading [inCritical] and [issues]. *)
Fixpoint criticalLoop (lines : list string) (inCritical : bool)
    (issues : list string) : list string :=
  match lines with
  | [] => issues
  | line :: rest =>
      let lower := ToLower line in
      if Contains lower "critical" then criticalLoop rest true issues
      else
        let issues' :=
          if inCritical && negb (String.eqb (TrimSpace line) EmptyString) then
            if HasPrefix (TrimSpace line) "-" || HasPrefix (TrimSpace line) "*"
            then issues ++ [TrimSpace line]
            else issues
          else issues in
        if inCritical && Contains lower "recommendation" then issues'
        else criticalLoop rest inCritical issues'
  end.

Definition parseCriticalIssues (text : string) : list string :=
  criticalLoop (SplitLines text) false [].

(** The loop invariant of [criticalLoop]: none of the issues collected
    so far mentions "critical". *)
Definition clean (issues : list string) : Prop :=
  forall issue, In issue issues -> Contains (ToLower issue) "critical" = false.

Record Recommendation := mkRecommendation {
  Priority : string;
  Title : string;
  Description : string;
  Impact : string;
  Effort : string;
  Steps : list string
}.

Fixpoint recommendationLoop (lines : list string) (inRecommendations : bool)
    (recommendations : list Recommendation) : list Recommendation :=
  match lines with
  | [] => recommendations
  | line :: rest =>
      let lower := ToLower line in
      if Contains lower "recommendation"
      then recommendationLoop rest true recommendations
      else
        let recommendations' :=
          if inRecommendations && negb (String.eqb (TrimSpace line) EmptyString) then
            let trimmed := TrimSpace line in
            if HasPrefix trimmed "-" || HasPrefix trimmed "*" || HasPrefix trimmed "1"
            then recommendations ++
                 [ {| Priority := "medium"; Title := trimmed;
                      Description := trimmed; Impact := "unknown";
                      Effort := "medium"; Steps := [] |} ]
            else recommendations
          else recommendations in
        recommendationLoop rest inRecommendations recommendations'
  end.

Definition parseRecommendations (text : string) : list Recommendation :=
  recommendationLoop (SplitLines text) false [].

End Extractor.
Export Extractor.

(** ** Error values *)

Module GoErrors.

(** The values created once by [errors.New]; two of them are equal only
    if they are the same variable.  [errEmptyResponse] and
    [errRateLimitExceeded] are the package's own (advanced_client.go),
    the other two are [context.Canceled] and [context.DeadlineExceeded]. *)
Inductive sentinel :=
| errEmptyResponse
| errRateLimitExceeded
| ctxCanceled
| ctxDeadlineExceeded.

Definition sentinel_eqb (a b : sentinel) : bool :=
  match a, b with
  | errEmptyResponse, errEmptyResponse
  | errRateLimitExceeded, errRateLimitExceeded
  | ctxCanceled, ctxCanceled
  | ctxDeadlineExceeded, ctxDeadlineExceeded => true
  | _, _ => false
  end.

Definition sentinelText (s : sentinel) : string :=
  match s with
  | errEmptyResponse => "empty AI response"
  | errRateLimitExceeded => "rate limit exceeded"
  | ctxCanceled => "context canceled"
  | ctxDeadlineExceeded => "context deadline exceeded"
  end.

(** A non-nil [error]: a sentinel; an error that carries a message and
    wraps nothing of this package ([fmt.Errorf] without [%w], or an error
    of the one-shot client or of the reader); or
    [fmt.Errorf(pre + "%w" + post, inner)]. *)
Inductive error :=
| Sentinel (s : sentinel)
| Plain (msg : string)
| Errorf (pre : string) (inner : error) (post : string).

(** [err.Error()] *)
Fixpoint Error (e : error) : string :=
  match e with
  | Sentinel s => sentinelText s
  | Plain msg => msg
  | Errorf pre inner post => pre +:+ Error inner +:+ post
  end.

(** [errors.Is(err, target)] for a sentinel target: follow [Unwrap]. *)
Fixpoint errorsIs (e : error) (target : sentinel) : bool :=
  match e with
  | Sentinel s => sentinel_eqb s target
  | Plain _ => false
  | Errorf _ inner _ => errorsIs inner target
  end.

(** A Go result pair [(T, error)]. *)
Inductive result (T : Type) :=
| Ok (v : T)
| Err (e : error).
Arguments Ok {T} v.
Arguments Err {T} e.

End GoErrors.
Export GoErrors.

(** ** Retry policy (advanced_client.go) *)

Module Retry.

Definition maxRetryAttempts : Z := 3.
Definition second : Z := 1000000000.
Definition baseRetryDelay : Z := mul64 15 second.

Definition retryablePatterns : list string :=
  [ "rate limit"; "429"; "timeout"; "temporary"; "connection";
    "deadline exceeded" ].

(** [isRetryableError]; [None] is the nil error. *)
Definition isRetryableError (err : option error) : bool :=
  match err with
  | None => false
  | Some e =>
      if errorsIs e errEmptyResponse then true
      else if errorsIs e errRateLimitExceeded then true
      else
        let message := ToLower (Error e) in
        existsb (fun pattern => Contains message pattern) retryablePatterns
  end.

(** What the loop does to the outside, in order. *)
Inductive event :=
| Attempt (attempt : Z)          (* the call [fn(ctx)] of this iteration *)
| Print (line : string)          (* the retry notice on standard output *)
| Sleep (delay : Z).             (* [sleepWithContext(ctx, delay)], in ns *)

(** The surroundings of one run of the loop: the outcome of the call of
    each iteration, and the state of the context where the loop looks at
    it ([ctx.Err()] when [ctx.Done()] is closed, otherwise [None]). *)
Record env (T : Type) := mkEnv {
  fn : Z -> result T;
  doneBefore : Z -> option error;
  doneDuringSleep : Z -> option error
}.
Arguments fn {T} _ _.
Arguments doneBefore {T} _ _.
Arguments doneDuringSleep {T} _ _.

(** [time.Duration.String()] is only needed for whole seconds below a
    minute here. *)
Definition durationString (d : Z) : string :=
  Itoa (Z.quot d second) +:+ "s".

Definition retryNotice (attempt delay : Z) (err : error) : string :=
  "⚠️  Retry " +:+ Itoa (attempt + 1) +:+ "/" +:+ Itoa maxRetryAttempts
    +:+ " after " +:+ durationString delay
    +:+ " (error: " +:+ Error err +:+ ")" +:+ nl.

Section Loop.
Context {T : Type} (E : env T).

(** The [for attempt := 0; attempt < maxRetryAttempts; attempt++] loop
    of [retryWithBackoff], entered at [attempt] with [fuel] iterations
    left; [lastErr] and the events so far are threaded through. *)
Fixpoint retryLoop (fuel : nat) (attempt : Z) (lastErr : option error)
    (trace : list event) : list event * result T :=
  match fuel with
  | O =>
      (trace,
       Err (match lastErr with
            | Some e => Errorf "max retries exceeded: " e EmptyString
            | None => Plain "max retries exceeded: %!w(<nil>)"
            end))
  | S fuel' =>
      match doneBefore E attempt with
      | Some cerr => (trace, Err cerr)
      | None =>
          match fn E attempt with
          | Ok r => (trace ++ [Attempt attempt], Ok r)
          | Err err =>
              if negb (isRetryableError (Some err))
              then (trace ++ [Attempt attempt], Err err)
              else if attempt + 1 <? maxRetryAttempts then
                let delay := mul64 baseRetryDelay (attempt + 1) in
                let trace' :=
                  trace ++ [Attempt attempt;
                            Print (retryNotice attempt delay err);
                            Sleep delay] in
                match doneDuringSleep E attempt with
                | Some cerr => (trace', Err cerr)
                | None => retryLoop fuel' (attempt + 1) (Some err) trace'
                end
              else
                retryLoop fuel' (attempt + 1) (Some err)
                  (trace ++ [Attempt attempt])
          end
      end
  end.

Definition retryWithBackoff : list event * result T :=
  retryLoop (Z.to_nat maxRetryAttempts) 0 None [].

End Loop.

(** A client that answers every call with a rate-limit error, under a
    context that is never cancelled. *)
Definition throttled : env string :=
  {| fn := fun _ => Err (Plain "HTTP 429 Too Many Requests");
     doneBefore := fun _ => None;
     doneDuringSleep := fun _ => None |}.

Definition attempts (trace : list event) : list Z :=
  omap (fun ev => match ev with Attempt k => Some k | _ => None end) trace.

Definition delays (trace : list event) : list Z :=
  omap (fun ev => match ev with Sleep d => Some d | _ => None end) trace.

End Retry.
Export Retry.

(** ** Usage accounting (usage_tracker.go) *)

Module Usage.

Local Open Scope float_scope.

(** The conversion [float64(x)] of an [int64]: round to nearest even. *)
Definition float64_of_int64 (z : Z) : float :=
  if (z <? 0)%Z then
    if (z =? - 2 ^ 63)%Z then (-0x1p63)
    else - PrimFloat.of_uint63 (Uint63.of_Z (- z))
  else PrimFloat.of_uint63 (Uint63.of_Z z).

Record ModelPricing := mkModelPricing {
  InputCostPerMToken : float;
  OutputCostPerMToken : float
}.

(** 0.80 is not a binary64 value; as in Go, the literal denotes the
    nearest one. *)
#[local] Set Warnings "-inexact-float".

Definition modelPricing : gmap string ModelPricing :=
  list_to_map
    [ ("claude-opus-4.6",
        {| InputCostPerMToken := 15.00; OutputCostPerMToken := 75.00 |});
      ("claude-sonnet-4.5",
        {| InputCostPerMToken := 3.00; OutputCostPerMToken := 15.00 |});
      ("claude-sonnet-4.5-20250929",
        {| InputCostPerMToken := 3.00; OutputCostPerMToken := 15.00 |});
      ("claude-haiku-4.5",
        {| InputCostPerMToken := 0.80; OutputCostPerMToken := 4.00 |}) ].

(** [StartTime] and [EndTime] are instants, kept as nanoseconds; the
    field [Error] of the source is [ErrorText] here. *)
Record UsageStats := mkUsageStats {
  Model : string;
  Agent : string;
  InputTokens : Z;
  OutputTokens : Z;
  Duration : Z;
  StartTime : Z;
  EndTime : Z;
  Success : bool;
  ErrorText : string
}.

Definition CalculateCost (u : UsageStats) : float :=
  match modelPricing !! Model u with
  | None => 0.0
  | Some pricing =>
      let inputCost :=
        (float64_of_int64 (InputTokens u) / 1000000.0)
        * InputCostPerMToken pricing in
      let outputCost :=
        (float64_of_int64 (OutputTokens u) / 1000000.0)
        * OutputCostPerMToken pricing in
      inputCost + outputCost
  end.

Record UsageTracker := mkUsageTracker { usages : list UsageStats }.

Definition NewUsageTracker : UsageTracker := {| usages := [] |}.

Definition RecordUsage (t : UsageTracker) (stats : UsageStats) : UsageTracker :=
  {| usages := usages t ++ [stats] |}.

Module AgentSummary.
Record t := mk {
  Agent : string;
  Model : string;
  InputTokens : Z;
  OutputTokens : Z;
  Cost : float;
  Duration : Z;
  Operations : Z;
  Successes : Z
}.
Definition zero : t := mk EmptyString EmptyString 0 0 0.0 0 0 0.
End AgentSummary.

Module ModelSummary.
Record t := mk {
  Model : string;
  InputTokens : Z;
  OutputTokens : Z;
  Cost : float;
  Operations : Z
}.
Definition zero : t := mk EmptyString 0 0 0.0 0.
End ModelSummary.

Record UsageSummary := mkUsageSummary {
  TotalInputTokens : Z;
  TotalOutputTokens : Z;
  TotalCost : float;
  TotalDuration : Z;
  TotalOperations : Z;
  SuccessfulOperations : Z;
  ByAgent : gmap string AgentSummary.t;
  ByModel : gmap string ModelSummary.t
}.

(** One iteration of the [range t.usages] loop of [GetSummary]. *)
Definition summaryStep (summary : UsageSummary) (usage : UsageStats)
    : UsageSummary :=
  let agentSummary := default AgentSummary.zero (ByAgent summary !! Agent usage) in
  let agentSummary' :=
    {| AgentSummary.Agent := Agent usage;
       AgentSummary.Model := Model usage;
       AgentSummary.InputTokens :=
         add64 (AgentSummary.InputTokens agentSummary) (InputTokens usage);
       AgentSummary.OutputTokens :=
         add64 (AgentSummary.OutputTokens agentSummary) (OutputTokens usage);
       AgentSummary.Cost := AgentSummary.Cost agentSummary + CalculateCost usage;
       AgentSummary.Duration :=
         add64 (AgentSummary.Duration agentSummary) (Duration usage);
       AgentSummary.Operations := add64 (AgentSummary.Operations agentSummary) 1;
       AgentSummary.Successes :=
         if Success usage then add64 (AgentSummary.Successes agentSummary) 1
         else AgentSummary.Successes agentSummary |} in
  let modelSummary := default ModelSummary.zero (ByModel summary !! Model usage) in
  let modelSummary' :=
    {| ModelSummary.Model := Model usage;
       ModelSummary.InputTokens :=
         add64 (ModelSummary.InputTokens modelSummary) (InputTokens usage);
       ModelSummary.OutputTokens :=
         add64 (ModelSummary.OutputTokens modelSummary) (OutputTokens usage);
       ModelSummary.Cost := ModelSummary.Cost modelSummary + CalculateCost usage;
       ModelSummary.Operations := add64 (ModelSummary.Operations modelSummary) 1 |} in
  {| TotalInputTokens := add64 (TotalInputTokens summary) (InputTokens usage);
     TotalOutputTokens := add64 (TotalOutputTokens summary) (OutputTokens usage);
     TotalCost := TotalCost summary + CalculateCost usage;
     TotalDuration := add64 (TotalDuration summary) (Duration usage);
     TotalOperations := add64 (TotalOperations summary) 1;
     SuccessfulOperations :=
       if Success usage then add64 (SuccessfulOperations summary) 1
       else SuccessfulOperations summary;
     ByAgent := <[Agent usage := agentSummary']> (ByAgent summary);
     ByModel := <[Model usage := modelSummary']> (ByModel summary) |}.

Definition emptySummary : UsageSummary :=
  {| TotalInputTokens := 0; TotalOutputTokens := 0; TotalCost := 0.0;
     TotalDuration := 0; TotalOperations := 0; SuccessfulOperations := 0;
     ByAgent := ∅; ByModel := ∅ |}.

Definition GetSummary (t : UsageTracker) : UsageSummary :=
  fold_left summaryStep (usages t) emptySummary.

(** The records of the calls that succeeded. *)
Definition successes (records : list UsageStats) : list UsageStats :=
  List.filter Success records.

(** Three calls: a paid one, one to a model the table does not have,
    and a failed one. *)
Definition sampleUsage : list UsageStats :=
  [ mkUsageStats "claude-haiku-4.5" "Quick Scanner" 1000 500 5 0 5 true EmptyString;
    mkUsageStats "claude-3-opus" "Vulnerability Researcher" 800 200 7 5 12 true
      EmptyString;
    mkUsageStats "claude-opus-4.6" "Exploitation Specialist" 0 0 9 12 21 false
      "analysis failed: context deadline exceeded" ].

Definition getModelShortName (model : string) : string :=
  if String.eqb model "claude-opus-4.6" then "Opus 4.6"
  else if String.eqb model "claude-sonnet-4.5"
          || String.eqb model "claude-sonnet-4.5-20250929" then "Sonnet 4.5"
  else if String.eqb model "claude-haiku-4.5" then "Haiku 4.5"
  else model.

End Usage.
Export Usage.

(** ** Scan data (pkg/models) *)

Module Models.

(** A [time.Time], known here by its [Format(time.RFC3339)] rendering. *)
Record Time := mkTime { RFC3339 : string }.

Module Finding.
(** The field [Type] of the source is [Kind] here. *)
Record t := mk {
  ID : string;
  Kind : string;
  Severity : string;
  Title : string;
  Description : string;
  Evidence : string;
  Location : string
}.
End Finding.

Module ScanResult.
Record t := mk {
  ID : string;
  Target : string;
  StartTime : Time;
  EndTime : Time;
  Findings : list Finding.t
}.
End ScanResult.

(** [Timestamp], the clock reading at construction, is left out. *)
Record AIAnalysis := mkAIAnalysis {
  ScanID : string;
  Summary : string;
  CriticalIssues : list string;
  Recommendations : list Recommendation;
  RiskScore : Z
}.

Definition AgentTypeRecon : string := "reconnaissance".
Definition AgentTypeVulnerability : string := "vulnerability".
Definition AgentTypeExploitation : string := "exploitation".
Definition AgentTypeReport : string := "report".
Definition AgentTypeQuickScan : string := "quick-scan".

Module AgentConfig.
Record t := mk {
  Name : string;
  Type_ : string;
  Model : string;
  Thinking : string;
  Description : string;
  UseCase : string
}.
End AgentConfig.

Definition GetDefaultAgents : list AgentConfig.t :=
  [ AgentConfig.mk "Quick Scanner" AgentTypeQuickScan "claude-haiku-4.5" "low"
      "Fast initial scan analysis"
      "Quick triage and basic vulnerability identification";
    AgentConfig.mk "Reconnaissance Analyst" AgentTypeRecon
      "claude-sonnet-4.5-20250929" "high"
      "Deep reconnaissance and attack surface analysis"
      "Technology identification, service enumeration, attack surface mapping";
    AgentConfig.mk "Vulnerability Researcher" AgentTypeVulnerability
      "claude-sonnet-4.5-20250929" "high"
      "Comprehensive vulnerability analysis"
      "OWASP Top 10, CVE research, vulnerability prioritization";
    AgentConfig.mk "Exploitation Specialist" AgentTypeExploitation
      "claude-opus-4.6" "high"
      "Advanced exploitation path analysis"
      "Attack chain development, exploitation techniques, proof-of-concept";
    AgentConfig.mk "Security Reporter" AgentTypeReport
      "claude-sonnet-4.5-20250929" "high"
      "Executive and technical report generation"
      "Risk assessment, executive summaries, remediation roadmaps" ].

End Models.
Export Models.

(** ** The retrying analyzer's prompt (advanced_client.go) *)

Module AdvancedClaudeAnalyzer.

Definition promptHeader (target endTime count id : string) : string :=
  "# Security Scan Analysis Request

## Target Information
- **Target**: " +:+ target +:+ "
- **Scan Time**: " +:+ endTime +:+ "
- **Total Findings**: " +:+ count +:+ "
- **Scan ID**: " +:+ id +:+ "

## Analysis Tasks

Please analyze these security findings and provide:

1. **Executive Summary** (2-3 sentences)
   - Overall security posture
   - Most critical concerns
   - Business impact

2. **Critical Issues** (list top 3-5)
   - Issue description
   - Severity justification
   - Immediate risk

3. **Risk Assessment**
   - Overall risk score (0-100)
   - Scoring rationale
   - Risk factors

4. **Prioritized Recommendations**
   - Quick wins (low effort, high impact)
   - Critical fixes (immediate attention)
   - Long-term improvements

5. **Attack Chains** (if applicable)
   - How vulnerabilities could be chained
   - Potential exploitation scenarios

## Scan Findings

".

Definition promptFooter : string :=
  "

## Output Format

Please structure your response clearly with markdown headings for each section.
Be specific, technical, and actionable.".

(** The body of the [range result.Findings] loop, for the finding at
    index [i]. *)
Definition findingBlock (i : nat) (finding : Finding.t) : string :=
  (nl +:+ "### Finding " +:+ Itoa (Z.of_nat i + 1) +:+ ": ["
     +:+ Finding.Severity finding +:+ "] " +:+ Finding.Title finding +:+ nl)
  +:+ ("- **Type**: " +:+ Finding.Kind finding +:+ nl)
  +:+ ("- **Description**: " +:+ Finding.Description finding +:+ nl)
  +:+ (if negb (String.eqb (Finding.Evidence finding) EmptyString)
       then "- **Evidence**: " +:+ Finding.Evidence finding +:+ nl
       else EmptyString)
  +:+ (if negb (String.eqb (Finding.Location finding) EmptyString)
       then "- **Location**: " +:+ Finding.Location finding +:+ nl
       else EmptyString).

Fixpoint findingsLoop (i : nat) (findings : list Finding.t) (prompt : string)
    : string :=
  match findings with
  | [] => prompt
  | finding :: rest => findingsLoop (S i) rest (prompt +:+ findingBlock i finding)
  end.

Definition buildAnalysisPrompt (result : ScanResult.t) : string :=
  let prompt :=
    promptHeader (ScanResult.Target result)
      (RFC3339 (ScanResult.EndTime result))
      (Itoa (Z.of_nat (length (ScanResult.Findings result))))
      (ScanResult.ID result) in
  let prompt := findingsLoop 0 (ScanResult.Findings result) prompt in
  prompt +:+ promptFooter.

End AdvancedClaudeAnalyzer.

(** ** The multi-agent manager (agent_manager.go) *)

Module AgentManager.

Fixpoint formatLoop (i : nat) (findings : list Finding.t) (result : string)
    : string :=
  match findings with
  | [] => result
  | finding :: rest =>
      let result :=
        result +:+ (nl +:+ Itoa (Z.of_nat i + 1) +:+ ". ["
                      +:+ Finding.Severity finding +:+ "] "
                      +:+ Finding.Title finding) in
      let result :=
        if negb (String.eqb (Finding.Description finding) EmptyString)
        then result +:+ (nl +:+ "   Details: " +:+ Finding.Description finding)
        else result in
      formatLoop (S i) rest result
  end.

Definition formatFindings (findings : list Finding.t) : string :=
  if (Z.of_nat (length findings) =? 0)%Z then "No findings detected"
  else formatLoop 0 findings EmptyString.

Definition buildAnalysisPrompt (result : ScanResult.t) : string :=
  "# Security Scan Analysis Request

## Target Information
- **Target**: " +:+ ScanResult.Target result +:+ "
- **Scan Time**: " +:+ RFC3339 (ScanResult.StartTime result) +:+ "
- **Total Findings**: " +:+ Itoa (Z.of_nat (length (ScanResult.Findings result))) +:+ "

## Analysis Tasks
1. Executive Summary (2-3 sentences)
2. Critical Issues (top 3-5 vulnerabilities)
3. Risk Assessment (score 0-100)
4. Prioritized Recommendations
5. Potential Attack Chains

## Scan Findings
" +:+ formatFindings (ScanResult.Findings result) +:+ "

## Output Format
Use markdown headings. Be specific and actionable.".

Definition buildReconPrompt (result : ScanResult.t) : string :=
  "# Reconnaissance Analysis

Analyze the target's attack surface:
- Exposed services and ports
- Technology stack and versions
- Configuration weaknesses
- Potential entry points

Target: " +:+ ScanResult.Target result +:+ "
Findings: " +:+ formatFindings (ScanResult.Findings result) +:+ "

Provide detailed reconnaissance insights.".

Definition buildVulnPrompt (result : ScanResult.t) (reconData : string) : string :=
  "# Vulnerability Analysis

Based on reconnaissance findings, perform deep vulnerability analysis:
- OWASP Top 10 vulnerabilities
- Known CVEs
- Configuration issues
- Security misconfigurations

Target: " +:+ ScanResult.Target result +:+ "
Reconnaissance Data:
" +:+ reconData +:+ "

Scan Findings:
" +:+ formatFindings (ScanResult.Findings result) +:+ "

Provide comprehensive vulnerability assessment with risk scores.".

Definition buildExploitPrompt (result : ScanResult.t) (reconData vulnData : string)
    : string :=
  "# Exploitation Analysis

Analyze exploitation possibilities:
- Complete attack chains
- Exploitation prerequisites
- Proof-of-concept approaches
- Real-world impact

Target: " +:+ ScanResult.Target result +:+ "

Reconnaissance:
" +:+ reconData +:+ "

Vulnerabilities:
" +:+ vulnData +:+ "

Provide detailed exploitation assessment.".

Definition parseAnalysisResponse (text scanID : string) : AIAnalysis :=
  {| ScanID := scanID;
     Summary := parseAnalysisSummary text;
     RiskScore := parseRiskScore text;
     CriticalIssues := parseCriticalIssues text;
     Recommendations := parseRecommendations text |}.

(** *** Calls to the agents *)

(** What one [agent.client.Run(timeoutCtx, prompt)] brings back from
    outside: the text or the error, the clock readings taken around it,
    and the lines the ticker goroutine handed to the progress callback
    while the call was in flight. *)
Record RunOutcome := mkRunOutcome {
  ran : result string;
  startTime : Z;
  elapsed : Z;
  endTime : Z;
  tickerLines : list string
}.

(** The one-shot clients, by agent type and prompt. *)
Definition Clients := string -> string -> RunOutcome.

Record Agent := mkAgent { config : AgentConfig.t }.

(** The manager's [agents] map is fixed after construction; its tracker
    is shared and grows. *)
Record State := mkState {
  tracker : UsageTracker;
  shown : list string   (* arguments of the calls to [progress], in order *)
}.

Definition M (A : Type) : Type := State -> A * State.

#[export] Instance M_ret : MRet M := fun A a s => (a, s).
#[export] Instance M_bind : MBind M :=
  fun A B f m s => let '(a, s') := m s in f a s'.

(** [if progress != nil { progress(msg) }]; [progress] tells whether the
    callback is non-nil. *)
Definition report (progress : bool) (msg : string) : M unit :=
  fun s =>
    if progress
    then (tt, {| tracker := tracker s; shown := shown s ++ [msg] |})
    else (tt, s).

Definition reportAll (progress : bool) (msgs : list string) : M unit :=
  fun s =>
    if progress
    then (tt, {| tracker := tracker s; shown := shown s ++ msgs |})
    else (tt, s).

Definition recordUsage (stats : UsageStats) : M unit :=
  fun s => (tt, {| tracker := RecordUsage (tracker s) stats; shown := shown s |}).

Section WithAgents.
Context (agents : gmap string Agent) (clients : Clients).

Definition AnalyzeWithAgent (agentType prompt : string) (progress : bool)
    : M (result string) :=
  match agents !! agentType with
  | None => mret (Err (Plain ("agent type " +:+ agentType +:+ " not found")))
  | Some agent =>
      let cfg := config agent in
      _ ← report progress
            ("🤖 Using " +:+ AgentConfig.Name cfg +:+ " ("
               +:+ getModelShortName (AgentConfig.Model cfg) +:+ ")");
      _ ← report progress ("📋 Task: " +:+ AgentConfig.Description cfg);
      let out := clients agentType prompt in
      _ ← reportAll progress (tickerLines out);
      let stats :=
        match ran out with
        | Err err =>
            {| Usage.Model := AgentConfig.Model cfg;
               Usage.Agent := AgentConfig.Name cfg;
               InputTokens := 0; OutputTokens := 0;
               Duration := elapsed out; StartTime := startTime out;
               EndTime := endTime out; Success := false;
               ErrorText := Error err |}
        | Ok text =>
            {| Usage.Model := AgentConfig.Model cfg;
               Usage.Agent := AgentConfig.Name cfg;
               InputTokens := div64 (len prompt) 4;
               OutputTokens := div64 (len text) 4;
               Duration := elapsed out; StartTime := startTime out;
               EndTime := endTime out; Success := true;
               ErrorText := EmptyString |}
        end in
      _ ← recordUsage stats;
      match ran out with
      | Err err => mret (Err (Errorf "analysis failed: " err EmptyString))
      | Ok text => mret (Ok text)
      end
  end.

Definition exploitPlaceholder : string := "Exploitation analysis not available.".

Definition exploitWarning (err : error) : string :=
  "⚠️  Exploitation analysis unavailable: " +:+ Error err.

Definition combinedText (reconResult vulnResult exploitResult : string) : string :=
  "# Reconnaissance Findings
" +:+ reconResult +:+ "

# Vulnerability Analysis
" +:+ vulnResult +:+ "

# Exploitation Assessment
" +:+ exploitResult.

Definition runDeepAnalysis (result : ScanResult.t) (progress : bool)
    : M (GoErrors.result AIAnalysis) :=
  _ ← report progress "🔬 Deep analysis mode: Using multiple specialized agents";
  _ ← report progress (nl +:+ "📍 Stage 1/3: Reconnaissance Analysis");
  let reconPrompt := buildReconPrompt result in
  r1 ← AnalyzeWithAgent AgentTypeRecon reconPrompt progress;
  match r1 with
  | Err err => mret (Err (Errorf "recon stage failed: " err EmptyString))
  | Ok reconResult =>
      _ ← report progress (nl +:+ "🔍 Stage 2/3: Vulnerability Analysis");
      let vulnPrompt := buildVulnPrompt result reconResult in
      r2 ← AnalyzeWithAgent AgentTypeVulnerability vulnPrompt progress;
      match r2 with
      | Err err => mret (Err (Errorf "vulnerability stage failed: " err EmptyString))
      | Ok vulnResult =>
          _ ← report progress (nl +:+ "💥 Stage 3/3: Exploitation Analysis");
          let exploitPrompt := buildExploitPrompt result reconResult vulnResult in
          r3 ← AnalyzeWithAgent AgentTypeExploitation exploitPrompt progress;
          exploitResult ←
            match r3 with
            | Err err =>
                _ ← report progress (exploitWarning err);
                mret exploitPlaceholder
            | Ok text => mret text
            end;
          mret (Ok (parseAnalysisResponse
                      (combinedText reconResult vulnResult exploitResult)
                      (ScanResult.ID result)))
      end
  end.

Definition runQuickAnalysis (result : ScanResult.t) (progress : bool)
    : M (GoErrors.result AIAnalysis) :=
  let prompt := buildAnalysisPrompt result in
  r ← AnalyzeWithAgent AgentTypeQuickScan prompt progress;
  match r with
  | Err err => mret (Err err)
  | Ok text => mret (Ok (parseAnalysisResponse text (ScanResult.ID result)))
  end.

End WithAgents.

(** What a call to an agent returns.  It depends on the agents and on
    the clients only, not on the callback or on the tracker
    ([AnalyzeWithAgent_result] below). *)
Definition stage (agents : gmap string Agent) (clients : Clients)
    (agentType prompt : string) : result string :=
  fst (AnalyzeWithAgent agents clients agentType prompt false
         {| tracker := NewUsageTracker; shown := [] |}).

(** The map built by [NewAgentManager] when every client starts. *)
Definition defaultAgents : gmap string Agent :=
  foldl (fun m cfg => <[AgentConfig.Type_ cfg := mkAgent cfg]> m) ∅ GetDefaultAgents.

Definition initial : State := {| tracker := NewUsageTracker; shown := [] |}.

(** A scan of example.com that found nothing. *)
Definition emptyScan : ScanResult.t :=
  ScanResult.mk "scan-1" "example.com" (mkTime "2024-05-01T10:00:00Z")
    (mkTime "2024-05-01T10:05:00Z") [].

(** Clients of which the exploitation one runs into its deadline. *)
Definition exploitDown : Clients :=
  fun agentType prompt =>
    if String.eqb agentType AgentTypeExploitation then
      mkRunOutcome (Err (Sentinel ctxDeadlineExceeded)) 0 600000000000
        600000000000 ["   🔍 Analyzing security findings (15s)"]
    else if String.eqb agentType AgentTypeRecon then
      mkRunOutcome (Ok ("## Summary" +:+ nl +:+ "Two hosts answer on port 443."))
        0 2000000000 2000000000 []
    else
      mkRunOutcome (Ok "Risk Score: 40/100") 0 3000000000 3000000000 [].

End AgentManager.

(** ** Permission negotiation (permission_manager.go) *)

Module Permission.

Record PermissionManager := mkPermissionManager {
  sudoAvailable : bool;
  sudoTested : bool;
  userApproved : gmap string bool
}.

Definition NewPermissionManager : PermissionManager :=
  {| sudoAvailable := false; sudoTested := false; userApproved := ∅ |}.

(** The process's surroundings: the lines still to come on standard
    input (without their newline; an empty list is end of file), what
    was written to standard output, one entry per print call, and the
    answers of the two probes of [CheckSudoAvailable]. *)
Record World := mkWorld {
  stdin : list string;
  stdout : list string;
  lookPathSudo : bool;     (* [exec.LookPath("sudo")] finds the binary *)
  sudoNonInteractive : bool (* [sudo -n true] exits with status 0 *)
}.

Definition print (w : World) (s : string) : World :=
  {| stdin := stdin w; stdout := stdout w ++ [s];
     lookPathSudo := lookPathSudo w;
     sudoNonInteractive := sudoNonInteractive w |}.

(** [reader.ReadString('\n')] on a fresh reader over [os.Stdin]. *)
Definition readLine (w : World) : result string * World :=
  match stdin w with
  | [] => (Err (Plain "EOF"), w)
  | line :: rest =>
      (Ok (line +:+ nl),
       {| stdin := rest; stdout := stdout w;
          lookPathSudo := lookPathSudo w;
          sudoNonInteractive := sudoNonInteractive w |})
  end.

Definition CheckSudoAvailable (pm : PermissionManager) (w : World)
    : bool * PermissionManager :=
  if sudoTested pm then (sudoAvailable pm, pm)
  else if negb (lookPathSudo w) then
    (false, {| sudoAvailable := false; sudoTested := true;
               userApproved := userApproved pm |})
  else
    (sudoNonInteractive w,
     {| sudoAvailable := sudoNonInteractive w; sudoTested := true;
        userApproved := userApproved pm |}).

Definition approve (pm : PermissionManager) (key : string) (v : bool)
    : PermissionManager :=
  {| sudoAvailable := sudoAvailable pm; sudoTested := sudoTested pm;
     userApproved := <[key := v]> (userApproved pm) |}.

Definition rule : string := "━━━━━━━━━━━━━━━━━━━━━━━━━━━━━━━━━━━━━━━━━━━━".

Definition question : string := nl +:+ "Allow this command? (yes/no/always): ".

(** [RequestRootPermission]: the pair of the source's results, the
    manager and the world afterwards.  The second component of the pair
    is the error, [None] for nil. *)
Definition RequestRootPermission (pm : PermissionManager) (w : World)
    (tool purpose command : string)
    : (bool * option error) * PermissionManager * World :=
  let cacheKey := tool +:+ ":" +:+ command in
  match userApproved pm !! cacheKey with
  | Some approved => ((approved, None), pm, w)
  | None =>
      let w := print w (nl +:+ "🔐 Root Permission Request" +:+ nl) in
      let w := print w (rule +:+ nl) in
      let w := print w (nl +:+ "📋 Tool: " +:+ tool +:+ nl) in
      let w := print w ("🎯 Purpose: " +:+ purpose +:+ nl) in
      let w := print w ("💻 Command: " +:+ command +:+ nl) in
      let '(available, pm) := CheckSudoAvailable pm w in
      if negb available then
        let w := print w (nl +:+ "⚠️  sudo is not available or not configured" +:+ nl) in
        let w := print w ("💡 Options:" +:+ nl) in
        let w := print w ("   1. Configure sudo access" +:+ nl) in
        let w := print w ("   2. Run Shadow as root (not recommended)" +:+ nl) in
        let w := print w ("   3. Skip this scan and use alternatives" +:+ nl) in
        ((false, Some (Plain "sudo not available")), pm, w)
      else
        let w := print w (nl +:+ "⚠️  This command requires elevated privileges (root/sudo)" +:+ nl) in
        let w := print w ("🔒 Shadow will ONLY run the specific command shown above" +:+ nl) in
        let w := print w ("📊 This is needed for comprehensive security scanning" +:+ nl) in
        let w := print w question in
        match readLine w with
        | (Err err, w) => ((false, Some err), pm, w)
        | (Ok response, w) =>
            let response := ToLower (TrimSpace response) in
            if String.eqb response "yes" || String.eqb response "y" then
              ((true, None), approve pm cacheKey true, w)
            else if String.eqb response "always" || String.eqb response "a" then
              let pm := approve pm (tool +:+ ":*") true in
              let pm := approve pm cacheKey true in
              ((true, None), pm, w)
            else if String.eqb response "no" || String.eqb response "n" then
              ((false, None), approve pm cacheKey false, w)
            else
              let w := print w ("⚠️  Invalid response, treating as 'no'" +:+ nl) in
              ((false, None), approve pm cacheKey false, w)
        end
  end.

(** How often the user has been asked: the times the question is on
    standard output. *)
Definition asked (w : World) : nat :=
  length (List.filter (String.eqb question) (stdout w)).

(** A terminal with working sudo at which the user types "always" and
    then "no". *)
Definition terminal : World :=
  {| stdin := ["always"; "no"]; stdout := [];
     lookPathSudo := true; sudoNonInteractive := true |}.

End Permission.
Export Permission.

(** ** More of package strings *)

Module GoStringsMore.

(** [strings.Split(s, sep)] for a separator of one byte. *)
Fixpoint SplitByte (sep : ascii) (s : string) : list string :=
  match s with
  | EmptyString => [EmptyString]
  | String c s' =>
      let rest := SplitByte sep s' in
      if Ascii.eqb c sep then EmptyString :: rest
      else match rest with
           | l :: ls => String c l :: ls
           | [] => [String c EmptyString]
           end
  end.

(** [strings.Join(parts, sep)] *)
Fixpoint JoinWith (sep : string) (parts : list string) : string :=
  match parts with
  | [] => EmptyString
  | [p] => p
  | p :: ps => p +:+ sep +:+ JoinWith sep ps
  end.

(** [strings.Index(s, sub)], [-1] when [sub] does not occur. *)
Fixpoint Index (s sub : string) : Z :=
  if HasPrefix s sub then 0
  else match s with
       | EmptyString => -1
       | String _ s' =>
           let i := Index s' sub in
           if i <? 0 then -1 else i + 1
       end.

(** [s[:n]] for [0 <= n <= len(s)]. *)
Fixpoint Take (n : nat) (s : string) : string :=
  match n, s with
  | S n', String c s' => String c (Take n' s')
  | _, _ => EmptyString
  end.

(** [s[n:]] for [0 <= n <= len(s)]. *)
Fixpoint Drop (n : nat) (s : string) : string :=
  match n, s with
  | S n', String _ s' => Drop n' s'
  | _, _ => s
  end.

(** [strings.TrimPrefix(s, prefix)] *)
Definition TrimPrefix (s prefix : string) : string :=
  if HasPrefix s prefix then Drop (String.length prefix) s else s.

(** [strings.Fields(s)]: the maximal runs of non-blank bytes, [word] being
    the run that is being read (in reverse). *)
Fixpoint fieldsLoop (s : string) (word : string) : list string :=
  match s with
  | EmptyString =>
      match word with
      | EmptyString => []
      | _ => [word]
      end
  | String c s' =>
      if isSpace c then
        match word with
        | EmptyString => fieldsLoop s' EmptyString
        | _ => word :: fieldsLoop s' EmptyString
        end
      else fieldsLoop s' (word +:+ String c EmptyString)
  end.

Definition Fields (s : string) : list string := fieldsLoop s EmptyString.

End GoStringsMore.
Export GoStringsMore.

(** ** The autonomous researcher's text helpers (advanced_client.go,
    second file of the package) *)

Module Researcher.

(** [extractSection]: the loop body with its [continue] and [break],
    threading [inSection] and the builder. *)
Fixpoint sectionLoop (sectionName : string) (lines : list string)
    (inSection : bool) (section : string) : string :=
  match lines with
  | [] => section
  | line :: rest =>
      if Contains line sectionName then sectionLoop sectionName rest true section
      else if inSection && HasPrefix line "###" then section
      else
        let section' :=
          if inSection && negb (String.eqb (TrimSpace line) EmptyString)
          then section +:+ (line +:+ nl)
          else section in
        sectionLoop sectionName rest inSection section'
  end.

Definition extractSection (text sectionName : string) : string :=
  TrimSpace (sectionLoop sectionName (SplitLines text) false EmptyString).

Fixpoint hypothesesLoop (lines : list string) (inHypotheses : bool)
    (hypotheses : list string) : list string :=
  match lines with
  | [] => hypotheses
  | line :: rest =>
      if Contains line "HYPOTHESES" || Contains line "SUSPECTED"
      then hypothesesLoop rest true hypotheses
      else
        let hypotheses' :=
          if inHypotheses && HasPrefix (TrimSpace line) "-"
          then hypotheses ++ [TrimSpace line]
          else hypotheses in
        if inHypotheses && HasPrefix line "###" then hypotheses'
        else hypothesesLoop rest inHypotheses hypotheses'
  end.

Definition parseHypotheses (text : string) : list string :=
  hypothesesLoop (SplitLines text) false [].

Fixpoint nextStepsLoop (lines : list string) (inNextSteps : bool)
    (steps : list string) : list string :=
  match lines with
  | [] => steps
  | line :: rest =>
      if Contains line "NEXT STEPS" || Contains line "VERIFICATION"
      then nextStepsLoop rest true steps
      else
        let steps' :=
          if inNextSteps
             && (HasPrefix (TrimSpace line) "-" || HasPrefix (TrimSpace line) "1.")
          then steps ++ [TrimSpace line]
          else steps in
        nextStepsLoop rest inNextSteps steps'
  end.

Definition parseNextSteps (text : string) : list string :=
  nextStepsLoop (SplitLines text) false [].

Fixpoint detailedLoop (i : nat) (findings : list Finding.t) (result : string)
    : string :=
  match findings with
  | [] => result
  | finding :: rest =>
      let result :=
        result +:+ (nl +:+ Itoa (Z.of_nat i + 1) +:+ ". ["
                      +:+ Finding.Severity finding +:+ "] "
                      +:+ Finding.Title finding +:+ nl) in
      let result :=
        if negb (String.eqb (Finding.Description finding) EmptyString)
        then result +:+ ("   Description: " +:+ Finding.Description finding +:+ nl)
        else result in
      let result :=
        if negb (String.eqb (Finding.Evidence finding) EmptyString)
        then result +:+ ("   Evidence: " +:+ Finding.Evidence finding +:+ nl)
        else result in
      let result :=
        if negb (String.eqb (Finding.Location finding) EmptyString)
        then result +:+ ("   Location: " +:+ Finding.Location finding +:+ nl)
        else result in
      detailedLoop (S i) rest result
  end.

Definition formatFindingsDetailed (findings : list Finding.t) : string :=
  if (Z.of_nat (length findings) =? 0)%Z then "No initial findings provided."
  else detailedLoop 0 findings EmptyString.

(** [Timestamp], a clock reading, is left out. *)
Record ResearchIteration := mkResearchIteration {
  Number : Z;
  Phase : string;
  Findings : string;
  NewHypotheses : list string;
  NextSteps : list string
}.

Fixpoint synthesisLoop (iterations : list ResearchIteration) (synthesis : string)
    : string :=
  match iterations with
  | [] => synthesis
  | iteration :: rest =>
      let synthesis := synthesis +:+ ("### " +:+ Phase iteration +:+ nl) in
      let synthesis :=
        synthesis +:+ (extractSection (Findings iteration) "CRITICAL" +:+ nl +:+ nl) in
      synthesisLoop rest synthesis
  end.

Definition synthesizeFindings (iterations : list ResearchIteration) : string :=
  let synthesis := EmptyString in
  let synthesis := synthesis +:+ ("# Final Security Assessment" +:+ nl +:+ nl) in
  let synthesis := synthesis +:+ ("## Research Summary" +:+ nl) in
  let synthesis :=
    synthesis +:+ ("Conducted " +:+ Itoa (Z.of_nat (length iterations))
                     +:+ " iterations of autonomous security research."
                     +:+ nl +:+ nl) in
  let synthesis := synthesis +:+ ("## Key Findings" +:+ nl) in
  synthesisLoop iterations synthesis.

End Researcher.
Export Researcher.

(** ** The retrying analyzer's calls (advanced_client.go) *)

Module RetryCalls.

Definition retryStringNotice (attempt delay : Z) : string :=
  "⚠️  Retry " +:+ Itoa (attempt + 1) +:+ "/" +:+ Itoa maxRetryAttempts
    +:+ " after " +:+ durationString delay +:+ nl.

(** The loop of [retryStringWithBackoff], as [retryLoop] is the loop of
    [retryWithBackoff]. *)
Fixpoint retryStringLoop (E : env string) (fuel : nat) (attempt : Z)
    (lastErr : option error) (trace : list event) : list event * result string :=
  match fuel with
  | O =>
      (trace,
       Err (match lastErr with
            | Some e => Errorf "max retries exceeded: " e EmptyString
            | None => Plain "max retries exceeded: %!w(<nil>)"
            end))
  | S fuel' =>
      match doneBefore E attempt with
      | Some cerr => (trace, Err cerr)
      | None =>
          match fn E attempt with
          | Ok r => (trace ++ [Attempt attempt], Ok r)
          | Err err =>
              if negb (isRetryableError (Some err))
              then (trace ++ [Attempt attempt], Err err)
              else if attempt + 1 <? maxRetryAttempts then
                let delay := mul64 baseRetryDelay (attempt + 1) in
                let trace' :=
                  trace ++ [Attempt attempt;
                            Print (retryStringNotice attempt delay);
                            Sleep delay] in
                match doneDuringSleep E attempt with
                | Some cerr => (trace', Err cerr)
                | None => retryStringLoop E fuel' (attempt + 1) (Some err) trace'
                end
              else
                retryStringLoop E fuel' (attempt + 1) (Some err)
                  (trace ++ [Attempt attempt])
          end
      end
  end.

Definition retryStringWithBackoff (E : env string) : list event * result string :=
  retryStringLoop E (Z.to_nat maxRetryAttempts) 0 None [].

(** The trace without the notices. *)
Definition quiet (trace : list event) : list event :=
  List.filter (fun ev => match ev with Print _ => false | _ => true end) trace.

(** The analysis read off a reply, as [analyzeScanOnce] and
    [PiClaudeAnalyzer.AnalyzeScan] build it. *)
Definition analysisOf (text : string) (result : ScanResult.t) : AIAnalysis :=
  {| ScanID := ScanResult.ID result;
     Summary := parseAnalysisSummary text;
     RiskScore := parseRiskScore text;
     CriticalIssues := parseCriticalIssues text;
     Recommendations := parseRecommendations text |}.

(** [analyzeScanOnce]; [run] is [a.client.Run(ctx, _)] of this attempt. *)
Definition analyzeScanOnce (run : string -> result string) (result : ScanResult.t)
    : GoErrors.result AIAnalysis :=
  let prompt := AdvancedClaudeAnalyzer.buildAnalysisPrompt result in
  match run prompt with
  | Err err => Err (Errorf "failed to run analysis: " err EmptyString)
  | Ok text =>
      if String.eqb (TrimSpace text) EmptyString
      then Err (Sentinel errEmptyResponse)
      else Ok (analysisOf text result)
  end.

(** What surrounds a call of the analyzer: the client's answer to the
    prompt at each attempt, and the state of the context (the caller's,
    cut off after [defaultAnalysisTimeout] or [defaultQueryTimeout]) where
    the loop looks at it. *)
Record Session := mkSession {
  clientRun : Z -> string -> result string;
  ctxBefore : Z -> option error;
  ctxDuringSleep : Z -> option error
}.

Definition AnalyzeScanWithRetry (S : Session) (result : ScanResult.t)
    : list event * GoErrors.result AIAnalysis :=
  retryWithBackoff
    {| fn := fun attempt => analyzeScanOnce (clientRun S attempt) result;
       doneBefore := ctxBefore S;
       doneDuringSleep := ctxDuringSleep S |}.

(** The function literal passed by [QueryWithRetry]. *)
Definition queryOnce (run : string -> result string) (scanID question : string)
    : result string :=
  let prompt := "Scan ID: " +:+ scanID +:+ nl +:+ "Question: " +:+ question in
  match run prompt with
  | Err err => Err err
  | Ok text =>
      if String.eqb (TrimSpace text) EmptyString
      then Err (Sentinel errEmptyResponse)
      else Ok text
  end.

Definition QueryWithRetry (S : Session) (scanID question : string)
    : list event * result string :=
  retryStringWithBackoff
    {| fn := fun attempt => queryOnce (clientRun S attempt) scanID question;
       doneBefore := ctxBefore S;
       doneDuringSleep := ctxDuringSleep S |}.

(** A client that answers with blanks only, under an open context. *)
Definition blankSession : Session :=
  {| clientRun := fun _ _ => Ok ("  " +:+ nl);
     ctxBefore := fun _ => None;
     ctxDuringSleep := fun _ => None |}.

(** A client that fails once with a dropped connection and then answers. *)
Definition flakySession : Session :=
  {| clientRun := fun attempt _ =>
       if attempt =? 0 then Err (Plain "read tcp: connection reset by peer")
       else Ok "Risk Score: 40/100";
     ctxBefore := fun _ => None;
     ctxDuringSleep := fun _ => None |}.

End RetryCalls.
Export RetryCalls.

(** ** The plain analyzer (advanced_client.go, third file of the package) *)

Module PiClaudeAnalyzer.

(** [result.EndTime] is printed by [%s] here, that is by
    [time.Time.String()], which [timeString] stands for. *)
Definition buildAnalysisPrompt (timeString : Time -> string)
    (result : ScanResult.t) : string :=
  let prompt :=
    "You are a senior security analyst reviewing scan results for "
      +:+ ScanResult.Target result +:+ ".

Scan completed at: " +:+ timeString (ScanResult.EndTime result) +:+ "
Total findings: " +:+ Itoa (Z.of_nat (length (ScanResult.Findings result))) +:+ "

Please analyze these security findings and provide:
1. Executive summary (2-3 sentences)
2. Critical issues that need immediate attention
3. Prioritized recommendations with implementation steps
4. Potential attack chains combining multiple vulnerabilities
5. Risk score (0-100)

Findings:
" in
  fold_left
    (fun prompt finding =>
       prompt +:+ (nl +:+ "- [" +:+ Finding.Severity finding +:+ "] "
                     +:+ Finding.Title finding +:+ ": "
                     +:+ Finding.Description finding))
    (ScanResult.Findings result) prompt.

Definition AnalyzeScan (timeString : Time -> string)
    (run : string -> result string) (result : ScanResult.t)
    : GoErrors.result AIAnalysis :=
  let prompt := buildAnalysisPrompt timeString result in
  match run prompt with
  | Err err => Err (Errorf "failed to run analysis: " err EmptyString)
  | Ok text => Ok (analysisOf text result)
  end.

(** [QueryResults] *)
Definition QueryResults (run : string -> result string) (scanID question : string)
    : result string :=
  let prompt := "Scan ID: " +:+ scanID +:+ nl +:+ "Question: " +:+ question in
  match run prompt with
  | Err err => Err (Errorf "failed to run query: " err EmptyString)
  | Ok text => Ok text
  end.

End PiClaudeAnalyzer.

(** ** What a summary is compared with *)

Module UsageViews.

Local Open Scope float_scope.

(** The tracker after [records] have been recorded, in order. *)
Definition recorded (records : list UsageStats) : UsageTracker :=
  fold_left RecordUsage records NewUsageTracker.

(** The mathematical sum of a field over [records]. *)
Definition sumOf (f : UsageStats -> Z) (records : list UsageStats) : Z :=
  fold_left (fun s r => (s + f r)%Z) records 0%Z.

(** The float64 sum of the costs, in order, from 0. *)
Definition costOf (records : list UsageStats) : float :=
  fold_left (fun total r => total + CalculateCost r) records 0.0.

Definition ofModel (model : string) (records : list UsageStats) : list UsageStats :=
  List.filter (fun r => String.eqb (Model r) model) records.

Definition ofAgent (agent : string) (records : list UsageStats) : list UsageStats :=
  List.filter (fun r => String.eqb (Agent r) agent) records.

(** The entry of a model whose records are [rs], in recording order. *)
Definition modelView (model : string) (rs : list UsageStats)
    : option ModelSummary.t :=
  match rs with
  | [] => None
  | _ =>
      Some {| ModelSummary.Model := model;
              ModelSummary.InputTokens := wrap64 (sumOf InputTokens rs);
              ModelSummary.OutputTokens := wrap64 (sumOf OutputTokens rs);
              ModelSummary.Cost := costOf rs;
              ModelSummary.Operations := wrap64 (Z.of_nat (length rs)) |}
  end.

(** The entry of an agent whose records are [rs], in recording order. *)
Definition agentView (agent : string) (rs : list UsageStats)
    : option AgentSummary.t :=
  match last rs with
  | None => None
  | Some latest =>
      Some {| AgentSummary.Agent := agent;
              AgentSummary.Model := Model latest;
              AgentSummary.InputTokens := wrap64 (sumOf InputTokens rs);
              AgentSummary.OutputTokens := wrap64 (sumOf OutputTokens rs);
              AgentSummary.Cost := costOf rs;
              AgentSummary.Duration := wrap64 (sumOf Duration rs);
              AgentSummary.Operations := wrap64 (Z.of_nat (length rs));
              AgentSummary.Successes :=
                wrap64 (Z.of_nat (length (successes rs))) |}
  end.

End UsageViews.
Export UsageViews.

(** ** The analysis profiles (agent_manager.go) *)

Module AgentProfiles.

Import AgentManager.

Definition normalizeThinking (value : string) : string :=
  let v := ToLower (TrimSpace value) in
  if String.eqb v "low" || String.eqb v "high"
  then ToLower (TrimSpace value)
  else "high".

(** The lines [runStandardAnalysis] shows for the first three findings. *)
Fixpoint previewLoop (i : nat) (findings : list Finding.t) : list string :=
  match findings with
  | [] => []
  | finding :: rest =>
      (if (Z.of_nat i <? 3)%Z
       then ["   • [" +:+ Finding.Severity finding +:+ "] "
               +:+ Finding.Title finding]
       else [])
      ++ previewLoop (S i) rest
  end.

Section WithAgents.
Context (agents : gmap string Agent) (clients : Clients).

Definition runStandardAnalysis (result : ScanResult.t) (progress : bool)
    : M (GoErrors.result AIAnalysis) :=
  let findings := ScanResult.Findings result in
  _ ← report progress
        ("📋 Preparing analysis of " +:+ Itoa (Z.of_nat (length findings))
           +:+ " findings from " +:+ ScanResult.Target result);
  _ ← reportAll progress
        (if (Z.of_nat (length findings) >? 0)%Z
         then previewLoop 0 findings
                ++ (if (Z.of_nat (length findings) >? 3)%Z
                    then ["   • ... and "
                            +:+ Itoa (Z.of_nat (length findings) - 3) +:+ " more"]
                    else [])
         else []);
  _ ← report progress EmptyString;
  let prompt := buildAnalysisPrompt result in
  r ← AnalyzeWithAgent agents clients AgentTypeVulnerability prompt progress;
  match r with
  | Err err => mret (Err err)
  | Ok text => mret (Ok (parseAnalysisResponse text (ScanResult.ID result)))
  end.

Definition AnalyzeScanWithAgents (result : ScanResult.t) (profile : string)
    (progress : bool) : M (GoErrors.result AIAnalysis) :=
  _ ← report progress "🚀 Starting multi-agent analysis...";
  if String.eqb profile "quick" then
    runQuickAnalysis agents clients result progress
  else if String.eqb profile "standard" then
    runStandardAnalysis result progress
  else if String.eqb profile "deep" then
    runDeepAnalysis agents clients result progress
  else
    runStandardAnalysis result progress.

(** A usage record made for one of the manager's agents. *)
Definition ofKnownAgent (u : UsageStats) : Prop :=
  exists agentType agent,
    agents !! agentType = Some agent /\
    Usage.Agent u = AgentConfig.Name (config agent) /\
    Usage.Model u = AgentConfig.Model (config agent).

End WithAgents.

End AgentProfiles.
Export AgentProfiles.

(** ** The shape of what an analysis records *)

Module UsageShapes.

Import AgentManager.

Section WithAgents.
Context (agents : gmap string Agent).

(** What one call of [AnalyzeWithAgent] with result [r] appends to the
    tracker: a record of a success, or of a failure without tokens, or
    nothing when the agent type is not in the map. *)
Definition callShape {A : Type} (r : result A) (us : list UsageStats) : Prop :=
  match r with
  | Ok _ => exists u, us = [u] /\ Success u = true /\ ofKnownAgent agents u
  | Err _ =>
      (us = [] /\ exists agentType, agents !! agentType = None) \/
      exists u, us = [u] /\ Success u = false /\
                InputTokens u = 0 /\ OutputTokens u = 0 /\
                ofKnownAgent agents u
  end.

(** What [runDeepAnalysis] with result [r] appends. *)
Definition deepShape {A : Type} (r : result A) (us : list UsageStats) : Prop :=
  match r with
  | Ok _ =>
      exists u1 u2 rest (r3 : result string),
        us = u1 :: u2 :: rest /\
        Success u1 = true /\ ofKnownAgent agents u1 /\
        Success u2 = true /\ ofKnownAgent agents u2 /\
        callShape r3 rest
  | Err e =>
      callShape (@Err A e) us \/
      exists u1 rest,
        us = u1 :: rest /\ Success u1 = true /\ ofKnownAgent agents u1 /\
        callShape (@Err A e) rest
  end.

End WithAgents.

End UsageShapes.

(** ** Running commands (permission_manager.go) *)

Module PermissionRun.

Import Permission.

(** The world together with the programs it can start: [exec] is what
    [CombinedOutput] of a command with this name and these arguments
    returns, [executed] the commands started so far, in order. *)
Record Machine := mkMachine {
  world : World;
  exec : string -> list string -> string * option error;
  executed : list (string * list string)
}.

Definition withWorld (m : Machine) (w : World) : Machine :=
  {| world := w; exec := exec m; executed := executed m |}.

Definition say (m : Machine) (s : string) : Machine :=
  withWorld m (print (world m) s).

(** [exec.Command(name, args...).CombinedOutput()] *)
Definition CombinedOutput (m : Machine) (name : string) (args : list string)
    : (string * option error) * Machine :=
  (exec m name args,
   {| world := world m; exec := exec m;
      executed := executed m ++ [(name, args)] |}).

(** [RunWithSudo]: output (the empty string for nil) and error. *)
Definition RunWithSudo (pm : PermissionManager) (m : Machine)
    (tool purpose : string) (args : list string)
    : (string * option error) * PermissionManager * Machine :=
  let command := "sudo " +:+ tool +:+ " " +:+ JoinWith " " args in
  let '((approved, err), pm, w) :=
    RequestRootPermission pm (world m) tool purpose command in
  let m := withWorld m w in
  match err with
  | Some err => ((EmptyString, Some err), pm, m)
  | None =>
      if negb approved
      then ((EmptyString, Some (Plain "user denied permission")), pm, m)
      else
        let m := say m (nl +:+ "🔧 Executing: " +:+ command +:+ nl) in
        let cmdArgs := [tool] ++ args in
        let '((output, err), m) := CombinedOutput m "sudo" cmdArgs in
        match err with
        | Some err =>
            ((output,
              Some (Errorf "command failed: " err
                      (nl +:+ "Output: " +:+ output))), pm, m)
        | None => ((output, None), pm, m)
        end
  end.

(** The fallback part of [RunWithFallback]. *)
Definition runFallback (pm : PermissionManager) (m : Machine)
    (tool : string) (fallbackArgs : list string)
    : (string * bool * option error) * PermissionManager * Machine :=
  let m := say m ("🔧 Running non-privileged scan: " +:+ tool +:+ " "
                    +:+ JoinWith " " fallbackArgs +:+ nl) in
  let '((output, err), m) := CombinedOutput m tool fallbackArgs in
  match err with
  | Some err =>
      ((output, false, Some (Errorf "fallback scan failed: " err EmptyString)),
       pm, m)
  | None =>
      let m := say m ("✓ Non-privileged scan completed" +:+ nl) in
      ((output, false, None), pm, m)
  end.

(** [RunWithFallback]: output, whether the privileged command gave it,
    and error. *)
Definition RunWithFallback (pm : PermissionManager) (m : Machine)
    (tool purpose : string) (rootArgs fallbackArgs : list string)
    : (string * bool * option error) * PermissionManager * Machine :=
  let '(available, pm) := CheckSudoAvailable pm (world m) in
  if available then
    let command := "sudo " +:+ tool +:+ " " +:+ JoinWith " " rootArgs in
    let '((approved, err), pm, w) :=
      RequestRootPermission pm (world m) tool purpose command in
    let m := withWorld m w in
    match err with
    | None =>
        if approved then
          let m := say m (nl +:+ "🔧 Executing privileged scan: " +:+ command
                            +:+ nl) in
          let cmdArgs := [tool] ++ rootArgs in
          let '((output, err), m) := CombinedOutput m "sudo" cmdArgs in
          match err with
          | None =>
              let m := say m ("✓ Privileged scan completed" +:+ nl) in
              ((output, true, None), pm, m)
          | Some err =>
              let m := say m ("⚠️  Privileged scan failed: " +:+ Error err
                                +:+ nl) in
              let m := say m ("💡 Falling back to non-privileged scan..."
                                +:+ nl) in
              runFallback pm m tool fallbackArgs
          end
        else runFallback pm m tool fallbackArgs
    | Some _ => runFallback pm m tool fallbackArgs
    end
  else runFallback pm m tool fallbackArgs.

(** [GetApprovalSummary]: the two counters after the loop, and what is
    printed.  The counters stay below the size of the map, so below
    [2^63]. *)
Definition approvalCounts (userApproved : gmap string bool) : Z * Z :=
  map_fold
    (fun _ approved counts =>
       if approved : bool then (fst counts + 1, snd counts)
       else (fst counts, snd counts + 1))
    (0, 0) userApproved.

Definition GetApprovalSummary (pm : PermissionManager) (w : World) : World :=
  if (Z.of_nat (size (userApproved pm)) =? 0)%Z then w
  else
    let w := print w (nl +:+ "📊 Permission Summary" +:+ nl) in
    let w := print w (rule +:+ nl) in
    let counts := approvalCounts (userApproved pm) in
    let w := print w ("✅ Approved: " +:+ Itoa (fst counts) +:+ " commands" +:+ nl) in
    let w := print w ("❌ Denied: " +:+ Itoa (snd counts) +:+ " commands" +:+ nl) in
    print w nl.

(** A machine at the terminal of [terminal] on which every command
    succeeds with the output "ok". *)
Definition workstation : Machine :=
  {| world := terminal;
     exec := fun _ _ => ("ok", None);
     executed := [] |}.

End PermissionRun.

(** ** The scanning engine (scanner.go) *)

Module Scanner.

Record ScanConfig := mkScanConfig {
  Target : string;
  Profile : string;
  AIAnalysis : bool;
  Threads : Z;
  Modules : list string
}.

(** The implementations of the interface [Module]. *)
Inductive Module_ :=
| BasicSecurityModule
| HeaderSecurityModule
| SubdomainModule
| PortScanModule.

Definition Name (m : Module_) : string :=
  match m with
  | BasicSecurityModule => "Basic Security"
  | HeaderSecurityModule => "Security Headers"
  | SubdomainModule => "Subdomain Discovery"
  | PortScanModule => "Port Scanning"
  end.

(** Where the identifiers and clock readings come from: the [n]-th
    [uuid.New().String()] and the [n]-th [time.Now()] of the process. *)
Record Sources := mkSources {
  uuid : nat -> string;
  clock : nat -> Time
}.

(** How many of each have been drawn, and the lines printed. *)
Record Sys := mkSys {
  ids : nat;
  ticks : nat;
  out : list string
}.

Definition newID (E : Sources) (sys : Sys) : string * Sys :=
  (uuid E (ids sys), {| ids := S (ids sys); ticks := ticks sys; out := out sys |}).

Definition now (E : Sources) (sys : Sys) : Time * Sys :=
  (clock E (ticks sys), {| ids := ids sys; ticks := S (ticks sys); out := out sys |}).

Definition println (sys : Sys) (s : string) : Sys :=
  {| ids := ids sys; ticks := ticks sys; out := out sys ++ [s] |}.

(** [Run] of a module; [Timestamp] of the finding is not kept, but the
    clock is read. *)
Definition moduleRun (E : Sources) (m : Module_) (target : string) (sys : Sys)
    : result (list Finding.t) * Sys :=
  match m with
  | BasicSecurityModule =>
      let '(id, sys) := newID E sys in
      let '(_, sys) := now E sys in
      (Ok [ {| Finding.ID := id;
               Finding.Kind := "configuration";
               Finding.Severity := "info";
               Finding.Title := "Target Reachable";
               Finding.Description := "Successfully connected to " +:+ target;
               Finding.Evidence := EmptyString;
               Finding.Location := target |} ],
       sys)
  | _ => (Ok [], sys)
  end.

Record t := mkScanner {
  config : ScanConfig;
  modules : list Module_
}.

Definition New (config : ScanConfig) : t :=
  {| config := config; modules := [] |}.

Definition loadModules (s : t) : t :=
  let profile := Profile (config s) in
  if String.eqb profile "quick" then
    {| config := config s; modules := modules s ++ [BasicSecurityModule] |}
  else if String.eqb profile "standard" then
    {| config := config s;
       modules := modules s ++ [BasicSecurityModule; HeaderSecurityModule] |}
  else if String.eqb profile "deep" then
    {| config := config s;
       modules := modules s ++ [BasicSecurityModule; HeaderSecurityModule;
                                SubdomainModule; PortScanModule] |}
  else s.

(** The loop over [s.modules] of [Run]. *)
Fixpoint moduleLoop (E : Sources) (target : string) (mods : list Module_)
    (findings : list Finding.t) (sys : Sys) : list Finding.t * Sys :=
  match mods with
  | [] => (findings, sys)
  | m :: rest =>
      let sys := println sys ("  ▶ Running " +:+ Name m +:+ " module..." +:+ nl) in
      match moduleRun E m target sys with
      | (Err err, sys) =>
          let sys := println sys ("    ⚠️  " +:+ Name m +:+ " module error: "
                                    +:+ Error err +:+ nl) in
          moduleLoop E target rest findings sys
      | (Ok found, sys) =>
          let findings := findings ++ found in
          let sys := println sys ("    ✓ Found "
                                    +:+ Itoa (Z.of_nat (length found))
                                    +:+ " findings" +:+ nl) in
          moduleLoop E target rest findings sys
      end
  end.

(** What [Run] returns beside the fields of [ScanResult.t]; [Duration]
    and the two times of the metadata are functions of [StartTime] and
    [EndTime]. *)
Record Scan := mkScan {
  result : ScanResult.t;
  Status : string;
  Version : string;
  MetaProfile : string;
  MetaThreads : Z;
  AIAnalyzed : bool
}.

(** [Run]; its error is always nil. *)
Definition Run (E : Sources) (s : t) (sys : Sys) : Scan * t * Sys :=
  let '(startTime, sys) := now E sys in
  let '(id, sys) := newID E sys in
  let sys := println sys ("🔍 Starting reconnaissance..." +:+ nl) in
  let s := loadModules s in
  let '(findings, sys) := moduleLoop E (Target (config s)) (modules s) [] sys in
  let '(endTime, sys) := now E sys in
  ({| result := {| ScanResult.ID := id;
                   ScanResult.Target := Target (config s);
                   ScanResult.StartTime := startTime;
                   ScanResult.EndTime := endTime;
                   ScanResult.Findings := findings |};
      Status := "completed";
      Version := "0.1.0";
      MetaProfile := Profile (config s);
      MetaThreads := Threads (config s);
      AIAnalyzed := AIAnalysis (config s) |},
   s, sys).

(** The scanner and the system after [n] runs in a row. *)
Fixpoint afterRuns (E : Sources) (n : nat) (s : t) (sys : Sys) : t * Sys :=
  match n with
  | O => (s, sys)
  | S n' =>
      let '(_, s, sys) := Run E s sys in
      afterRuns E n' s sys
  end.

Definition knownProfile (profile : string) : bool :=
  String.eqb profile "quick" || String.eqb profile "standard"
  || String.eqb profile "deep".

(** The modules that report something, and what they report. *)
Definition isBasic (m : Module_) : bool :=
  match m with BasicSecurityModule => true | _ => false end.

Definition reachable (target : string) (f : Finding.t) : Prop :=
  Finding.Title f = "Target Reachable" /\ Finding.Severity f = "info" /\
  Finding.Kind f = "configuration" /\ Finding.Location f = target /\
  Finding.Description f = "Successfully connected to " +:+ target.

End Scanner.

(** ** The reconnaissance planner (package ai) *)

Module ReconPlanner.

Record ToolRequirement := mkToolRequirement {
  ToolName : string;
  Command : string;
  ToolRequiresRoot : bool;
  Flags : list string;
  Purpose : string;
  Fallback : string
}.

Record ReconPhase := mkReconPhase {
  PhaseName : string;
  Description : string;
  Tools : list ToolRequirement;
  Priority : string;
  ExpectedOutputs : list string
}.

Record ReconPlan := mkReconPlan {
  Target : string;
  Phases : list ReconPhase;
  RequiresRoot : bool;
  RequiredTools : list string;
  EstimatedTime : string;
  Reasoning : string
}.

Definition parseToolRequirement (line : string) : ToolRequirement :=
  let idx := Index line "(requires root:" in
  let name :=
    if idx >? 0
    then TrimSpace (TrimPrefix (Take (Z.to_nat idx) line) "- ")
    else EmptyString in
  let requiresRoot := Contains (ToLower line) "requires root: yes" in
  let parts := SplitByte "-"%char line in
  let purpose :=
    if Z.of_nat (length parts) >=? 3
    then TrimSpace (List.last parts EmptyString)
    else EmptyString in
  {| ToolName := name; Command := EmptyString; ToolRequiresRoot := requiresRoot;
     Flags := []; Purpose := purpose; Fallback := EmptyString |}.

(** The variables of the loop of [parseReconPlan]. *)
Record Parser := mkParser {
  plan : ReconPlan;
  currentPhase : option ReconPhase;
  inPermissions : bool;
  inReasoning : bool
}.

Definition appendPhase (p : ReconPlan) (phase : ReconPhase) : ReconPlan :=
  {| Target := Target p; Phases := Phases p ++ [phase];
     RequiresRoot := RequiresRoot p; RequiredTools := RequiredTools p;
     EstimatedTime := EstimatedTime p; Reasoning := Reasoning p |}.

Definition closePhase (p : ReconPlan) (current : option ReconPhase) : ReconPlan :=
  match current with
  | Some phase => appendPhase p phase
  | None => p
  end.

(** The part of the loop body after the three headings. *)
Definition parseDetail (st : Parser) (line : string) : Parser :=
  let p := plan st in
  let p :=
    if inPermissions st && Contains (ToLower line) "root access: yes"
    then {| Target := Target p; Phases := Phases p; RequiresRoot := true;
            RequiredTools := RequiredTools p;
            EstimatedTime := EstimatedTime p; Reasoning := Reasoning p |}
    else p in
  let p :=
    if inReasoning st && negb (String.eqb line EmptyString)
       && negb (HasPrefix line "#")
    then {| Target := Target p; Phases := Phases p;
            RequiresRoot := RequiresRoot p; RequiredTools := RequiredTools p;
            EstimatedTime := EstimatedTime p;
            Reasoning := Reasoning p +:+ (line +:+ " ") |}
    else p in
  match currentPhase st with
  | None =>
      {| plan := p; currentPhase := None;
         inPermissions := inPermissions st; inReasoning := inReasoning st |}
  | Some phase =>
      if HasPrefix line "Priority:" then
        let priority := TrimPrefix line "Priority:" in
        {| plan := p;
           currentPhase :=
             Some {| PhaseName := PhaseName phase;
                     Description := Description phase;
                     Tools := Tools phase;
                     Priority := TrimSpace priority;
                     ExpectedOutputs := ExpectedOutputs phase |};
           inPermissions := inPermissions st; inReasoning := inReasoning st |}
      else if HasPrefix line "Description:" then
        let desc := TrimPrefix line "Description:" in
        {| plan := p;
           currentPhase :=
             Some {| PhaseName := PhaseName phase;
                     Description := TrimSpace desc;
                     Tools := Tools phase;
                     Priority := Priority phase;
                     ExpectedOutputs := ExpectedOutputs phase |};
           inPermissions := inPermissions st; inReasoning := inReasoning st |}
      else if HasPrefix line "- " && Contains line "(requires root:" then
        let tool := parseToolRequirement line in
        if negb (String.eqb (ToolName tool) EmptyString) then
          {| plan :=
               {| Target := Target p; Phases := Phases p;
                  RequiresRoot := RequiresRoot p;
                  RequiredTools := RequiredTools p ++ [ToolName tool];
                  EstimatedTime := EstimatedTime p; Reasoning := Reasoning p |};
             currentPhase :=
               Some {| PhaseName := PhaseName phase;
                       Description := Description phase;
                       Tools := Tools phase ++ [tool];
                       Priority := Priority phase;
                       ExpectedOutputs := ExpectedOutputs phase |};
             inPermissions := inPermissions st; inReasoning := inReasoning st |}
        else
          {| plan := p; currentPhase := Some phase;
             inPermissions := inPermissions st; inReasoning := inReasoning st |}
      else
        {| plan := p; currentPhase := Some phase;
           inPermissions := inPermissions st; inReasoning := inReasoning st |}
  end.

(** One iteration of the loop over the lines. *)
Definition parseLine (st : Parser) (line : string) : Parser :=
  let line := TrimSpace line in
  let st :=
    if HasPrefix line "### PHASE" then
      {| plan := closePhase (plan st) (currentPhase st);
         currentPhase :=
           Some {| PhaseName := line; Description := EmptyString; Tools := [];
                   Priority := EmptyString; ExpectedOutputs := [] |};
         inPermissions := false; inReasoning := false |}
    else st in
  if HasPrefix line "### PERMISSIONS REQUIRED" then
    {| plan := plan st; currentPhase := currentPhase st;
       inPermissions := true; inReasoning := false |}
  else if HasPrefix line "### REASONING" then
    {| plan := closePhase (plan st) (currentPhase st);
       currentPhase := None;
       inPermissions := false; inReasoning := true |}
  else parseDetail st line.

Definition parseReconPlan (response target : string) : ReconPlan :=
  let start :=
    {| plan := {| Target := target; Phases := []; RequiresRoot := false;
                  RequiredTools := []; EstimatedTime := EmptyString;
                  Reasoning := EmptyString |};
       currentPhase := None; inPermissions := false; inReasoning := false |} in
  let st := fold_left parseLine (SplitLines response) start in
  let p := closePhase (plan st) (currentPhase st) in
  {| Target := Target p; Phases := Phases p; RequiresRoot := RequiresRoot p;
     RequiredTools := RequiredTools p; EstimatedTime := EstimatedTime p;
     Reasoning := TrimSpace (Reasoning p) |}.

(** The loop of [wrapText]. *)
Fixpoint wrapLoop (width : Z) (words : list string) (lines : list string)
    (currentLine : string) : list string * string :=
  match words with
  | [] => (lines, currentLine)
  | word :: rest =>
      if len currentLine + len word + 1 >? width then
        let lines :=
          if negb (String.eqb currentLine EmptyString)
          then lines ++ [currentLine] else lines in
        wrapLoop width rest lines word
      else if String.eqb currentLine EmptyString then
        wrapLoop width rest lines word
      else
        wrapLoop width rest lines (currentLine +:+ (" " +:+ word))
  end.

(** The lines that [wrapText] joins. *)
Definition wrapLines (words : list string) (width : Z) : list string :=
  let '(lines, currentLine) := wrapLoop width words [] EmptyString in
  if negb (String.eqb currentLine EmptyString)
  then lines ++ [currentLine] else lines.

Definition wrapText (text : string) (width : Z) : string :=
  let words := Fields text in
  if Z.of_nat (length words) =? 0 then text
  else JoinWith nl (wrapLines words width).

(** The lines once the line being built has been added, as [wrapText] adds
    it after the loop. *)
Definition flushed (lines : list string) (currentLine : string) : list string :=
  if negb (String.eqb currentLine EmptyString)
  then lines ++ [currentLine] else lines.

(** What holds of a line of the wrapped text, for the words [all]. *)
Definition wrapped (all : list string) (width : Z) (line : string) : Prop :=
  line <> EmptyString /\ Contains line nl = false /\
  (In line all \/ len line <= width).

(** The names of the tools of the phases, in order. *)
Definition toolNames (phases : list ReconPhase) : list string :=
  flat_map (fun phase => map ToolName (Tools phase)) phases.

(** The phases begun so far, the one being read included. *)
Definition phasesSoFar (st : Parser) : list ReconPhase :=
  Phases (closePhase (plan st) (currentPhase st)).

(** The fields of a phase that the parser fills. *)
Definition parsedPhase (phase : ReconPhase) : Prop :=
  List.Forall
    (fun tool =>
       ToolName tool <> EmptyString /\ Command tool = EmptyString /\
       Flags tool = [] /\ Fallback tool = EmptyString)
    (Tools phase) /\
  ExpectedOutputs phase = [].

Definition isPhaseHeading (line : string) : bool := HasPrefix line "### PHASE".

(** What the loop of [parseReconPlan] keeps, [done] being the lines read. *)
Definition invariant (target : string) (done : list string) (st : Parser) : Prop :=
  Target (plan st) = target /\
  EstimatedTime (plan st) = EmptyString /\
  map PhaseName (phasesSoFar st)
  = List.filter isPhaseHeading (map TrimSpace done) /\
  RequiredTools (plan st) = toolNames (phasesSoFar st) /\
  List.Forall parsedPhase (phasesSoFar st).

End ReconPlanner.

(** * Properties *)

(** ** Machine integers *)

Lemma wrap64_small (z : Z) : - 2 ^ 63 <= z < 2 ^ 63 -> wrap64 z = z.
Proof. intros H. unfold wrap64. rewrite Z.mod_small; lia. Qed.

(** ** Strings *)

Section StringFacts.

Lemma HasPrefix_app_r (s p t : string) :
  HasPrefix s p = true -> HasPrefix (s +:+ t) p = true.
Proof.
  revert s; induction p as [|c p IH]; intros s H; [reflexivity|].
  destruct s as [|d s]; simpl in *; [discriminate|].
  apply andb_true_iff in H as [Hc Hp].
  rewrite Hc; simpl; auto.
Qed.

Lemma Contains_app_r (s p t : string) :
  Contains s p = true -> Contains (s +:+ t) p = true.
Proof.
  induction s as [|c s IH]; simpl; intros H.
  - rewrite orb_false_r in H. destruct p; [|discriminate].
    destruct t; reflexivity.
  - apply orb_true_iff in H as [H|H].
    + apply (HasPrefix_app_r (String c s) p t) in H.
      change (String c s +:+ t) with (String c (s +:+ t)) in H.
      rewrite H; reflexivity.
    + rewrite (IH H). apply orb_true_r.
Qed.

Lemma Contains_app_l (s p t : string) :
  Contains s p = true -> Contains (t +:+ s) p = true.
Proof.
  intros H; induction t as [|c t IH]; simpl; [exact H|].
  rewrite IH. apply orb_true_r.
Qed.

(** A substring found in the middle is found in the whole. *)
Lemma Contains_infix (a s b p : string) :
  Contains s p = true -> Contains (a +:+ s +:+ b) p = true.
Proof. intros H. apply Contains_app_l, Contains_app_r, H. Qed.

Lemma append_assoc (s t u : string) : (s +:+ t) +:+ u = s +:+ t +:+ u.
Proof.
  induction s as [|c s IH]; [reflexivity|].
  change (String c ((s +:+ t) +:+ u) = String c (s +:+ t +:+ u)).
  now rewrite IH.
Qed.

Lemma SplitLines_nonempty (s : string) : SplitLines s <> [].
Proof.
  destruct s as [|c s]; simpl; [discriminate|].
  destruct (Ascii.eqb c _); [discriminate|].
  destruct (SplitLines s); discriminate.
Qed.

(** [strings.Split] at a newline: the fields of both sides, in order. *)
Lemma SplitLines_app (s t : string) :
  SplitLines (s +:+ nl +:+ t) = SplitLines s ++ SplitLines t.
Proof.
  induction s as [|c s IH]; [reflexivity|].
  change (String c s +:+ nl +:+ t) with (String c (s +:+ nl +:+ t)).
  cbn [SplitLines]. rewrite IH.
  destruct (Ascii.eqb c _); [reflexivity|].
  pose proof (SplitLines_nonempty s) as Hne.
  destruct (SplitLines s); [congruence|reflexivity].
Qed.

Lemma ToLower_app (s t : string) :
  ToLower (s +:+ t) = ToLower s +:+ ToLower t.
Proof. induction s as [|c s IH]; simpl; [reflexivity|]. now rewrite IH. Qed.

Lemma TrimLeft_suffix (s : string) : exists a, s = a +:+ TrimLeft s.
Proof.
  induction s as [|c s [a Ha]]; simpl.
  - exists EmptyString; reflexivity.
  - destruct (isSpace c).
    + exists (String c a). now rewrite Ha at 1.
    + exists EmptyString; reflexivity.
Qed.

Lemma TrimRight_prefix (s : string) : exists b, s = TrimRight s +:+ b.
Proof.
  induction s as [|c s [b Hb]]; simpl.
  - exists EmptyString; reflexivity.
  - destruct (TrimRight s) as [|d t] eqn:Ht.
    + destruct (isSpace c).
      * exists (String c s); reflexivity.
      * exists s; reflexivity.
    + exists b. now rewrite Hb at 1.
Qed.

(** [TrimSpace] returns a slice of its argument. *)
Lemma TrimSpace_infix (s : string) :
  exists a b, s = a +:+ TrimSpace s +:+ b.
Proof.
  destruct (TrimLeft_suffix s) as [a Ha].
  destruct (TrimRight_prefix (TrimLeft s)) as [b Hb].
  exists a, b. unfold TrimSpace. now rewrite <- Hb.
Qed.

Lemma Contains_lower_TrimSpace (s p : string) :
  Contains (ToLower (TrimSpace s)) p = true ->
  Contains (ToLower s) p = true.
Proof.
  intros H. destruct (TrimSpace_infix s) as (a & b & Hs).
  rewrite Hs at 1. rewrite !ToLower_app. now apply Contains_infix.
Qed.

End StringFacts.

(** ** Response extraction *)

Section ExtractFacts.

Lemma scanLine_range (fuel : nat) (line : string) (i : nat) (score : Z) :
  scanLine fuel line i = Some score -> 0 <= score <= 100.
Proof.
  revert i; induction fuel as [|fuel IH]; intros i; simpl; [discriminate|].
  destruct (byteAt line i) as [b|]; [|discriminate].
  destruct (isDigit b); [|apply IH].
  destruct (_ && _) eqn:Hr; [|apply IH].
  intros [= <-]. apply andb_true_iff in Hr as [H0 H1]. lia.
Qed.

Lemma riskLines_range (lines : list string) : 0 <= riskLines lines <= 100.
Proof.
  induction lines as [|line rest IH]; simpl; [lia|].
  destruct (Contains _ _); [|exact IH].
  destruct (scanLine _ _ _) as [score|] eqn:Hs; [|exact IH].
  eapply scanLine_range, Hs.
Qed.

Lemma byteAt_lt (line : string) (i : nat) :
  (i < String.length line)%nat -> exists b, byteAt line i = Some b.
Proof.
  unfold byteAt. revert i; induction line as [|c line IH]; intros i Hi; simpl in Hi.
  - lia.
  - destruct i as [|i]; simpl; [eexists; reflexivity|]. apply IH. lia.
Qed.

Lemma isDigit_range (b : Z) : isDigit b = true -> 0 <= b - 48 <= 9.
Proof. unfold isDigit. intros H. apply andb_true_iff in H as [H0 H1]. lia. Qed.

Lemma scoreLoop_digit (fuel : nat) (line : string) (j : nat) (score b : Z) :
  byteAt line j = Some b -> isDigit b = true ->
  scoreLoop (S fuel) line j score
  = scoreLoop fuel line (S j) (add64 (mul64 score 10) (b - 48)).
Proof. intros Hb Hd. simpl. now rewrite Hb, Hd. Qed.

Lemma scoreLoop_other (fuel : nat) (line : string) (j : nat) (score b : Z) :
  byteAt line j = Some b -> isDigit b = false ->
  scoreLoop fuel line j score = score.
Proof. intros Hb Hd. destruct fuel; simpl; [reflexivity|]. now rewrite Hb, Hd. Qed.

Lemma first_digit (d : Z) : 0 <= d <= 9 -> add64 (mul64 0 10) d = d.
Proof. intros H. change (mul64 0 10) with 0. apply wrap64_small. lia. Qed.

(** [H] says that a score failed the test [0 <= score <= 100]. *)
Ltac out_of_range H :=
  apply andb_false_iff in H as [H|H]; apply Z.leb_gt in H; lia.

Lemma second_digit (d e : Z) :
  0 <= d <= 9 -> 0 <= e <= 9 ->
  0 <= add64 (mul64 d 10) e <= 99.
Proof.
  intros Hd He. unfold add64, mul64.
  rewrite (wrap64_small (d * 10)) by lia. rewrite wrap64_small; lia.
Qed.

(** A digit whose run is rejected is followed, before the last byte of
    the line, by another digit: a run of one digit, and a run of two that
    ends the line, are always in range. *)
Lemma rejected_run_continues (line : string) (i : nat) (b : Z) :
  (i < String.length line - 1)%nat ->
  byteAt line i = Some b -> isDigit b = true ->
  (0 <=? scoreLoop (String.length line - i) line i 0)
  && (scoreLoop (String.length line - i) line i 0 <=? 100) = false ->
  (S i < String.length line - 1)%nat /\
  exists b', byteAt line (S i) = Some b' /\ isDigit b' = true.
Proof.
  intros Hi Hb Hd Hrej.
  destruct (byteAt_lt line (S i)) as [b' Hb']; [lia|].
  replace (String.length line - i)%nat with (S (String.length line - S i))%nat
    in Hrej by lia.
  rewrite (scoreLoop_digit _ _ _ _ _ Hb Hd), first_digit in Hrej
    by now apply isDigit_range.
  pose proof (isDigit_range b Hd) as Rb.
  destruct (isDigit b') eqn:Hd'.
  - split; [|exists b'; split; [exact Hb'|exact Hd']].
    destruct (Nat.eq_dec (S i) (String.length line - 1)%nat) as [Hlast|]; [|lia].
    exfalso.
    replace (String.length line - S i)%nat with 1%nat in Hrej by lia.
    rewrite (scoreLoop_digit _ _ _ _ _ Hb' Hd') in Hrej. cbn [scoreLoop] in Hrej.
    pose proof (second_digit (b - 48) (b' - 48) Rb (isDigit_range b' Hd')) as R.
    out_of_range Hrej.
  - exfalso. rewrite (scoreLoop_other _ _ _ _ _ Hb' Hd') in Hrej.
    out_of_range Hrej.
Qed.

(** So a line with a digit anywhere before its last byte always yields a
    score: the scan does not leave such a line. *)
Lemma scanLine_finds (line : string) (fuel i : nat) :
  (i + fuel = String.length line - 1)%nat ->
  (exists k b, (i <= k < String.length line - 1)%nat /\
               byteAt line k = Some b /\ isDigit b = true) ->
  exists score, scanLine fuel line i = Some score.
Proof.
  revert i; induction fuel as [|fuel IH]; intros i Hlen (k & b & Hk & Hb & Hd).
  - lia.
  - destruct (byteAt_lt line i) as [b0 Hb0]; [lia|].
    cbn [scanLine]. rewrite Hb0.
    destruct (isDigit b0) eqn:Hd0.
    + destruct (_ && _) eqn:Hr; [eexists; reflexivity|].
      destruct (rejected_run_continues line i b0) as (Hi' & b' & Hb' & Hd');
        [lia|assumption..|].
      apply IH; [lia|]. exists (S i), b'. repeat split; [lia..|assumption|assumption].
    + apply IH; [lia|]. exists k, b. repeat split; try assumption; try lia.
      destruct (Nat.eq_dec k i) as [->|]; [congruence|lia].
Qed.

Lemma clean_snoc (issues : list string) (line : string) :
  clean issues ->
  Contains (ToLower line) "critical" = false ->
  clean (issues ++ [TrimSpace line]).
Proof.
  intros Hc Hl issue Hin. apply in_app_or in Hin as [Hin|[<-|[]]]; [auto|].
  destruct (Contains (ToLower (TrimSpace line)) "critical") eqn:Ht; [|reflexivity].
  apply Contains_lower_TrimSpace in Ht. congruence.
Qed.

Lemma criticalLoop_clean (lines : list string) :
  forall inCritical issues,
    clean issues -> clean (criticalLoop lines inCritical issues).
Proof.
  induction lines as [|line rest IH]; intros inCritical issues Hc; simpl; [exact Hc|].
  destruct (Contains (ToLower line) "critical") eqn:Hl; [apply IH, Hc|].
  set (issues' := if inCritical && _ then _ else issues).
  assert (Hc' : clean issues').
  { subst issues'. destruct (inCritical && _); [|exact Hc].
    destruct (_ || _); [|exact Hc]. now apply clean_snoc. }
  destruct (inCritical && Contains _ "recommendation"); [exact Hc'|apply IH, Hc'].
Qed.

End ExtractFacts.

(** The summary scan does not depend on the last line, as long as neither
    it nor the line before it mentions "summary". *)
Lemma summaryLoop_last (pre rest : list string) (h x y : string) :
  Contains (ToLower h) "summary" = false ->
  Contains (ToLower x) "summary" = false ->
  Contains (ToLower y) "summary" = false ->
  summaryLoop ((pre ++ rest ++ [h]) ++ [x]) ((rest ++ [h]) ++ [x]) (length pre)
  = summaryLoop ((pre ++ rest ++ [h]) ++ [y]) ((rest ++ [h]) ++ [y]) (length pre).
Proof.
  intros Hh Hx Hy. revert pre; induction rest as [|l rest IH]; intros pre.
  - cbn. rewrite Hh, Hx, Hy. reflexivity.
  - cbn [app summaryLoop].
    rewrite !length_app. cbn [length].
    destruct (Contains (ToLower l) "summary" && _) eqn:Hc.
    + do 2 f_equal.
      rewrite <- !app_assoc. rewrite !(lookup_app_r pre) by lia.
      replace (S (length pre) - length pre)%nat with 1%nat by lia.
      cbn [app]. destruct rest; reflexivity.
    + specialize (IH (pre ++ [l])).
      rewrite length_app in IH. cbn [length] in IH.
      replace (length pre + 1)%nat with (S (length pre)) in IH by lia.
      rewrite <- !(app_assoc pre [l]) in IH. exact IH.
Qed.

Lemma parseAnalysisSummary_last (body h x y : string) :
  Contains (ToLower h) "summary" = false ->
  Contains (ToLower x) "summary" = false ->
  Contains (ToLower y) "summary" = false ->
  SplitLines x = [x] -> SplitLines y = [y] -> SplitLines h = [h] ->
  parseAnalysisSummary (body +:+ nl +:+ h +:+ nl +:+ x)
  = parseAnalysisSummary (body +:+ nl +:+ h +:+ nl +:+ y).
Proof.
  intros Hh Hx Hy Sx Sy Sh. unfold parseAnalysisSummary.
  rewrite !SplitLines_app, Sx, Sy, Sh.
  rewrite !(app_assoc (SplitLines body) [h]).
  pose proof (summaryLoop_last [] (SplitLines body) h x y Hh Hx Hy) as H.
  cbn [app length] in H. rewrite H. clear H.
  destruct (summaryLoop _ _ _); [reflexivity|].
  pose proof (SplitLines_nonempty body) as Hne.
  destruct (SplitLines body); [congruence|reflexivity].
Qed.

(** C7.  For every input text the extracted risk score lies between 0 and
    100, both included. *)
Theorem parseRiskScore_in_range (text : string) :
  0 <= parseRiskScore text <= 100.
Proof. apply riskLines_range. Qed.

(** C4.  The score loop starts again one byte further inside a run of
    digits it has just rejected, and never starts at the last byte of a
    line.  A matching line with a digit anywhere before its last byte
    therefore always decides the score, and the lines after it are not
    looked at: ["Risk Score: 175"] gives 75 through the tail of the run,
    also when a later line has a valid score; ["Risk Score: 150"] gives 50
    because its tail is 50; and a single final digit is not read at all. *)
Theorem parseRiskScore_rescans_rejected_run :
  (forall line rest,
      Contains (ToLower line) "risk score" = true ->
      (exists k b, (k < String.length line - 1)%nat /\
                   byteAt line k = Some b /\ isDigit b = true) ->
      exists score,
        scanLine (String.length line - 1) line 0 = Some score /\
        riskLines (line :: rest) = score) /\
  parseRiskScore "Risk Score: 175" = 75 /\
  parseRiskScore ("Risk Score: 175" +:+ nl +:+ "Risk Score: 20/100") = 75 /\
  parseRiskScore "Risk Score: 150" = 50 /\
  parseRiskScore "Risk Score: 7" = 50 /\
  parseRiskScore ("Risk Score: 7" +:+ nl +:+ "Risk Score: 20/100") = 20.
Proof.
  split.
  - intros line rest Hm (k & b & Hk & Hb & Hd).
    destruct (scanLine_finds line (String.length line - 1) 0) as [score Hs];
      [lia|exists k, b; repeat split; [lia|assumption..]|].
    exists score. split; [exact Hs|]. cbn [riskLines]. now rewrite Hm, Hs.
  - repeat split; vm_compute; reflexivity.
Qed.

(** C10.  No issue returned by the critical-issue extraction contains
    "critical" in any letter case; a line that does, bulleted or not, only
    switches collection on and is skipped, whatever the state of the loop. *)
Theorem parseCriticalIssues_never_critical (text : string) :
  (forall issue,
      In issue (parseCriticalIssues text) ->
      Contains (ToLower issue) "critical" = false) /\
  (forall line rest inCritical issues,
      Contains (ToLower line) "critical" = true ->
      criticalLoop (line :: rest) inCritical issues = criticalLoop rest true issues).
Proof.
  split.
  - apply criticalLoop_clean. intros ? [].
  - intros line rest inCritical issues H. simpl. now rewrite H.
Qed.

Lemma parseCriticalIssues_never_critical_witness :
  Contains (ToLower "- Open admin panel") "critical" = false.
Proof.
  apply (proj1 (parseCriticalIssues_never_critical
                  ("## Critical Issues" +:+ nl +:+ "- Open admin panel" +:+ nl
                     +:+ "* CRITICAL: default password"))
           "- Open admin panel").
  vm_compute. left; reflexivity.
Defined.

(** ** Retry policy *)

Section RetryFacts.

Lemma errorsIs_rate_limit_message (e : error) :
  errorsIs e errRateLimitExceeded = true ->
  Contains (ToLower (Error e)) "rate limit" = true.
Proof.
  induction e as [s|msg|pre inner IH post]; simpl; intros H.
  - destruct s; try discriminate. reflexivity.
  - discriminate.
  - rewrite !ToLower_app. apply Contains_infix, IH, H.
Qed.

Lemma existsb_patterns (message : string) :
  existsb (fun pattern => Contains message pattern) retryablePatterns = true <->
  exists pattern, In pattern retryablePatterns /\ Contains message pattern = true.
Proof. apply existsb_exists. Qed.

(** The second sentinel test of [isRetryableError] adds nothing to the
    pattern test: the sentinel's text carries "rate limit" into every
    message built around it. *)
Lemma isRetryableError_spec (e : error) :
  isRetryableError (Some e) =
  errorsIs e errEmptyResponse
  || existsb (fun pattern => Contains (ToLower (Error e)) pattern) retryablePatterns.
Proof.
  unfold isRetryableError.
  destruct (errorsIs e errEmptyResponse); [reflexivity|].
  destruct (errorsIs e errRateLimitExceeded) eqn:Hr; [|reflexivity].
  apply errorsIs_rate_limit_message in Hr.
  simpl. rewrite Hr. reflexivity.
Qed.

Context {T : Type}.

Lemma retryLoop_fatal (E : env T) (fuel : nat) (attempt : Z)
    (lastErr : option error) (trace : list event) (err : error) :
  doneBefore E attempt = None ->
  fn E attempt = Err err ->
  isRetryableError (Some err) = false ->
  retryLoop E (S fuel) attempt lastErr trace = (trace ++ [Attempt attempt], Err err).
Proof. intros Hd Hf Hr. cbn [retryLoop]. now rewrite Hd, Hf, Hr. Qed.

End RetryFacts.



(** C3.  When every call fails retryably the loop makes no fourth call and
    sleeps only 15s and then 30s, however the context behaves; when the
    context stays open it makes exactly three calls, sleeping 15s between
    the first and the second and 30s between the second and the third, and
    returns the retries-exhausted error that wraps the failure of the
    third call. *)
Theorem retryWithBackoff_exhausts (T : Type) (E : env T) :
  (forall k, exists e, fn E k = Err e /\ isRetryableError (Some e) = true) ->
  attempts (fst (retryWithBackoff E)) `prefix_of` [0; 1; 2] /\
  delays (fst (retryWithBackoff E)) `prefix_of` [15 * second; 30 * second] /\
  ((forall k, doneBefore E k = None) ->
   (forall k, doneDuringSleep E k = None) ->
   exists e0 e1 last,
     fn E 0 = Err e0 /\ fn E 1 = Err e1 /\ fn E 2 = Err last /\
     retryWithBackoff E
     = ([ Attempt 0; Print (retryNotice 0 (15 * second) e0); Sleep (15 * second);
          Attempt 1; Print (retryNotice 1 (30 * second) e1); Sleep (30 * second);
          Attempt 2 ],
        Err (Errorf "max retries exceeded: " last EmptyString))).
Proof.
  intros Hfail.
  destruct (Hfail 0) as (e0 & H0 & R0).
  destruct (Hfail 1) as (e1 & H1 & R1).
  destruct (Hfail 2) as (e2 & H2 & R2).
  unfold retryWithBackoff. change (Z.to_nat maxRetryAttempts) with 3%nat.
  cbn [retryLoop].
  change (0 + 1) with 1. change (1 + 1) with 2. change (2 + 1) with 3.
  rewrite H0, H1, H2, R0, R1, R2. cbn [negb].
  change (1 <? maxRetryAttempts) with true.
  change (2 <? maxRetryAttempts) with true.
  change (3 <? maxRetryAttempts) with false.
  change (mul64 baseRetryDelay 1) with (15 * second).
  change (mul64 baseRetryDelay 2) with (30 * second).
  cbv iota.
  split; [|split].
  - destruct (doneBefore E 0); [by exists [0; 1; 2]|].
    destruct (doneDuringSleep E 0); [by exists [1; 2]|].
    destruct (doneBefore E 1); [by exists [1; 2]|].
    destruct (doneDuringSleep E 1); [by exists [2]|].
    destruct (doneBefore E 2); [by exists [2]|].
    by exists [].
  - destruct (doneBefore E 0); [by exists [15 * second; 30 * second]|].
    destruct (doneDuringSleep E 0); [by exists [30 * second]|].
    destruct (doneBefore E 1); [by exists [30 * second]|].
    destruct (doneDuringSleep E 1); [by exists []|].
    destruct (doneBefore E 2); by exists [].
  - intros Hb Hs. rewrite !Hb, !Hs. exists e0, e1, e2. repeat split.
Qed.

Lemma retryWithBackoff_exhausts_witness :
  attempts (fst (retryWithBackoff throttled)) = [0; 1; 2] /\
  delays (fst (retryWithBackoff throttled)) = [15 * second; 30 * second] /\
  snd (retryWithBackoff throttled)
  = Err (Errorf "max retries exceeded: " (Plain "HTTP 429 Too Many Requests")
           EmptyString).
Proof.
  destruct (retryWithBackoff_exhausts string throttled) as (_ & _ & Hrun).
  - intros k. eexists. split; reflexivity.
  - destruct Hrun as (e0 & e1 & last & H0 & H1 & H2 & Hrun); [reflexivity..|].
    rewrite Hrun. injection H2 as <-. repeat split.
Defined.

(** ** Usage accounting *)

Section UsageFacts.

Lemma add64_succ (a : Z) : 0 <= a -> a + 1 < 2 ^ 63 -> add64 a 1 = a + 1.
Proof. intros H0 H1. apply wrap64_small. lia. Qed.

Lemma usages_fold_RecordUsage (records : list UsageStats) (t : UsageTracker) :
  usages (fold_left RecordUsage records t) = usages t ++ records.
Proof.
  revert t; induction records as [|r records IH]; intros t; simpl.
  - now rewrite app_nil_r.
  - rewrite IH. simpl. now rewrite <- app_assoc.
Qed.

Lemma successes_length (records : list UsageStats) :
  (length (successes records) <= length records)%nat.
Proof. apply List.filter_length_le. Qed.

(** The three totals after the loop has run over [records], from any
    summary whose counters leave room for them. *)
Lemma summary_fold (records : list UsageStats) :
  forall acc,
    0 <= TotalOperations acc ->
    0 <= SuccessfulOperations acc ->
    TotalOperations acc + Z.of_nat (length records) < 2 ^ 63 ->
    SuccessfulOperations acc + Z.of_nat (length records) < 2 ^ 63 ->
    TotalOperations (fold_left summaryStep records acc)
    = TotalOperations acc + Z.of_nat (length records) /\
    SuccessfulOperations (fold_left summaryStep records acc)
    = SuccessfulOperations acc + Z.of_nat (length (successes records)) /\
    TotalCost (fold_left summaryStep records acc)
    = fold_left (fun total r => (total + CalculateCost r)%float) records
        (TotalCost acc).
Proof.
  induction records as [|r records IH]; intros acc Ht Hs Hbt Hbs.
  - simpl. repeat split; lia.
  - cbn [fold_left length] in *.
    assert (Hop : TotalOperations (summaryStep acc r) = TotalOperations acc + 1).
    { cbn [summaryStep TotalOperations]. apply add64_succ; lia. }
    assert (Hsu : SuccessfulOperations (summaryStep acc r)
                  = SuccessfulOperations acc
                    + Z.of_nat (length (successes [r]))).
    { cbn [summaryStep SuccessfulOperations]. unfold successes. cbn [List.filter].
      destruct (Success r); cbn [length]; [apply add64_succ|]; lia. }
    assert (Hle := successes_length [r]). cbn [length] in Hle.
    destruct (IH (summaryStep acc r)) as (IHt & IHs & IHc); try lia.
    rewrite IHt, IHs, IHc, Hop, Hsu.
    unfold successes. cbn [List.filter].
    destruct (Success r); cbn [length summaryStep TotalCost]; repeat split; lia.
Qed.

End UsageFacts.

(** C5.  After recording R1..Rn into a fresh tracker (n below 2^63, as
    the length of any Go slice is), the summary counts n operations, counts
    the records whose [Success] is set, and its total cost is the float64
    sum, in recording order from 0, of the records' costs; the cost of a
    record is [inputTokens/1e6 * inputRate + outputTokens/1e6 * outputRate]
    at the rates of its model in the price table, and 0 for a model the
    table does not have. *)
Theorem GetSummary_totals (records : list UsageStats) :
  Z.of_nat (length records) < 2 ^ 63 ->
  TotalOperations (GetSummary (fold_left RecordUsage records NewUsageTracker))
  = Z.of_nat (length records) /\
  SuccessfulOperations (GetSummary (fold_left RecordUsage records NewUsageTracker))
  = Z.of_nat (length (List.filter Success records)) /\
  TotalCost (GetSummary (fold_left RecordUsage records NewUsageTracker))
  = fold_left (fun total r => (total + CalculateCost r)%float) records 0%float /\
  (forall r pricing,
      modelPricing !! Model r = Some pricing ->
      CalculateCost r
      = (float64_of_int64 (InputTokens r) / 1000000 * InputCostPerMToken pricing
         + float64_of_int64 (OutputTokens r) / 1000000 * OutputCostPerMToken pricing)%float) /\
  (forall r, modelPricing !! Model r = None -> CalculateCost r = 0%float).
Proof.
  intros Hn. unfold GetSummary. rewrite usages_fold_RecordUsage. cbn [usages NewUsageTracker app].
  destruct (summary_fold records emptySummary) as (Ht & Hs & Hc);
    [cbn; lia ..|].
  repeat split.
  - rewrite Ht. reflexivity.
  - rewrite Hs. reflexivity.
  - rewrite Hc. reflexivity.
  - intros r pricing H. unfold CalculateCost. now rewrite H.
  - intros r H. unfold CalculateCost. now rewrite H.
Qed.

Lemma GetSummary_totals_witness :
  TotalOperations (GetSummary (fold_left RecordUsage sampleUsage NewUsageTracker)) = 3 /\
  SuccessfulOperations (GetSummary (fold_left RecordUsage sampleUsage NewUsageTracker)) = 2 /\
  TotalCost (GetSummary (fold_left RecordUsage sampleUsage NewUsageTracker))
  = fold_left (fun total r => (total + CalculateCost r)%float) sampleUsage 0%float.
Proof.
  destruct (GetSummary_totals sampleUsage) as (Ht & Hs & Hc & _).
  - vm_compute. reflexivity.
  - exact (conj Ht (conj Hs Hc)).
Defined.

(** ** Multi-agent analysis *)

Module AgentFacts.
Import AgentManager.

Lemma combinedText_split (reconResult vulnResult exploitResult : string) :
  combinedText reconResult vulnResult exploitResult
  = ("# Reconnaissance Findings" +:+ nl +:+ reconResult +:+ nl +:+ nl
       +:+ "# Vulnerability Analysis" +:+ nl +:+ vulnResult +:+ nl)
    +:+ nl +:+ "# Exploitation Assessment" +:+ nl +:+ exploitResult.
Proof. unfold combinedText. rewrite !append_assoc. reflexivity. Qed.

(** The placeholder adds nothing to the summary: the summary of the
    combined text is the one the first two stages and the three headings
    have without any third text. *)
Lemma placeholder_not_in_summary (reconResult vulnResult : string) :
  parseAnalysisSummary (combinedText reconResult vulnResult exploitPlaceholder)
  = parseAnalysisSummary (combinedText reconResult vulnResult EmptyString).
Proof.
  rewrite !combinedText_split. now apply parseAnalysisSummary_last.
Qed.

Section WithAgents.
Context (agents : gmap string Agent) (clients : Clients).

Lemma AnalyzeWithAgent_result (agentType prompt : string) (progress : bool)
    (st : State) :
  fst (AnalyzeWithAgent agents clients agentType prompt progress st)
  = stage agents clients agentType prompt.
Proof.
  unfold stage, AnalyzeWithAgent.
  destruct (agents !! agentType) as [agent|]; [|reflexivity].
  unfold mbind, M_bind, mret, M_ret, report, reportAll, recordUsage.
  destruct progress; cbn; destruct (ran (clients agentType prompt)); reflexivity.
Qed.

(** [runDeepAnalysis], one stage at a time. *)
Lemma runDeepAnalysis_unfold (result : ScanResult.t) (progress : bool)
    (st : State) :
  exists st1,
    runDeepAnalysis agents clients result progress st
    = match stage agents clients AgentTypeRecon (buildReconPrompt result) with
      | Err err => (Err (Errorf "recon stage failed: " err EmptyString), st1)
      | Ok reconResult =>
          let (r2, st2) :=
            AnalyzeWithAgent agents clients AgentTypeVulnerability
              (buildVulnPrompt result reconResult) progress
              (snd (report progress (nl +:+ "🔍 Stage 2/3: Vulnerability Analysis") st1)) in
          match r2 with
          | Err err => (Err (Errorf "vulnerability stage failed: " err EmptyString), st2)
          | Ok vulnResult =>
              let (r3, st3) :=
                AnalyzeWithAgent agents clients AgentTypeExploitation
                  (buildExploitPrompt result reconResult vulnResult) progress
                  (snd (report progress (nl +:+ "💥 Stage 3/3: Exploitation Analysis") st2)) in
              match r3 with
              | Err err =>
                  (Ok (parseAnalysisResponse
                         (combinedText reconResult vulnResult exploitPlaceholder)
                         (ScanResult.ID result)),
                   snd (report progress (exploitWarning err) st3))
              | Ok text =>
                  (Ok (parseAnalysisResponse
                         (combinedText reconResult vulnResult text)
                         (ScanResult.ID result)), st3)
              end
          end
      end.
Proof.
  unfold runDeepAnalysis.
  unfold mbind at 1 2 3. unfold M_bind at 1 2 3.
  destruct (report progress _ st) as [[] sa].
  destruct (report progress _ sa) as [[] sb].
  rewrite <- (AnalyzeWithAgent_result _ _ progress sb).
  destruct (AnalyzeWithAgent agents clients AgentTypeRecon _ progress sb)
    as [[reconResult|err] st1]; exists st1; cbn [fst]; [|reflexivity].
  unfold mbind at 1 2. unfold M_bind at 1 2.
  destruct (report progress _ st1) as [[] sc]. cbn [snd].
  destruct (AnalyzeWithAgent agents clients AgentTypeVulnerability _ progress sc)
    as [[vulnResult|err] st2]; [|reflexivity].
  unfold mbind at 1 2. unfold M_bind at 1 2.
  destruct (report progress _ st2) as [[] sd]. cbn [snd].
  destruct (AnalyzeWithAgent agents clients AgentTypeExploitation _ progress sd)
    as [[text|err] st3]; [reflexivity|].
  unfold mbind, M_bind, mret, M_ret.
  destruct (report progress (exploitWarning err) st3) as [[] se]. reflexivity.
Qed.

Lemma AnalyzeWithAgent_silent (agentType prompt : string) (st : State) :
  shown (snd (AnalyzeWithAgent agents clients agentType prompt false st))
  = shown st.
Proof.
  unfold AnalyzeWithAgent.
  destruct (agents !! agentType) as [agent|]; [|reflexivity].
  unfold mbind, M_bind, mret, M_ret, report, reportAll, recordUsage.
  cbn. destruct (ran (clients agentType prompt)); reflexivity.
Qed.

(** Without a callback nothing is shown. *)
Lemma runDeepAnalysis_silent (result : ScanResult.t) (st : State) :
  shown (snd (runDeepAnalysis agents clients result false st)) = shown st.
Proof.
  unfold runDeepAnalysis.
  unfold mbind at 1 2 3. unfold M_bind at 1 2 3.
  cbn [report].
  pose proof (AnalyzeWithAgent_silent AgentTypeRecon (buildReconPrompt result) st)
    as S1.
  destruct (AnalyzeWithAgent agents clients AgentTypeRecon _ false st)
    as [[reconResult|err] sa]; cbn [snd] in S1; [|exact S1].
  unfold mbind at 1 2. unfold M_bind at 1 2. cbn [report].
  pose proof (AnalyzeWithAgent_silent AgentTypeVulnerability
                (buildVulnPrompt result reconResult) sa) as S2.
  destruct (AnalyzeWithAgent agents clients AgentTypeVulnerability _ false sa)
    as [[vulnResult|err] sb]; cbn [snd] in S2;
    [|unfold mret, M_ret; cbn; congruence].
  unfold mbind at 1 2. unfold M_bind at 1 2. cbn [report].
  pose proof (AnalyzeWithAgent_silent AgentTypeExploitation
                (buildExploitPrompt result reconResult vulnResult) sb) as S3.
  destruct (AnalyzeWithAgent agents clients AgentTypeExploitation _ false sb)
    as [[text|err] sc]; cbn [snd] in S3;
    unfold mbind, M_bind, mret, M_ret; cbn; congruence.
Qed.

(** The degraded run: stages one and two answer, stage three fails. *)
Lemma runDeepAnalysis_degraded (result : ScanResult.t) (progress : bool)
    (st : State) (reconResult vulnResult : string) (err : error) :
  stage agents clients AgentTypeRecon (buildReconPrompt result) = Ok reconResult ->
  stage agents clients AgentTypeVulnerability
    (buildVulnPrompt result reconResult) = Ok vulnResult ->
  stage agents clients AgentTypeExploitation
    (buildExploitPrompt result reconResult vulnResult) = Err err ->
  fst (runDeepAnalysis agents clients result progress st)
  = Ok (parseAnalysisResponse
          (combinedText reconResult vulnResult exploitPlaceholder)
          (ScanResult.ID result)) /\
  (progress = true ->
   In (exploitWarning err)
      (shown (snd (runDeepAnalysis agents clients result progress st)))).
Proof.
  intros H1 H2 H3.
  destruct (runDeepAnalysis_unfold result progress st) as [st1 Hrun].
  rewrite Hrun, H1.
  pose proof (AnalyzeWithAgent_result AgentTypeVulnerability
                (buildVulnPrompt result reconResult) progress
                (snd (report progress
                        (nl +:+ "🔍 Stage 2/3: Vulnerability Analysis") st1))) as E2.
  destruct (AnalyzeWithAgent agents clients AgentTypeVulnerability _ _ _)
    as [r2 st2]. cbn [fst] in E2. rewrite E2, H2.
  pose proof (AnalyzeWithAgent_result AgentTypeExploitation
                (buildExploitPrompt result reconResult vulnResult) progress
                (snd (report progress
                        (nl +:+ "💥 Stage 3/3: Exploitation Analysis") st2))) as E3.
  destruct (AnalyzeWithAgent agents clients AgentTypeExploitation _ _ _)
    as [r3 st3]. cbn [fst] in E3. rewrite E3, H3.
  split; [reflexivity|].
  intros ->. cbn. apply in_or_app. right. left. reflexivity.
Qed.

Lemma runDeepAnalysis_stage2_fatal (result : ScanResult.t) (progress : bool)
    (st : State) (reconResult : string) (err : error) :
  stage agents clients AgentTypeRecon (buildReconPrompt result) = Ok reconResult ->
  stage agents clients AgentTypeVulnerability
    (buildVulnPrompt result reconResult) = Err err ->
  fst (runDeepAnalysis agents clients result progress st)
  = Err (Errorf "vulnerability stage failed: " err EmptyString).
Proof.
  intros H1 H2.
  destruct (runDeepAnalysis_unfold result progress st) as [st1 Hrun].
  rewrite Hrun, H1.
  pose proof (AnalyzeWithAgent_result AgentTypeVulnerability
                (buildVulnPrompt result reconResult) progress
                (snd (report progress
                        (nl +:+ "🔍 Stage 2/3: Vulnerability Analysis") st1))) as E2.
  destruct (AnalyzeWithAgent agents clients AgentTypeVulnerability _ _ _)
    as [r2 st2]. cbn [fst] in E2. rewrite E2, H2. reflexivity.
Qed.

End WithAgents.

End AgentFacts.






(** ** Permission negotiation *)

Section PermissionFacts.

(** A request answered from the cache leaves manager and world alone. *)
Lemma RequestRootPermission_cached (pm : PermissionManager) (w : World)
    (tool purpose command : string) (approved : bool) :
  userApproved pm !! (tool +:+ ":" +:+ command) = Some approved ->
  RequestRootPermission pm w tool purpose command = ((approved, None), pm, w).
Proof. intros H. unfold RequestRootPermission. now rewrite H. Qed.

(** Whatever way a request comes back approved without error, the
    decision is in the cache under the request's own key. *)
Lemma RequestRootPermission_records (pm pm' : PermissionManager) (w w' : World)
    (tool purpose command : string) :
  RequestRootPermission pm w tool purpose command = ((true, None), pm', w') ->
  userApproved pm' !! (tool +:+ ":" +:+ command) = Some true.
Proof.
  unfold RequestRootPermission.
  destruct (userApproved pm !! (tool +:+ ":" +:+ command)) as [approved|] eqn:Hc.
  - intros [= -> <- <-]. exact Hc.
  - destruct (CheckSudoAvailable pm _) as [available pm1].
    destruct available; cbn [negb]; [|discriminate].
    destruct (readLine _) as [[response|err] w1]; [|discriminate].
    destruct (_ || _).
    { intros [= <- <-]. cbn. apply lookup_insert_eq. }
    destruct (_ || _).
    { intros [= <- <-]. cbn. apply lookup_insert_eq. }
    destruct (_ || _); discriminate.
Qed.

Lemma stdout_print (w : World) (s : string) :
  stdout (print w s) = stdout w ++ [s].
Proof. reflexivity. Qed.

Lemma stdout_readLine (w : World) : stdout (snd (readLine w)) = stdout w.
Proof. unfold readLine. destruct (stdin w); reflexivity. Qed.

(** A request whose own key is not in the cache writes the request to
    standard output, whatever else the cache holds. *)
Lemma RequestRootPermission_uncached (pm : PermissionManager) (w : World)
    (tool purpose command : string) :
  userApproved pm !! (tool +:+ ":" +:+ command) = None ->
  exists more,
    stdout (snd (RequestRootPermission pm w tool purpose command))
    = stdout w
        ++ [nl +:+ "🔐 Root Permission Request" +:+ nl;
            rule +:+ nl;
            nl +:+ "📋 Tool: " +:+ tool +:+ nl;
            "🎯 Purpose: " +:+ purpose +:+ nl;
            "💻 Command: " +:+ command +:+ nl]
        ++ more.
Proof.
  intros Hc. unfold RequestRootPermission. rewrite Hc.
  destruct (CheckSudoAvailable pm _) as [available pm1].
  destruct available; cbn [negb].
  - match goal with |- context [readLine ?w0] =>
      pose proof (stdout_readLine w0) as Hr; destruct (readLine w0) as [[response|err] w1]
    end; cbn [snd] in Hr.
    + repeat match goal with |- context [if ?c then _ else _] => destruct c end;
        cbn [snd]; rewrite ?stdout_print, Hr, !stdout_print, <- !app_assoc;
        eexists; cbn [app]; reflexivity.
    + cbn [snd]. rewrite Hr, !stdout_print, <- !app_assoc.
      eexists; cbn [app]; reflexivity.
  - cbn [snd]. rewrite !stdout_print, <- !app_assoc. eexists; cbn [app]; reflexivity.
Qed.

End PermissionFacts.

(** C8.  When a request has come back approved, the same tool and command
    asked again (for whatever purpose) come back approved, and neither the
    manager nor the world changes: nothing is printed and no line is read. *)
Theorem RequestRootPermission_idempotent (pm pm' : PermissionManager)
    (w w' : World) (tool purpose purpose' command : string) :
  RequestRootPermission pm w tool purpose command = ((true, None), pm', w') ->
  RequestRootPermission pm' w' tool purpose' command = ((true, None), pm', w').
Proof.
  intros H. apply RequestRootPermission_cached.
  eapply RequestRootPermission_records, H.
Qed.

Lemma RequestRootPermission_idempotent_witness :
  RequestRootPermission
    (snd (fst (RequestRootPermission NewPermissionManager terminal "nmap"
                 "SYN scan" "sudo nmap -sS example.com")))
    (snd (RequestRootPermission NewPermissionManager terminal "nmap"
            "SYN scan" "sudo nmap -sS example.com"))
    "nmap" "SYN scan" "sudo nmap -sS example.com"
  = ((true, None),
     snd (fst (RequestRootPermission NewPermissionManager terminal "nmap"
                 "SYN scan" "sudo nmap -sS example.com")),
     snd (RequestRootPermission NewPermissionManager terminal "nmap"
            "SYN scan" "sudo nmap -sS example.com")).
Proof.
  apply (RequestRootPermission_idempotent NewPermissionManager _ terminal _
           "nmap" "SYN scan" "SYN scan" "sudo nmap -sS example.com").
  vm_compute. reflexivity.
Defined.

(** C1.  The answer "always" stores the key of the tool with "*" for a
    command, but a request looks up its own key only: whatever is stored
    under the tool's "*" key, a request whose own key is not in the cache
    is written out again.  After "always" for one nmap command, a second
    nmap command is asked about again, the next line of input is read, and
    a "no" there denies it. *)
Theorem always_is_not_consulted :
  (forall pm w tool purpose command,
      userApproved pm !! (tool +:+ ":*") = Some true ->
      userApproved pm !! (tool +:+ ":" +:+ command) = None ->
      exists more,
        stdout (snd (RequestRootPermission pm w tool purpose command))
        = stdout w
            ++ [nl +:+ "🔐 Root Permission Request" +:+ nl;
                rule +:+ nl;
                nl +:+ "📋 Tool: " +:+ tool +:+ nl;
                "🎯 Purpose: " +:+ purpose +:+ nl;
                "💻 Command: " +:+ command +:+ nl]
            ++ more) /\
  let '(first, pm1, w1) :=
    RequestRootPermission NewPermissionManager terminal "nmap" "SYN scan"
      "sudo nmap -sS example.com" in
  let '(second, pm2, w2) :=
    RequestRootPermission pm1 w1 "nmap" "OS detection" "sudo nmap -O example.com" in
  first = (true, None) /\
  userApproved pm1 !! "nmap:*" = Some true /\
  asked w1 = 1%nat /\
  second = (false, None) /\
  asked w2 = 2%nat /\
  stdin w1 = ["no"] /\ stdin w2 = [].
Proof.
  split.
  - intros pm w tool purpose command _ Hc. now apply RequestRootPermission_uncached.
  - vm_compute. repeat split; reflexivity.
Qed.

(** * Further properties *)

(** ** Lines and trimming *)

Section LineFacts.

(** Joining the fields of a split gives the text back. *)
Lemma JoinWith_SplitLines (s : string) : JoinWith nl (SplitLines s) = s.
Proof.
  induction s as [|c s IH]; [reflexivity|].
  cbn [SplitLines].
  pose proof (SplitLines_nonempty s) as Hne.
  destruct (Ascii.eqb c (ascii_of_nat 10)) eqn:Hc.
  - apply Ascii.eqb_eq in Hc. subst c.
    destruct (SplitLines s) as [|l0 ls]; [congruence|].
    change (JoinWith nl (EmptyString :: l0 :: ls))
      with (EmptyString +:+ nl +:+ JoinWith nl (l0 :: ls)).
    rewrite IH. reflexivity.
  - destruct (SplitLines s) as [|l0 ls]; [congruence|].
    destruct ls as [|l1 ls].
    + cbn in *. now rewrite IH.
    + change (JoinWith nl (String c l0 :: l1 :: ls))
        with (String c (l0 +:+ nl +:+ JoinWith nl (l1 :: ls))).
      change (JoinWith nl (l0 :: l1 :: ls))
        with (l0 +:+ nl +:+ JoinWith nl (l1 :: ls)) in IH.
      now rewrite IH.
Qed.

Lemma append_empty_r (s : string) : s +:+ EmptyString = s.
Proof.
  induction s as [|c s IH]; [reflexivity|].
  change (String c (s +:+ EmptyString) = String c s). now rewrite IH.
Qed.

Lemma In_JoinWith (sep : string) (parts : list string) (l : string) :
  In l parts -> exists a b, JoinWith sep parts = a +:+ l +:+ b.
Proof.
  induction parts as [|p ps IH]; [intros []|].
  intros [->|Hin].
  - destruct ps as [|q ps].
    + exists EmptyString, EmptyString. cbn [JoinWith].
      now rewrite append_empty_r.
    + exists EmptyString, (sep +:+ JoinWith sep (q :: ps)). reflexivity.
  - destruct (IH Hin) as (a & b & Hj).
    destruct ps as [|q ps]; [destruct Hin|].
    exists (p +:+ sep +:+ a), b.
    change (JoinWith sep (p :: q :: ps)) with (p +:+ sep +:+ JoinWith sep (q :: ps)).
    rewrite Hj, !append_assoc. reflexivity.
Qed.

(** Every line of a text is a slice of it. *)
Lemma In_SplitLines_infix (text line : string) :
  In line (SplitLines text) -> exists a b, text = a +:+ line +:+ b.
Proof.
  intros Hin. destruct (In_JoinWith nl _ _ Hin) as (a & b & Hj).
  rewrite JoinWith_SplitLines in Hj. eauto.
Qed.

Lemma Contains_line (text line p : string) :
  In line (SplitLines text) ->
  Contains (ToLower line) p = true -> Contains (ToLower text) p = true.
Proof.
  intros Hin Hc. destruct (In_SplitLines_infix _ _ Hin) as (a & b & ->).
  rewrite !ToLower_app. now apply Contains_infix.
Qed.

Lemma Contains_line_exact (text line p : string) :
  In line (SplitLines text) ->
  Contains line p = true -> Contains text p = true.
Proof.
  intros Hin Hc. destruct (In_SplitLines_infix _ _ Hin) as (a & b & ->).
  now apply Contains_infix.
Qed.

Lemma absent_in_lines (text p : string) :
  Contains (ToLower text) p = false ->
  forall line, In line (SplitLines text) -> Contains (ToLower line) p = false.
Proof.
  intros Hno line Hin. destruct (Contains (ToLower line) p) eqn:Hc; [|reflexivity].
  rewrite (Contains_line _ _ _ Hin Hc) in Hno. discriminate.
Qed.

(** No line holds a newline. *)
Lemma SplitLines_no_newline (text line : string) :
  In line (SplitLines text) -> Contains line nl = false.
Proof.
  revert line; induction text as [|c s IH]; intros line.
  - intros [<-|[]]. reflexivity.
  - cbn [SplitLines]. pose proof (SplitLines_nonempty s) as Hne.
    destruct (Ascii.eqb c (ascii_of_nat 10)) eqn:Hc.
    + intros [<-|Hin]; [reflexivity|now apply IH].
    + destruct (SplitLines s) as [|l0 ls]; [congruence|].
      intros [<-|Hin]; [|apply IH; now right].
      cbn. rewrite Hc. cbn. apply IH. now left.
Qed.

Lemma Contains_slice_false (a s b p : string) :
  Contains (a +:+ s +:+ b) p = false -> Contains s p = false.
Proof.
  intros H. destruct (Contains s p) eqn:Hc; [|reflexivity].
  rewrite (Contains_infix a s b p Hc) in H. discriminate.
Qed.

Lemma TrimSpace_no_newline (s : string) :
  Contains s nl = false -> Contains (TrimSpace s) nl = false.
Proof.
  intros H. destruct (TrimSpace_infix s) as (a & b & Hs).
  rewrite Hs in H. eapply Contains_slice_false, H.
Qed.

Lemma TrimLeft_head (s : string) :
  match TrimLeft s with
  | EmptyString => True
  | String c _ => isSpace c = false
  end.
Proof.
  induction s as [|c s IH]; cbn; [exact I|].
  destruct (isSpace c) eqn:Hc; [exact IH|exact Hc].
Qed.

Lemma TrimRight_idem (s : string) : TrimRight (TrimRight s) = TrimRight s.
Proof.
  induction s as [|c s IH]; [reflexivity|].
  cbn [TrimRight]. destruct (TrimRight s) as [|d t] eqn:Ht.
  - destruct (isSpace c) eqn:Hc; [reflexivity|]. cbn. now rewrite Hc.
  - cbn [TrimRight] in *. rewrite IH. reflexivity.
Qed.

Lemma TrimRight_head (c : ascii) (s : string) :
  isSpace c = false -> exists t, TrimRight (String c s) = String c t.
Proof.
  intros Hc. cbn [TrimRight]. destruct (TrimRight s); [|eauto].
  rewrite Hc. eauto.
Qed.

(** [TrimSpace] has nothing left to trim in its result. *)
Lemma TrimSpace_idem (s : string) : TrimSpace (TrimSpace s) = TrimSpace s.
Proof.
  unfold TrimSpace. pose proof (TrimLeft_head s) as Hh.
  destruct (TrimLeft s) as [|c t]; [reflexivity|].
  destruct (TrimRight_head c t Hh) as [u Hu]. rewrite Hu.
  cbn [TrimLeft]. rewrite Hh, <- Hu. apply TrimRight_idem.
Qed.

End LineFacts.

(** ** What the extractors return *)

Section ExtractorMore.

Lemma riskLines_absent (lines : list string) :
  (forall line, In line lines -> Contains (ToLower line) "risk score" = false) ->
  riskLines lines = 50.
Proof.
  induction lines as [|line rest IH]; intros H; [reflexivity|].
  cbn [riskLines]. rewrite (H line) by now left.
  apply IH. intros l Hl. apply H. now right.
Qed.

Lemma criticalLoop_absent (lines : list string) (issues : list string) :
  (forall line, In line lines -> Contains (ToLower line) "critical" = false) ->
  criticalLoop lines false issues = issues.
Proof.
  revert issues; induction lines as [|line rest IH]; intros issues H; [reflexivity|].
  cbn [criticalLoop]. rewrite (H line) by now left. cbn [andb].
  apply IH. intros l Hl. apply H. now right.
Qed.

Lemma recommendationLoop_absent (lines : list string)
    (recommendations : list Recommendation) :
  (forall line, In line lines -> Contains (ToLower line) "recommendation" = false) ->
  recommendationLoop lines false recommendations = recommendations.
Proof.
  revert recommendations; induction lines as [|line rest IH];
    intros recommendations H; [reflexivity|].
  cbn [recommendationLoop]. rewrite (H line) by now left. cbn [andb].
  apply IH. intros l Hl. apply H. now right.
Qed.

Lemma summaryLoop_absent (all rest : list string) (i : nat) :
  (forall line, In line rest -> Contains (ToLower line) "summary" = false) ->
  summaryLoop all rest i = None.
Proof.
  revert i; induction rest as [|line rest IH]; intros i H; [reflexivity|].
  cbn [summaryLoop]. rewrite (H line) by now left. cbn [andb].
  apply IH. intros l Hl. apply H. now right.
Qed.

(** The loop of [parseCriticalIssues] adds only trimmed, non-empty bullet
    lines that do not mention "critical". *)
Lemma criticalLoop_Forall (P : string -> Prop) (lines : list string) :
  (forall line,
      In line lines ->
      Contains (ToLower line) "critical" = false ->
      HasPrefix (TrimSpace line) "-" || HasPrefix (TrimSpace line) "*" = true ->
      P (TrimSpace line)) ->
  forall inCritical issues,
    Forall P issues -> Forall P (criticalLoop lines inCritical issues).
Proof.
  induction lines as [|line rest IH]; intros Hstep inCritical issues Hacc;
    [exact Hacc|].
  assert (Hrest : forall l, In l rest ->
            Contains (ToLower l) "critical" = false ->
            HasPrefix (TrimSpace l) "-" || HasPrefix (TrimSpace l) "*" = true ->
            P (TrimSpace l)) by (intros l Hl; apply Hstep; now right).
  cbn [criticalLoop].
  destruct (Contains (ToLower line) "critical") eqn:Hc; [now apply IH|].
  set (issues' := if inCritical && _ then _ else issues).
  assert (Hacc' : Forall P issues').
  { subst issues'. destruct (inCritical && _); [|exact Hacc].
    destruct (_ || _) eqn:Hb; [|exact Hacc].
    apply Forall_app. split; [exact Hacc|].
    constructor; [|constructor]. apply Hstep; [now left|exact Hc|exact Hb]. }
  destruct (inCritical && Contains _ "recommendation"); [exact Hacc'|now apply IH].
Qed.

Lemma recommendationLoop_Forall (P : Recommendation -> Prop) (lines : list string) :
  (forall line,
      In line lines ->
      Contains (ToLower line) "recommendation" = false ->
      HasPrefix (TrimSpace line) "-" || HasPrefix (TrimSpace line) "*"
      || HasPrefix (TrimSpace line) "1" = true ->
      P {| Priority := "medium"; Title := TrimSpace line;
           Description := TrimSpace line; Impact := "unknown";
           Effort := "medium"; Steps := [] |}) ->
  forall inRecommendations recommendations,
    Forall P recommendations ->
    Forall P (recommendationLoop lines inRecommendations recommendations).
Proof.
  induction lines as [|line rest IH]; intros Hstep inR recs Hacc; [exact Hacc|].
  assert (Hrest : forall l, In l rest ->
            Contains (ToLower l) "recommendation" = false ->
            HasPrefix (TrimSpace l) "-" || HasPrefix (TrimSpace l) "*"
            || HasPrefix (TrimSpace l) "1" = true ->
            P {| Priority := "medium"; Title := TrimSpace l;
                 Description := TrimSpace l; Impact := "unknown";
                 Effort := "medium"; Steps := [] |})
    by (intros l Hl; apply Hstep; now right).
  cbn [recommendationLoop].
  destruct (Contains (ToLower line) "recommendation") eqn:Hc; [now apply IH|].
  apply IH; [exact Hrest|].
  destruct (inR && _); [|exact Hacc].
  cbv zeta. destruct (_ || _) eqn:Hb; [|exact Hacc].
  apply Forall_app. split; [exact Hacc|].
  constructor; [|constructor]. apply Hstep; [now left|exact Hc|exact Hb].
Qed.

(** Once collection is on, the lines after a line that mentions
    "recommendation" (and not "critical") are not read. *)
Lemma criticalLoop_stops (before after : list string) (stop : string) :
  Contains (ToLower stop) "critical" = false ->
  Contains (ToLower stop) "recommendation" = true ->
  forall inCritical issues,
    inCritical = true \/
    (exists line, In line before /\ Contains (ToLower line) "critical" = true) ->
    criticalLoop (before ++ stop :: after) inCritical issues
    = criticalLoop (before ++ [stop]) inCritical issues.
Proof.
  intros Hc Hr. induction before as [|line rest IH]; intros inCritical issues Hon.
  - destruct Hon as [->|(l & [] & _)].
    cbn [app criticalLoop]. rewrite Hc, Hr. reflexivity.
  - cbn [app criticalLoop].
    destruct (Contains (ToLower line) "critical") eqn:Hl.
    + apply IH. now left.
    + destruct (inCritical && Contains (ToLower line) "recommendation");
        [reflexivity|].
      apply IH. destruct Hon as [->|(l & [<-|Hin] & Hlc)];
        [now left|congruence|right; eauto].
Qed.

Lemma summaryLoop_single_line (all rest : list string) (i : nat) (s : string) :
  (forall line, In line all -> Contains line nl = false) ->
  summaryLoop all rest i = Some s -> Contains s nl = false.
Proof.
  intros Hall. revert i; induction rest as [|line rest IH]; intros i;
    [discriminate|].
  cbn [summaryLoop]. destruct (_ && _); [|apply IH].
  intros [= <-]. apply TrimSpace_no_newline.
  destruct (all !! S i) as [l|] eqn:Hl; [|reflexivity].
  apply Hall. apply list_elem_of_In. eapply list_elem_of_lookup_2, Hl.
Qed.

End ExtractorMore.







(** X4.  The summary is always a single line: it holds no newline. *)
Theorem parseAnalysisSummary_single_line (text : string) :
  Contains (parseAnalysisSummary text) nl = false.
Proof.
  unfold parseAnalysisSummary.
  destruct (summaryLoop _ _ _) as [s|] eqn:Hs.
  - eapply summaryLoop_single_line, Hs. apply SplitLines_no_newline.
  - pose proof (SplitLines_nonempty text) as Hne.
    destruct (SplitLines text) as [|l ls] eqn:Hl; [congruence|].
    cbn. apply (SplitLines_no_newline text). rewrite Hl. now left.
Qed.



(** ** The researcher's helpers *)

Section ResearcherFacts.

Lemma absent_in_lines_exact (text p : string) :
  Contains text p = false ->
  forall line, In line (SplitLines text) -> Contains line p = false.
Proof.
  intros Hno line Hin. destruct (Contains line p) eqn:Hc; [|reflexivity].
  rewrite (Contains_line_exact _ _ _ Hin Hc) in Hno. discriminate.
Qed.

Lemma sectionLoop_absent (name : string) (lines : list string) (section : string) :
  (forall line, In line lines -> Contains line name = false) ->
  sectionLoop name lines false section = section.
Proof.
  revert section; induction lines as [|line rest IH]; intros section H;
    [reflexivity|].
  cbn [sectionLoop]. rewrite (H line) by now left. cbn [andb].
  apply IH. intros l Hl. apply H. now right.
Qed.

Lemma hypothesesLoop_absent (lines : list string) (hypotheses : list string) :
  (forall line, In line lines ->
     Contains line "HYPOTHESES" || Contains line "SUSPECTED" = false) ->
  hypothesesLoop lines false hypotheses = hypotheses.
Proof.
  revert hypotheses; induction lines as [|line rest IH]; intros hypotheses H;
    [reflexivity|].
  cbn [hypothesesLoop]. rewrite (H line) by now left. cbn [andb].
  apply IH. intros l Hl. apply H. now right.
Qed.

Lemma nextStepsLoop_absent (lines : list string) (steps : list string) :
  (forall line, In line lines ->
     Contains line "NEXT STEPS" || Contains line "VERIFICATION" = false) ->
  nextStepsLoop lines false steps = steps.
Proof.
  revert steps; induction lines as [|line rest IH]; intros steps H; [reflexivity|].
  cbn [nextStepsLoop]. rewrite (H line) by now left. cbn [andb].
  apply IH. intros l Hl. apply H. now right.
Qed.

Lemma hypothesesLoop_Forall (P : string -> Prop) (lines : list string) :
  (forall line,
      In line lines ->
      Contains line "HYPOTHESES" || Contains line "SUSPECTED" = false ->
      HasPrefix (TrimSpace line) "-" = true ->
      P (TrimSpace line)) ->
  forall inHypotheses hypotheses,
    Forall P hypotheses -> Forall P (hypothesesLoop lines inHypotheses hypotheses).
Proof.
  induction lines as [|line rest IH]; intros Hstep inH acc Hacc; [exact Hacc|].
  assert (Hrest : forall l, In l rest ->
            Contains l "HYPOTHESES" || Contains l "SUSPECTED" = false ->
            HasPrefix (TrimSpace l) "-" = true -> P (TrimSpace l))
    by (intros l Hl; apply Hstep; now right).
  cbn [hypothesesLoop].
  destruct (Contains line "HYPOTHESES" || Contains line "SUSPECTED") eqn:Hc;
    [now apply IH|].
  set (acc' := if inH && _ then _ else acc).
  assert (Hacc' : Forall P acc').
  { subst acc'. destruct inH; cbn [andb]; [|exact Hacc].
    destruct (HasPrefix (TrimSpace line) "-") eqn:Hb; [|exact Hacc].
    apply Forall_app. split; [exact Hacc|].
    constructor; [|constructor]. apply Hstep; [now left|exact Hc|exact Hb]. }
  destruct (inH && HasPrefix line "###"); [exact Hacc'|now apply IH].
Qed.

Lemma nextStepsLoop_Forall (P : string -> Prop) (lines : list string) :
  (forall line,
      In line lines ->
      Contains line "NEXT STEPS" || Contains line "VERIFICATION" = false ->
      HasPrefix (TrimSpace line) "-" || HasPrefix (TrimSpace line) "1." = true ->
      P (TrimSpace line)) ->
  forall inNextSteps steps,
    Forall P steps -> Forall P (nextStepsLoop lines inNextSteps steps).
Proof.
  induction lines as [|line rest IH]; intros Hstep inN acc Hacc; [exact Hacc|].
  assert (Hrest : forall l, In l rest ->
            Contains l "NEXT STEPS" || Contains l "VERIFICATION" = false ->
            HasPrefix (TrimSpace l) "-" || HasPrefix (TrimSpace l) "1." = true ->
            P (TrimSpace l))
    by (intros l Hl; apply Hstep; now right).
  cbn [nextStepsLoop].
  destruct (Contains line "NEXT STEPS" || Contains line "VERIFICATION") eqn:Hc;
    [now apply IH|].
  apply IH; [exact Hrest|].
  destruct inN; cbn [andb]; [|exact Hacc].
  destruct (HasPrefix (TrimSpace line) "-" || HasPrefix (TrimSpace line) "1.")
    eqn:Hb; [|exact Hacc].
  apply Forall_app. split; [exact Hacc|].
  constructor; [|constructor]. apply Hstep; [now left|exact Hc|exact Hb].
Qed.

End ResearcherFacts.



(** X7.  [extractSection] returns the empty string when no line of the
    text holds the section name, and what it returns never starts or ends
    with a blank. *)
Theorem extractSection_trimmed (text sectionName : string) :
  TrimSpace (extractSection text sectionName) = extractSection text sectionName /\
  (Contains text sectionName = false -> extractSection text sectionName = EmptyString).
Proof.
  split; [apply TrimSpace_idem|].
  intros H. unfold extractSection.
  rewrite sectionLoop_absent; [reflexivity|]. now apply absent_in_lines_exact.
Qed.

Lemma extractSection_trimmed_witness :
  extractSection ("## Findings" +:+ nl +:+ "nothing") "CRITICAL" = EmptyString.
Proof.
  apply (proj2 (extractSection_trimmed ("## Findings" +:+ nl +:+ "nothing")
                  "CRITICAL")).
  reflexivity.
Defined.

(** ** More on the retry loops *)

Section RetryMore.

Context {T : Type}.

(** One attempt, whatever the state of the loop. *)
Lemma retryLoop_step (E : env T) (fuel : nat) (attempt : Z)
    (lastErr : option error) (trace : list event) :
  retryLoop E (S fuel) attempt lastErr trace
  = match doneBefore E attempt with
    | Some cerr => (trace, Err cerr)
    | None =>
        match fn E attempt with
        | Ok r => (trace ++ [Attempt attempt], Ok r)
        | Err err =>
            if negb (isRetryableError (Some err))
            then (trace ++ [Attempt attempt], Err err)
            else if attempt + 1 <? maxRetryAttempts then
              match doneDuringSleep E attempt with
              | Some cerr =>
                  (trace ++ [Attempt attempt;
                             Print (retryNotice attempt
                                      (mul64 baseRetryDelay (attempt + 1)) err);
                             Sleep (mul64 baseRetryDelay (attempt + 1))],
                   Err cerr)
              | None =>
                  retryLoop E fuel (attempt + 1) (Some err)
                    (trace ++ [Attempt attempt;
                               Print (retryNotice attempt
                                        (mul64 baseRetryDelay (attempt + 1)) err);
                               Sleep (mul64 baseRetryDelay (attempt + 1))])
              end
            else retryLoop E fuel (attempt + 1) (Some err)
                   (trace ++ [Attempt attempt])
        end
    end.
Proof. reflexivity. Qed.

(** The run of [retryWithBackoff], spelled out for its three attempts. *)
Lemma retryWithBackoff_cases (E : env T) :
  retryWithBackoff E
  = match doneBefore E 0 with
    | Some cerr => ([], Err cerr)
    | None =>
    match fn E 0 with
    | Ok r => ([Attempt 0], Ok r)
    | Err e0 =>
    if negb (isRetryableError (Some e0)) then ([Attempt 0], Err e0) else
    match doneDuringSleep E 0 with
    | Some cerr =>
        ([Attempt 0; Print (retryNotice 0 (15 * second) e0); Sleep (15 * second)],
         Err cerr)
    | None =>
    match doneBefore E 1 with
    | Some cerr =>
        ([Attempt 0; Print (retryNotice 0 (15 * second) e0); Sleep (15 * second)],
         Err cerr)
    | None =>
    match fn E 1 with
    | Ok r =>
        ([Attempt 0; Print (retryNotice 0 (15 * second) e0); Sleep (15 * second);
          Attempt 1], Ok r)
    | Err e1 =>
    if negb (isRetryableError (Some e1)) then
      ([Attempt 0; Print (retryNotice 0 (15 * second) e0); Sleep (15 * second);
        Attempt 1], Err e1) else
    match doneDuringSleep E 1 with
    | Some cerr =>
        ([Attempt 0; Print (retryNotice 0 (15 * second) e0); Sleep (15 * second);
          Attempt 1; Print (retryNotice 1 (30 * second) e1); Sleep (30 * second)],
         Err cerr)
    | None =>
    match doneBefore E 2 with
    | Some cerr =>
        ([Attempt 0; Print (retryNotice 0 (15 * second) e0); Sleep (15 * second);
          Attempt 1; Print (retryNotice 1 (30 * second) e1); Sleep (30 * second)],
         Err cerr)
    | None =>
    match fn E 2 with
    | Ok r =>
        ([Attempt 0; Print (retryNotice 0 (15 * second) e0); Sleep (15 * second);
          Attempt 1; Print (retryNotice 1 (30 * second) e1); Sleep (30 * second);
          Attempt 2], Ok r)
    | Err e2 =>
    if negb (isRetryableError (Some e2)) then
      ([Attempt 0; Print (retryNotice 0 (15 * second) e0); Sleep (15 * second);
        Attempt 1; Print (retryNotice 1 (30 * second) e1); Sleep (30 * second);
        Attempt 2], Err e2)
    else
      ([Attempt 0; Print (retryNotice 0 (15 * second) e0); Sleep (15 * second);
        Attempt 1; Print (retryNotice 1 (30 * second) e1); Sleep (30 * second);
        Attempt 2],
       Err (Errorf "max retries exceeded: " e2 EmptyString))
    end end end end end end end end.
Proof.
  unfold retryWithBackoff. change (Z.to_nat maxRetryAttempts) with 3%nat.
  rewrite retryLoop_step.
  destruct (doneBefore E 0); [reflexivity|].
  destruct (fn E 0) as [r|e0]; [reflexivity|].
  destruct (negb (isRetryableError (Some e0))); [reflexivity|].
  change (0 + 1 <? maxRetryAttempts) with true. cbv iota.
  change (mul64 baseRetryDelay (0 + 1)) with (15 * second).
  destruct (doneDuringSleep E 0); [reflexivity|].
  rewrite retryLoop_step. change (0 + 1) with 1.
  destruct (doneBefore E 1); [reflexivity|].
  destruct (fn E 1) as [r|e1]; [reflexivity|].
  destruct (negb (isRetryableError (Some e1))); [reflexivity|].
  change (1 + 1 <? maxRetryAttempts) with true. cbv iota.
  change (mul64 baseRetryDelay (1 + 1)) with (30 * second).
  destruct (doneDuringSleep E 1); [reflexivity|].
  rewrite retryLoop_step. change (1 + 1) with 2.
  destruct (doneBefore E 2); [reflexivity|].
  destruct (fn E 2) as [r|e2]; [reflexivity|].
  destruct (negb (isRetryableError (Some e2))); [reflexivity|].
  reflexivity.
Qed.

End RetryMore.

(** Splits the run of [retryWithBackoff E] into its cases. *)
Ltac retry_fatal :=
  match goal with
  | |- context [negb (isRetryableError (Some ?e))] =>
      destruct (negb (isRetryableError (Some e))) eqn:?
  end.

Ltac retry_cases E :=
  rewrite !(retryWithBackoff_cases E);
  destruct (doneBefore E 0) eqn:?;
  [|destruct (fn E 0) eqn:?;
    [|retry_fatal;
      [|destruct (doneDuringSleep E 0) eqn:?;
        [|destruct (doneBefore E 1) eqn:?;
          [|destruct (fn E 1) eqn:?;
            [|retry_fatal;
              [|destruct (doneDuringSleep E 1) eqn:?;
                [|destruct (doneBefore E 2) eqn:?;
                  [|destruct (fn E 2) eqn:?;
                    [|retry_fatal]]]]]]]]]].

(** X8.  Whatever the attempt function and the context do,
    [retryWithBackoff] makes at most the three calls 0, 1, 2 in this
    order, sleeps at most 15s and then 30s, never sleeps more often than it
    has called, and makes no call at a moment where it has seen the
    context done. *)
Theorem retryWithBackoff_bounded (T : Type) (E : env T) :
  attempts (fst (retryWithBackoff E)) `prefix_of` [0; 1; 2] /\
  delays (fst (retryWithBackoff E)) `prefix_of` [15 * second; 30 * second] /\
  (length (delays (fst (retryWithBackoff E)))
   <= length (attempts (fst (retryWithBackoff E))))%nat /\
  (forall k, In k (attempts (fst (retryWithBackoff E))) -> doneBefore E k = None).
Proof.
  retry_cases E; cbn [fst attempts delays omap length];
    (split; [eexists; reflexivity|]);
    (split; [eexists; reflexivity|]);
    (split; [cbn; lia|]);
    intros k Hk; cbn in Hk; intuition (subst; assumption).
Qed.

(** X9.  [retryWithBackoff] invents nothing.  A result it returns is the
    result of the last call it made; an error it returns is what the
    context reported, or the fatal error of the last call, or, after three
    calls, the retries-exhausted error around the error of the third.  Every
    call before the last one failed with a retryable error. *)
Theorem retryWithBackoff_provenance (T : Type) (E : env T) :
  match snd (retryWithBackoff E) with
  | Ok r =>
      exists k, last (attempts (fst (retryWithBackoff E))) = Some k /\ fn E k = Ok r
  | Err e =>
      (exists k, 0 <= k < 3 /\
                 (doneBefore E k = Some e \/ doneDuringSleep E k = Some e)) \/
      (exists k, last (attempts (fst (retryWithBackoff E))) = Some k /\
                 fn E k = Err e /\ isRetryableError (Some e) = false) \/
      (exists e2, attempts (fst (retryWithBackoff E)) = [0; 1; 2] /\
                  fn E 2 = Err e2 /\
                  e = Errorf "max retries exceeded: " e2 EmptyString)
  end /\
  (forall k k',
      In k (attempts (fst (retryWithBackoff E))) ->
      last (attempts (fst (retryWithBackoff E))) = Some k' -> k <> k' ->
      exists e, fn E k = Err e /\ isRetryableError (Some e) = true).
Proof.
  retry_cases E; cbn [fst snd attempts delays omap last];
    (split;
     [ first
         [ solve [eexists; split; [reflexivity|eassumption]]
         | solve [left; eexists; split; [|eauto]; lia]
         | solve [right; left; eexists; split; [reflexivity|];
                  split; [eassumption|]; now apply negb_true_iff]
         | solve [right; right; eexists; split; [reflexivity|];
                  split; reflexivity] ]
     | intros k k' Hk Hl; cbn in Hk, Hl;
       repeat match goal with
              | H : negb _ = false |- _ => apply negb_false_iff in H
              end;
       intuition (subst; try congruence; eauto) ]).
Qed.

(** X10.  A call that succeeds after [k] retryable failures, under an open
    context, is what [retryWithBackoff] returns, after [k + 1] calls and
    the first [k] of the sleeps 15s, 30s. *)
Theorem retryWithBackoff_recovers (T : Type) (E : env T) (k : nat) (r : T) :
  (k < 3)%nat ->
  (forall j, 0 <= j < Z.of_nat k ->
             exists e, fn E j = Err e /\ isRetryableError (Some e) = true) ->
  fn E (Z.of_nat k) = Ok r ->
  (forall j, 0 <= j <= Z.of_nat k -> doneBefore E j = None) ->
  (forall j, 0 <= j < Z.of_nat k -> doneDuringSleep E j = None) ->
  snd (retryWithBackoff E) = Ok r /\
  attempts (fst (retryWithBackoff E)) = take (S k) [0; 1; 2] /\
  delays (fst (retryWithBackoff E)) = take k [15 * second; 30 * second].
Proof.
  intros Hk Hfail Hok Hb Hs. rewrite !retryWithBackoff_cases.
  destruct k as [|[|[|k]]]; [| | |lia];
    change (Z.of_nat 0) with 0 in *; change (Z.of_nat 1) with 1 in *;
    change (Z.of_nat 2) with 2 in *.
  - rewrite (Hb 0), Hok by lia. repeat split.
  - destruct (Hfail 0) as (e0 & H0 & R0); [lia|].
    rewrite (Hb 0), H0, R0, (Hs 0), (Hb 1), Hok by lia. repeat split.
  - destruct (Hfail 0) as (e0 & H0 & R0); [lia|].
    destruct (Hfail 1) as (e1 & H1 & R1); [lia|].
    rewrite (Hb 0), H0, R0, (Hs 0), (Hb 1), H1, R1, (Hs 1), (Hb 2), Hok by lia.
    repeat split.
Qed.

Lemma retryWithBackoff_recovers_witness :
  snd (AnalyzeScanWithRetry flakySession AgentManager.emptyScan)
  = Ok (analysisOf "Risk Score: 40/100" AgentManager.emptyScan) /\
  attempts (fst (AnalyzeScanWithRetry flakySession AgentManager.emptyScan)) = [0; 1] /\
  delays (fst (AnalyzeScanWithRetry flakySession AgentManager.emptyScan))
  = [15 * second].
Proof.
  apply (retryWithBackoff_recovers AIAnalysis
           {| fn := fun attempt =>
                      analyzeScanOnce (clientRun flakySession attempt)
                        AgentManager.emptyScan;
              doneBefore := ctxBefore flakySession;
              doneDuringSleep := ctxDuringSleep flakySession |} 1).
  - lia.
  - intros j Hj. assert (j = 0) as -> by lia. eexists. split; reflexivity.
  - reflexivity.
  - reflexivity.
  - reflexivity.
Defined.

Section RetryStringFacts.

Lemma quiet_app (t u : list event) : quiet (t ++ u) = quiet t ++ quiet u.
Proof. apply List.filter_app. Qed.

Lemma retryStringLoop_agrees (E : env string) (fuel : nat) :
  forall attempt lastErr trace trace',
    quiet trace = quiet trace' ->
    quiet (fst (retryStringLoop E fuel attempt lastErr trace))
    = quiet (fst (retryLoop E fuel attempt lastErr trace')) /\
    snd (retryStringLoop E fuel attempt lastErr trace)
    = snd (retryLoop E fuel attempt lastErr trace').
Proof.
  induction fuel as [|fuel IH]; intros attempt lastErr trace trace' Hq.
  - split; [exact Hq|reflexivity].
  - cbn [retryStringLoop retryLoop].
    destruct (doneBefore E attempt); [split; [exact Hq|reflexivity]|].
    destruct (fn E attempt) as [r|err].
    { cbn [fst snd]. rewrite !quiet_app, Hq. split; reflexivity. }
    destruct (negb (isRetryableError (Some err))).
    { cbn [fst snd]. rewrite !quiet_app, Hq. split; reflexivity. }
    destruct (attempt + 1 <? maxRetryAttempts).
    + cbv zeta. destruct (doneDuringSleep E attempt).
      * cbn [fst snd]. rewrite !quiet_app, Hq. split; reflexivity.
      * apply IH. rewrite !quiet_app, Hq. reflexivity.
    + apply IH. rewrite !quiet_app, Hq. reflexivity.
Qed.

End RetryStringFacts.

(** X11.  [retryStringWithBackoff] is the same loop as [retryWithBackoff]:
    for the same attempt function and context it makes the same calls and
    sleeps in the same order and returns the same result; only the text of
    the notices differs. *)
Theorem retryStringWithBackoff_agrees (E : env string) :
  quiet (fst (retryStringWithBackoff E)) = quiet (fst (retryWithBackoff E)) /\
  snd (retryStringWithBackoff E) = snd (retryWithBackoff E).
Proof. apply retryStringLoop_agrees. reflexivity. Qed.

(** ** One analysis call and its retries *)

Section BlankFacts.

Lemma isSpace_lowerByte (d : ascii) : isSpace d = true -> lowerByte d = d.
Proof.
  intros Hs. unfold lowerByte. destruct (isUpper d) eqn:Hu; [|reflexivity].
  unfold isUpper in Hu. unfold isSpace in Hs.
  apply andb_true_iff in Hu as [H1%Z.leb_le H2%Z.leb_le].
  apply orb_true_iff in Hs as [[H3%Z.leb_le H4%Z.leb_le]%andb_true_iff|H3%Z.eqb_eq];
    lia.
Qed.

Lemma blank_head (d c : ascii) :
  isSpace d = true -> isSpace c = false -> Ascii.eqb (lowerByte d) c = false.
Proof.
  intros Hd Hc. rewrite (isSpace_lowerByte d Hd).
  apply Ascii.eqb_neq. intros ->. congruence.
Qed.

Lemma TrimRight_blank (t : string) (c : ascii) (p : string) :
  TrimRight t = EmptyString -> isSpace c = false ->
  Contains (ToLower t) (String c p) = false.
Proof.
  intros Ht Hc. induction t as [|d t IH]; [reflexivity|].
  simpl in Ht. destruct (TrimRight t); [|discriminate].
  destruct (isSpace d) eqn:Hd; [|discriminate].
  simpl. rewrite (blank_head d c Hd Hc), IH by reflexivity. reflexivity.
Qed.

Lemma TrimSpace_blank (s : string) (c : ascii) (p : string) :
  TrimSpace s = EmptyString -> isSpace c = false ->
  Contains (ToLower s) (String c p) = false.
Proof.
  unfold TrimSpace. intros Hs Hc. induction s as [|d s IH]; [reflexivity|].
  cbn [TrimLeft] in Hs. destruct (isSpace d) eqn:Hd.
  - simpl. rewrite (blank_head d c Hd Hc), IH by exact Hs. reflexivity.
  - simpl in Hs. destruct (TrimRight s); [|discriminate].
    rewrite Hd in Hs. discriminate.
Qed.

(** The prefix that [analyzeScanOnce] puts before a client error carries no
    retry pattern and no beginning of one. *)
Lemma wrapped_patterns (m : string) :
  existsb (fun pattern => Contains ("failed to run analysis: " +:+ m) pattern)
    retryablePatterns
  = existsb (fun pattern => Contains m pattern) retryablePatterns.
Proof. reflexivity. Qed.

End BlankFacts.

Section AnalysisCalls.

Lemma analysisOf_blank (text : string) (result : ScanResult.t) :
  TrimSpace text = EmptyString ->
  analysisOf text result
  = {| ScanID := ScanResult.ID result;
       Summary := hd EmptyString (SplitLines text);
       CriticalIssues := [];
       Recommendations := [];
       RiskScore := 50 |}.
Proof.
  intros Hb. unfold analysisOf. f_equal.
  - unfold parseAnalysisSummary.
    rewrite summaryLoop_absent
      by (apply absent_in_lines, TrimSpace_blank; [exact Hb|reflexivity]).
    destruct (SplitLines text); reflexivity.
  - apply criticalLoop_absent, absent_in_lines, TrimSpace_blank;
      [exact Hb|reflexivity].
  - apply recommendationLoop_absent, absent_in_lines, TrimSpace_blank;
      [exact Hb|reflexivity].
  - apply riskLines_absent, absent_in_lines, TrimSpace_blank;
      [exact Hb|reflexivity].
Qed.

Lemma analyzeScanOnce_blank (run : string -> result string)
    (result : ScanResult.t) (text : string) :
  run (AdvancedClaudeAnalyzer.buildAnalysisPrompt result) = Ok text ->
  TrimSpace text = EmptyString ->
  analyzeScanOnce run result = Err (Sentinel errEmptyResponse).
Proof. intros Hr Hb. unfold analyzeScanOnce. now rewrite Hr, Hb. Qed.

Lemma analyzeScanOnce_ok (run : string -> result string)
    (result : ScanResult.t) (a : AIAnalysis) :
  analyzeScanOnce run result = Ok a ->
  exists text,
    run (AdvancedClaudeAnalyzer.buildAnalysisPrompt result) = Ok text /\
    String.eqb (TrimSpace text) EmptyString = false /\
    a = analysisOf text result.
Proof.
  unfold analyzeScanOnce.
  destruct (run _) as [text|err]; [|discriminate].
  destruct (String.eqb (TrimSpace text) EmptyString) eqn:Hb; [discriminate|].
  intros [= <-]. now exists text.
Qed.

Lemma retryWithBackoff_ok (T : Type) (E : env T) (r : T) :
  snd (retryWithBackoff E) = Ok r ->
  exists k, last (attempts (fst (retryWithBackoff E))) = Some k /\ fn E k = Ok r.
Proof.
  retry_cases E; cbn [fst snd attempts delays omap last]; intros H;
    try discriminate; injection H as <-; eexists; (split; [reflexivity|assumption]).
Qed.

End AnalysisCalls.

(** X12.  The prefix that [analyzeScanOnce] puts before an error of the
    client changes neither its class nor its identity: the wrapped error is
    retryable exactly when the client's error is, and [errors.Is] sees the
    same sentinels through it. *)
Theorem analyzeScanOnce_wraps_transparently (run : string -> result string)
    (result : ScanResult.t) (e : error) :
  run (AdvancedClaudeAnalyzer.buildAnalysisPrompt result) = Err e ->
  exists e',
    analyzeScanOnce run result = Err e' /\
    Error e' = "failed to run analysis: " +:+ Error e /\
    isRetryableError (Some e') = isRetryableError (Some e) /\
    (forall target, errorsIs e' target = errorsIs e target).
Proof.
  intros Hr. unfold analyzeScanOnce. rewrite Hr.
  eexists. split; [reflexivity|].
  split; [cbn [Error]; now rewrite append_empty_r|].
  split; [|reflexivity].
  rewrite !isRetryableError_spec. cbn [errorsIs Error].
  rewrite append_empty_r, ToLower_app.
  change (ToLower "failed to run analysis: ") with "failed to run analysis: ".
  now rewrite wrapped_patterns.
Qed.

Lemma analyzeScanOnce_wraps_transparently_witness :
  exists e',
    analyzeScanOnce (clientRun flakySession 0) AgentManager.emptyScan = Err e' /\
    Error e' = "failed to run analysis: read tcp: connection reset by peer" /\
    isRetryableError (Some e') = true /\
    (forall target, errorsIs e' target = false).
Proof.
  exact (analyzeScanOnce_wraps_transparently (clientRun flakySession 0)
           AgentManager.emptyScan
           (Plain "read tcp: connection reset by peer") eq_refl).
Defined.

(** X13.  An analysis returned by [AnalyzeScanWithRetry] is read off the
    reply of the last call made, and that reply is not blank. *)
Theorem AnalyzeScanWithRetry_provenance (S : Session) (result : ScanResult.t)
    (a : AIAnalysis) :
  snd (AnalyzeScanWithRetry S result) = Ok a ->
  exists k text,
    last (attempts (fst (AnalyzeScanWithRetry S result))) = Some k /\
    clientRun S k (AdvancedClaudeAnalyzer.buildAnalysisPrompt result) = Ok text /\
    TrimSpace text <> EmptyString /\
    a = analysisOf text result.
Proof.
  intros H. apply retryWithBackoff_ok in H as (k & Hl & Hk).
  cbn [fn] in Hk. apply analyzeScanOnce_ok in Hk as (text & Hr & Hb & ->).
  exists k, text. repeat split; try assumption.
  now apply String.eqb_neq.
Qed.

Lemma AnalyzeScanWithRetry_provenance_witness :
  exists k text,
    last (attempts (fst (AnalyzeScanWithRetry flakySession AgentManager.emptyScan)))
    = Some k /\
    clientRun flakySession k
      (AdvancedClaudeAnalyzer.buildAnalysisPrompt AgentManager.emptyScan) = Ok text /\
    TrimSpace text <> EmptyString /\
    analysisOf "Risk Score: 40/100" AgentManager.emptyScan
    = analysisOf text AgentManager.emptyScan.
Proof.
  exact (AnalyzeScanWithRetry_provenance flakySession AgentManager.emptyScan
           (analysisOf "Risk Score: 40/100" AgentManager.emptyScan) eq_refl).
Defined.

(** X14.  Blank replies are never analysed by [AnalyzeScanWithRetry]: when
    the client answers all three calls with blanks only, under an open
    context, the calls and both sleeps are made and the result is the
    retries-exhausted error around [errEmptyResponse]. *)
Theorem AnalyzeScanWithRetry_blank_replies (S : Session) (result : ScanResult.t) :
  (forall k, 0 <= k < 3 ->
     exists text,
       clientRun S k (AdvancedClaudeAnalyzer.buildAnalysisPrompt result) = Ok text /\
       TrimSpace text = EmptyString) ->
  (forall k, ctxBefore S k = None) ->
  (forall k, ctxDuringSleep S k = None) ->
  snd (AnalyzeScanWithRetry S result)
  = Err (Errorf "max retries exceeded: " (Sentinel errEmptyResponse) EmptyString) /\
  attempts (fst (AnalyzeScanWithRetry S result)) = [0; 1; 2] /\
  delays (fst (AnalyzeScanWithRetry S result)) = [15 * second; 30 * second].
Proof.
  intros Hblank Hb Hs. unfold AnalyzeScanWithRetry.
  rewrite !retryWithBackoff_cases. cbn [fn doneBefore doneDuringSleep].
  destruct (Hblank 0) as (t0 & H0 & B0); [lia|].
  destruct (Hblank 1) as (t1 & H1 & B1); [lia|].
  destruct (Hblank 2) as (t2 & H2 & B2); [lia|].
  rewrite !Hb, !Hs.
  rewrite (analyzeScanOnce_blank _ _ _ H0 B0), (analyzeScanOnce_blank _ _ _ H1 B1),
    (analyzeScanOnce_blank _ _ _ H2 B2).
  repeat split.
Qed.

Lemma AnalyzeScanWithRetry_blank_replies_witness :
  snd (AnalyzeScanWithRetry blankSession AgentManager.emptyScan)
  = Err (Errorf "max retries exceeded: " (Sentinel errEmptyResponse) EmptyString) /\
  attempts (fst (AnalyzeScanWithRetry blankSession AgentManager.emptyScan))
  = [0; 1; 2] /\
  delays (fst (AnalyzeScanWithRetry blankSession AgentManager.emptyScan))
  = [15 * second; 30 * second].
Proof.
  apply (AnalyzeScanWithRetry_blank_replies blankSession AgentManager.emptyScan).
  - intros k _. exists ("  " +:+ nl). split; reflexivity.
  - reflexivity.
  - reflexivity.
Defined.

(** X15.  [PiClaudeAnalyzer.AnalyzeScan] has no such test: a blank reply is
    turned into an analysis, with the defaults of the extraction (score 50,
    no issue, no recommendation) and the first line of the blank reply as
    summary. *)
Theorem AnalyzeScan_accepts_blank_reply (timeString : Time -> string)
    (run : string -> result string) (result : ScanResult.t) (text : string) :
  run (PiClaudeAnalyzer.buildAnalysisPrompt timeString result) = Ok text ->
  TrimSpace text = EmptyString ->
  PiClaudeAnalyzer.AnalyzeScan timeString run result
  = Ok {| ScanID := ScanResult.ID result;
          Summary := hd EmptyString (SplitLines text);
          CriticalIssues := [];
          Recommendations := [];
          RiskScore := 50 |}.
Proof.
  intros Hr Hb. unfold PiClaudeAnalyzer.AnalyzeScan. rewrite Hr.
  now rewrite analysisOf_blank.
Qed.

Lemma AnalyzeScan_accepts_blank_reply_witness :
  PiClaudeAnalyzer.AnalyzeScan (fun _ => EmptyString)
    (clientRun blankSession 0) AgentManager.emptyScan
  = Ok {| ScanID := ScanResult.ID AgentManager.emptyScan;
          Summary := "  ";
          CriticalIssues := [];
          Recommendations := [];
          RiskScore := 50 |}.
Proof.
  exact (AnalyzeScan_accepts_blank_reply (fun _ => EmptyString)
           (clientRun blankSession 0) AgentManager.emptyScan ("  " +:+ nl)
           eq_refl eq_refl).
Defined.

(** ** Usage summaries *)

Section UsageMore.

Lemma wrap64_add_l (a b : Z) : wrap64 (wrap64 a + b) = wrap64 (a + b).
Proof.
  unfold wrap64. f_equal.
  replace ((a + 2 ^ 63) mod 2 ^ 64 - 2 ^ 63 + b + 2 ^ 63)
    with ((a + 2 ^ 63) mod 2 ^ 64 + b) by lia.
  rewrite Zplus_mod_idemp_l. f_equal. lia.
Qed.

Lemma add64_wrap (a b : Z) : add64 (wrap64 a) b = wrap64 (a + b).
Proof. apply wrap64_add_l. Qed.

Lemma sumOf_snoc (f : UsageStats -> Z) (rs : list UsageStats) (r : UsageStats) :
  sumOf f (rs ++ [r]) = sumOf f rs + f r.
Proof. unfold sumOf. now rewrite fold_left_app. Qed.

Lemma costOf_snoc (rs : list UsageStats) (r : UsageStats) :
  costOf (rs ++ [r]) = (costOf rs + CalculateCost r)%float.
Proof. unfold costOf. now rewrite fold_left_app. Qed.

Lemma length_snoc_Z (rs : list UsageStats) (r : UsageStats) :
  Z.of_nat (length (rs ++ [r])) = Z.of_nat (length rs) + 1.
Proof. rewrite length_app. cbn [length]. lia. Qed.

Lemma GetSummary_snoc (records : list UsageStats) (r : UsageStats) :
  GetSummary (recorded (records ++ [r]))
  = summaryStep (GetSummary (recorded records)) r.
Proof.
  unfold GetSummary, recorded. rewrite !usages_fold_RecordUsage.
  cbn [usages NewUsageTracker app]. now rewrite fold_left_app.
Qed.

Lemma modelView_snoc (model : string) (rs : list UsageStats) (r : UsageStats) :
  modelView model (rs ++ [r])
  = Some {| ModelSummary.Model := model;
            ModelSummary.InputTokens :=
              add64 (ModelSummary.InputTokens
                       (default ModelSummary.zero (modelView model rs)))
                    (InputTokens r);
            ModelSummary.OutputTokens :=
              add64 (ModelSummary.OutputTokens
                       (default ModelSummary.zero (modelView model rs)))
                    (OutputTokens r);
            ModelSummary.Cost :=
              (ModelSummary.Cost (default ModelSummary.zero (modelView model rs))
               + CalculateCost r)%float;
            ModelSummary.Operations :=
              add64 (ModelSummary.Operations
                       (default ModelSummary.zero (modelView model rs))) 1 |}.
Proof.
  destruct rs as [|r0 rs]; [reflexivity|].
  change ((r0 :: rs) ++ [r]) with (r0 :: (rs ++ [r])).
  cbn [modelView default from_option id ModelSummary.InputTokens ModelSummary.OutputTokens
         ModelSummary.Cost ModelSummary.Operations].
  change (r0 :: (rs ++ [r])) with ((r0 :: rs) ++ [r]).
  rewrite !add64_wrap, !sumOf_snoc, costOf_snoc, length_snoc_Z. reflexivity.
Qed.

Lemma successes_snoc (rs : list UsageStats) (r : UsageStats) :
  Z.of_nat (length (successes (rs ++ [r])))
  = Z.of_nat (length (successes rs)) + (if Success r then 1 else 0).
Proof.
  unfold successes. rewrite List.filter_app, length_app. cbn [List.filter].
  destruct (Success r); cbn [length]; lia.
Qed.

Lemma agentView_snoc (agent : string) (rs : list UsageStats) (r : UsageStats) :
  agentView agent (rs ++ [r])
  = Some {| AgentSummary.Agent := agent;
            AgentSummary.Model := Model r;
            AgentSummary.InputTokens :=
              add64 (AgentSummary.InputTokens
                       (default AgentSummary.zero (agentView agent rs)))
                    (InputTokens r);
            AgentSummary.OutputTokens :=
              add64 (AgentSummary.OutputTokens
                       (default AgentSummary.zero (agentView agent rs)))
                    (OutputTokens r);
            AgentSummary.Cost :=
              (AgentSummary.Cost (default AgentSummary.zero (agentView agent rs))
               + CalculateCost r)%float;
            AgentSummary.Duration :=
              add64 (AgentSummary.Duration
                       (default AgentSummary.zero (agentView agent rs)))
                    (Duration r);
            AgentSummary.Operations :=
              add64 (AgentSummary.Operations
                       (default AgentSummary.zero (agentView agent rs))) 1;
            AgentSummary.Successes :=
              if Success r
              then add64 (AgentSummary.Successes
                            (default AgentSummary.zero (agentView agent rs))) 1
              else AgentSummary.Successes
                     (default AgentSummary.zero (agentView agent rs)) |}.
Proof.
  unfold agentView at 1. rewrite last_snoc.
  rewrite !sumOf_snoc, costOf_snoc, length_snoc_Z, successes_snoc.
  destruct rs as [|r0 rs] using rev_ind.
  - cbn. destruct (Success r); reflexivity.
  - clear IHrs. unfold agentView. rewrite last_snoc.
    cbn [default from_option id AgentSummary.InputTokens AgentSummary.OutputTokens
           AgentSummary.Cost AgentSummary.Operations AgentSummary.Duration
           AgentSummary.Successes].
    rewrite !add64_wrap.
    destruct (Success r); rewrite ?add64_wrap, ?Z.add_0_r; reflexivity.
Qed.

End UsageMore.

(** X16.  The token and duration totals of a summary are the sums over all
    records, reduced to int64 once: wrap-around in the middle of the loop
    changes nothing. *)
Theorem GetSummary_sums (records : list UsageStats) :
  TotalInputTokens (GetSummary (recorded records))
  = wrap64 (sumOf InputTokens records) /\
  TotalOutputTokens (GetSummary (recorded records))
  = wrap64 (sumOf OutputTokens records) /\
  TotalDuration (GetSummary (recorded records))
  = wrap64 (sumOf Duration records).
Proof.
  induction records as [|r records (IHi & IHo & IHd)] using rev_ind.
  - repeat split.
  - rewrite GetSummary_snoc.
    cbn [summaryStep TotalInputTokens TotalOutputTokens TotalDuration].
    rewrite IHi, IHo, IHd, !add64_wrap, !sumOf_snoc. repeat split.
Qed.

(** X17.  The entry of a model in [ByModel] exists exactly when a record
    names the model, and then holds the model's name, the int64 sums of
    the tokens of its records, the float64 sum of their costs in
    recording order, and their number. *)
Theorem GetSummary_by_model (records : list UsageStats) (model : string) :
  ByModel (GetSummary (recorded records)) !! model
  = modelView model (ofModel model records).
Proof.
  induction records as [|r records IH] using rev_ind; [reflexivity|].
  rewrite GetSummary_snoc. cbn [summaryStep ByModel].
  unfold ofModel. rewrite List.filter_app. cbn [List.filter].
  destruct (String.eqb (Model r) model) eqn:E.
  - apply String.eqb_eq in E. subst model.
    rewrite lookup_insert_eq, IH, modelView_snoc. reflexivity.
  - apply String.eqb_neq in E.
    rewrite lookup_insert_ne, app_nil_r by exact E. exact IH.
Qed.

(** X18.  The entry of an agent in [ByAgent] exists exactly when a record
    names the agent, and then holds the sums and counts over the agent's
    records, but the model of the latest of them only. *)
Theorem GetSummary_by_agent (records : list UsageStats) (agent : string) :
  ByAgent (GetSummary (recorded records)) !! agent
  = agentView agent (ofAgent agent records).
Proof.
  induction records as [|r records IH] using rev_ind; [reflexivity|].
  rewrite GetSummary_snoc. cbn [summaryStep ByAgent].
  unfold ofAgent. rewrite List.filter_app. cbn [List.filter].
  destruct (String.eqb (Agent r) agent) eqn:E.
  - apply String.eqb_eq in E. subst agent.
    rewrite lookup_insert_eq, IH, agentView_snoc. reflexivity.
  - apply String.eqb_neq in E.
    rewrite lookup_insert_ne, app_nil_r by exact E. exact IH.
Qed.

(** ** Analysis profiles and the usage they record *)

Module ProfileFacts.
Import AgentManager UsageShapes.

Section WithAgents.
Context (agents : gmap string Agent) (clients : Clients).

Lemma AnalyzeWithAgent_call (agentType prompt : string) (progress : bool)
    (st : State) :
  exists us,
    usages (tracker (snd (AnalyzeWithAgent agents clients agentType prompt
                            progress st)))
    = usages (tracker st) ++ us /\
    callShape agents
      (fst (AnalyzeWithAgent agents clients agentType prompt progress st)) us.
Proof.
  unfold AnalyzeWithAgent.
  destruct (agents !! agentType) as [agent|] eqn:Ha.
  - unfold mbind, M_bind, mret, M_ret, report, reportAll, recordUsage.
    destruct progress; cbn;
      destruct (ran (clients agentType prompt)) as [text|err]; cbn;
      eexists; (split; [reflexivity|]); cbn.
    1, 3: eexists; split; [reflexivity|]; split; [reflexivity|];
      exists agentType, agent; auto.
    all: right; eexists; split; [reflexivity|]; repeat (split; [reflexivity|]);
      exists agentType, agent; auto.
  - exists []. cbn. rewrite app_nil_r. split; [reflexivity|]. left. eauto.
Qed.

Lemma tracker_report (progress : bool) (msg : string) (st : State) :
  tracker (snd (report progress msg st)) = tracker st.
Proof. destruct progress; reflexivity. Qed.

Lemma tracker_reportAll (progress : bool) (msgs : list string) (st : State) :
  tracker (snd (reportAll progress msgs st)) = tracker st.
Proof. destruct progress; reflexivity. Qed.

Lemma report_eq (progress : bool) (msg : string) (st : State) (u : unit)
    (st' : State) :
  report progress msg st = (u, st') -> tracker st' = tracker st.
Proof. intros H. now rewrite <- (tracker_report progress msg st), H. Qed.

Lemma reportAll_eq (progress : bool) (msgs : list string) (st : State)
    (u : unit) (st' : State) :
  reportAll progress msgs st = (u, st') -> tracker st' = tracker st.
Proof. intros H. now rewrite <- (tracker_reportAll progress msgs st), H. Qed.

Lemma runQuickAnalysis_usage (result : ScanResult.t) (progress : bool)
    (st : State) :
  exists us,
    usages (tracker (snd (runQuickAnalysis agents clients result progress st)))
    = usages (tracker st) ++ us /\
    callShape agents (fst (runQuickAnalysis agents clients result progress st)) us.
Proof.
  unfold runQuickAnalysis, mbind, M_bind.
  destruct (AnalyzeWithAgent_call AgentTypeQuickScan (buildAnalysisPrompt result)
              progress st) as (us & Hu & Hs).
  destruct (AnalyzeWithAgent _ _ _ _ _ _) as [[text|err] s1];
    cbn [fst snd mret M_ret] in *; exists us; split; assumption.
Qed.

Lemma runStandardAnalysis_usage (result : ScanResult.t) (progress : bool)
    (st : State) :
  exists us,
    usages (tracker (snd (runStandardAnalysis agents clients result progress st)))
    = usages (tracker st) ++ us /\
    callShape agents
      (fst (runStandardAnalysis agents clients result progress st)) us.
Proof.
  unfold runStandardAnalysis, mbind, M_bind.
  destruct (report progress _ st) as [[] sa] eqn:Ea.
  destruct (reportAll progress _ sa) as [[] sb] eqn:Eb.
  destruct (report progress EmptyString sb) as [[] sc] eqn:Ec.
  assert (Ht : tracker sc = tracker st).
  { now rewrite (report_eq _ _ _ _ _ Ec), (reportAll_eq _ _ _ _ _ Eb),
      (report_eq _ _ _ _ _ Ea). }
  destruct (AnalyzeWithAgent_call AgentTypeVulnerability
              (buildAnalysisPrompt result) progress sc) as (us & Hu & Hs).
  rewrite Ht in Hu.
  destruct (AnalyzeWithAgent _ _ _ _ _ _) as [[text|err] s1];
    cbn [fst snd mret M_ret] in *; exists us; split; assumption.
Qed.

Lemma runDeepAnalysis_usage (result : ScanResult.t) (progress : bool)
    (st : State) :
  exists us,
    usages (tracker (snd (runDeepAnalysis agents clients result progress st)))
    = usages (tracker st) ++ us /\
    deepShape agents (fst (runDeepAnalysis agents clients result progress st)) us.
Proof.
  unfold runDeepAnalysis, mbind, M_bind.
  destruct (report progress _ st) as [[] sa] eqn:Ea.
  destruct (report progress _ sa) as [[] sb] eqn:Eb.
  assert (Hb : tracker sb = tracker st).
  { now rewrite (report_eq _ _ _ _ _ Eb), (report_eq _ _ _ _ _ Ea). }
  destruct (AnalyzeWithAgent_call AgentTypeRecon (buildReconPrompt result)
              progress sb) as (us1 & Hu1 & Hs1).
  rewrite Hb in Hu1.
  destruct (AnalyzeWithAgent _ _ AgentTypeRecon _ _ _) as [[reconResult|err1] s1];
    cbn [fst snd mret M_ret] in *.
  2: { exists us1. split; [assumption|]. left. exact Hs1. }
  destruct Hs1 as (u1 & -> & Hok1 & Hk1).
  destruct (report progress _ s1) as [[] sc] eqn:Ec.
  assert (Hc : tracker sc = tracker s1).
  { exact (report_eq _ _ _ _ _ Ec). }
  destruct (AnalyzeWithAgent_call AgentTypeVulnerability
              (buildVulnPrompt result reconResult) progress sc)
    as (us2 & Hu2 & Hs2).
  rewrite Hc, Hu1 in Hu2.
  destruct (AnalyzeWithAgent _ _ AgentTypeVulnerability _ _ _)
    as [[vulnResult|err2] s2]; cbn [fst snd mret M_ret] in *.
  2: { exists (u1 :: us2). split; [now rewrite Hu2, <- app_assoc|].
       right. exists u1, us2. auto. }
  destruct Hs2 as (u2 & -> & Hok2 & Hk2).
  destruct (report progress _ s2) as [[] sd] eqn:Ed.
  assert (Hd : tracker sd = tracker s2).
  { exact (report_eq _ _ _ _ _ Ed). }
  destruct (AnalyzeWithAgent_call AgentTypeExploitation
              (buildExploitPrompt result reconResult vulnResult) progress sd)
    as (us3 & Hu3 & Hs3).
  rewrite Hd, Hu2 in Hu3.
  destruct (AnalyzeWithAgent _ _ AgentTypeExploitation _ _ _) as [r3 s3];
    cbn [fst snd] in *.
  assert (Hall : usages (tracker s3) = usages (tracker st) ++ u1 :: u2 :: us3).
  { rewrite Hu3, <- !app_assoc. reflexivity. }
  destruct r3 as [exploitResult|err3]; cbn [mret M_ret fst snd].
  - exists (u1 :: u2 :: us3). split; [exact Hall|].
    exists u1, u2, us3, (Ok exploitResult). auto 10.
  - destruct (report progress _ s3) as [[] se] eqn:Ee.
    assert (He : tracker se = tracker s3).
    { exact (report_eq _ _ _ _ _ Ee). }
    unfold mret, M_ret. cbn [fst snd]. rewrite He.
    exists (u1 :: u2 :: us3). split; [exact Hall|].
    exists u1, u2, us3, (Err err3). auto 10.
Qed.

End WithAgents.
End ProfileFacts.

Module ShapeFacts.
Import AgentManager UsageShapes.

Section WithAgents.
Context (agents : gmap string Agent).

Lemma callShape_facts {A : Type} (r : result A) (us : list UsageStats) :
  callShape agents r us ->
  (length us <= 1)%nat /\
  (length (List.filter (fun u => negb (Success u)) us) <= 1)%nat /\
  (forall u, In u us ->
     ofKnownAgent agents u /\
     (Success u = false -> InputTokens u = 0 /\ OutputTokens u = 0)) /\
  match r with
  | Ok _ => exists u, head us = Some u /\ Success u = true
  | Err _ =>
      (exists agentType, agents !! agentType = None) \/
      (exists u, last us = Some u /\ Success u = false)
  end.
Proof.
  destruct r as [v|e]; cbn [callShape].
  - intros (u & -> & Hok & Hk). cbn. rewrite Hok. cbn.
    split; [lia|]. split; [lia|]. split.
    + intros u' [<-|[]]. split; [exact Hk|congruence].
    + exists u. auto.
  - intros [[-> Hm]|(u & -> & Hf & Hi & Ho & Hk)]; cbn.
    + split; [lia|]. split; [lia|]. split; [contradiction|]. now left.
    + rewrite Hf. cbn. split; [lia|]. split; [lia|]. split.
      * intros u' [<-|[]]. auto.
      * right. exists u. auto.
Qed.

Lemma deepShape_facts {A : Type} (r : result A) (us : list UsageStats) :
  deepShape agents r us ->
  (length us <= 3)%nat /\
  (length (List.filter (fun u => negb (Success u)) us) <= 1)%nat /\
  (forall u, In u us ->
     ofKnownAgent agents u /\
     (Success u = false -> InputTokens u = 0 /\ OutputTokens u = 0)) /\
  match r with
  | Ok _ => exists u, head us = Some u /\ Success u = true
  | Err _ =>
      (exists agentType, agents !! agentType = None) \/
      (exists u, last us = Some u /\ Success u = false)
  end.
Proof.
  destruct r as [v|e]; cbn [deepShape].
  - intros (u1 & u2 & rest & r3 & -> & Hok1 & Hk1 & Hok2 & Hk2 & Hs).
    apply callShape_facts in Hs as (Hl & Hf & Hall & _).
    cbn [length List.filter]. rewrite Hok1, Hok2. cbn [negb].
    split; [lia|]. split; [exact Hf|]. split.
    + intros u [<-|[<-|Hin]]; [split; [assumption|congruence] ..|].
      apply Hall, Hin.
    + exists u1. auto.
  - intros [Hs|(u1 & rest & -> & Hok1 & Hk1 & Hs)].
    + apply callShape_facts in Hs as (Hl & Hf & Hall & Hlast).
      split; [lia|]. auto.
    + apply callShape_facts in Hs as (Hl & Hf & Hall & Hlast).
      cbn [length List.filter]. rewrite Hok1. cbn [negb].
      split; [lia|]. split; [exact Hf|]. split.
      * intros u [<-|Hin]; [split; [assumption|congruence]|].
        apply Hall, Hin.
      * destruct Hlast as [Hm|(u & Hu & Hfail)]; [now left|].
        right. exists u. split; [|exact Hfail].
        destruct rest as [|u2 rest]; [discriminate|exact Hu].
Qed.

End WithAgents.
End ShapeFacts.


(** X20.  [normalizeThinking] answers "low" or "high" and nothing else, and
    leaves its own answers as they are. *)
Theorem normalizeThinking_levels (value : string) :
  (normalizeThinking value = "low" \/ normalizeThinking value = "high") /\
  normalizeThinking (normalizeThinking value) = normalizeThinking value.
Proof.
  assert (H : normalizeThinking value = "low" \/ normalizeThinking value = "high").
  { unfold normalizeThinking.
    destruct (String.eqb (ToLower (TrimSpace value)) "low") eqn:El.
    - apply String.eqb_eq in El. left. exact El.
    - destruct (String.eqb (ToLower (TrimSpace value)) "high") eqn:Eh; cbn [orb].
      + apply String.eqb_eq in Eh. right. exact Eh.
      + right. reflexivity. }
  split; [exact H|]. destruct H as [-> | ->]; reflexivity.
Qed.

(** ** Permission requests and the commands run after them *)

Section RequestFacts.

Lemma stdin_print (w : World) (s : string) : stdin (print w s) = stdin w.
Proof. reflexivity. Qed.

Lemma readLine_stdin (w w' : World) (r : result string) :
  readLine w = (r, w') ->
  stdout w' = stdout w /\
  (stdin w' = stdin w \/ exists line, stdin w = line :: stdin w').
Proof.
  unfold readLine. destruct (stdin w) as [|line rest] eqn:Hs.
  - intros [= <- <-]. auto.
  - intros [= <- <-]. cbn. split; [reflexivity|]. right. now exists line.
Qed.

Lemma CheckSudoAvailable_cache (pm : PermissionManager) (w : World) :
  userApproved (snd (CheckSudoAvailable pm w)) = userApproved pm /\
  sudoTested (snd (CheckSudoAvailable pm w)) = true /\
  sudoAvailable (snd (CheckSudoAvailable pm w)) = fst (CheckSudoAvailable pm w).
Proof.
  unfold CheckSudoAvailable.
  destruct (sudoTested pm) eqn:Ht; [auto|].
  destruct (lookPathSudo w); cbn; auto.
Qed.

Lemma CheckSudoAvailable_tested (pm : PermissionManager) (w : World) :
  sudoTested pm = true -> CheckSudoAvailable pm w = (sudoAvailable pm, pm).
Proof. intros H. unfold CheckSudoAvailable. now rewrite H. Qed.

(** What every request keeps to. *)
Lemma RequestRootPermission_outcome (pm : PermissionManager) (w : World)
    (tool purpose command : string) :
  exists approved err pm' w',
    RequestRootPermission pm w tool purpose command = ((approved, err), pm', w') /\
    (approved = true -> err = None) /\
    (err = None ->
     userApproved pm' !! (tool +:+ ":" +:+ command) = Some approved) /\
    (err <> None ->
     userApproved pm' = userApproved pm /\
     userApproved pm !! (tool +:+ ":" +:+ command) = None) /\
    (forall key, userApproved pm !! key = Some true ->
                 userApproved pm' !! key = Some true) /\
    (stdin w' = stdin w \/ exists line, stdin w = line :: stdin w') /\
    (exists more, stdout w' = stdout w ++ more) /\
    (sudoTested pm = true ->
     sudoTested pm' = true /\ sudoAvailable pm' = sudoAvailable pm).
Proof.
  unfold RequestRootPermission.
  destruct (userApproved pm !! (tool +:+ ":" +:+ command)) as [cached|] eqn:Hc.
  { exists cached, None, pm, w. repeat split; auto; try congruence.
    exists []. now rewrite app_nil_r. }
  pose proof (CheckSudoAvailable_cache pm
    (print (print (print (print (print w (nl +:+ "🔐 Root Permission Request" +:+ nl))
       (rule +:+ nl)) (nl +:+ "📋 Tool: " +:+ tool +:+ nl))
       ("🎯 Purpose: " +:+ purpose +:+ nl)) ("💻 Command: " +:+ command +:+ nl)))
    as (Hca & Hte & Hav).
  pose proof (CheckSudoAvailable_tested pm
    (print (print (print (print (print w (nl +:+ "🔐 Root Permission Request" +:+ nl))
       (rule +:+ nl)) (nl +:+ "📋 Tool: " +:+ tool +:+ nl))
       ("🎯 Purpose: " +:+ purpose +:+ nl)) ("💻 Command: " +:+ command +:+ nl)))
    as Hsticky.
  destruct (CheckSudoAvailable pm _) as [available pm1]. cbn [fst snd] in *.
  assert (Hkeep : sudoTested pm = true ->
                  sudoTested pm1 = true /\ sudoAvailable pm1 = sudoAvailable pm).
  { intros Ht. specialize (Hsticky Ht). injection Hsticky as _ <-. auto. }
  destruct available; cbn [negb].
  2: { do 4 eexists. split; [reflexivity|].
       split; [congruence|]. split; [congruence|].
       split; [intros _; split; [exact Hca|reflexivity]|].
       split; [intros key Hk; now rewrite Hca|].
       split; [left; reflexivity|].
       split; [|exact Hkeep].
       rewrite !stdout_print, <- !app_assoc. eexists. reflexivity. }
  destruct (readLine _) as [[response|err] w1] eqn:Hr;
    apply readLine_stdin in Hr as (Hout & Hin);
    rewrite !stdout_print in Hout; rewrite !stdin_print in Hin.
  2: { do 4 eexists. split; [reflexivity|].
       split; [congruence|]. split; [congruence|].
       split; [intros _; split; [exact Hca|reflexivity]|].
       split; [intros key Hk; now rewrite Hca|].
       split; [exact Hin|].
       split; [|exact Hkeep].
       rewrite Hout, <- !app_assoc. eexists. reflexivity. }
  assert (Hins : forall (v : bool) key,
             userApproved pm !! key = Some true ->
             <[tool +:+ ":" +:+ command := v]> (userApproved pm1) !! key = Some true).
  { intros v key Hk. rewrite Hca. rewrite lookup_insert_ne; [exact Hk|].
    intros <-. congruence. }
  destruct (_ || _).
  { do 4 eexists. split; [reflexivity|].
    cbn [approve userApproved sudoTested sudoAvailable].
    split; [congruence|]. split; [intros _; apply lookup_insert_eq|].
    split; [congruence|]. split; [exact (Hins true)|].
    split; [exact Hin|]. split; [|exact Hkeep].
    rewrite Hout, <- !app_assoc. eexists. reflexivity. }
  destruct (_ || _).
  { do 4 eexists. split; [reflexivity|].
    cbn [approve userApproved sudoTested sudoAvailable].
    split; [congruence|]. split; [intros _; apply lookup_insert_eq|].
    split; [congruence|]. split.
    { intros key Hk. rewrite lookup_insert_ne by (intros <-; congruence).
      rewrite lookup_insert. destruct (decide (tool +:+ ":*" = key)); [reflexivity|].
      now rewrite Hca. }
    split; [exact Hin|]. split; [|exact Hkeep].
    rewrite Hout, <- !app_assoc. eexists. reflexivity. }
  destruct (_ || _).
  { do 4 eexists. split; [reflexivity|].
    cbn [approve userApproved sudoTested sudoAvailable].
    split; [congruence|]. split; [intros _; apply lookup_insert_eq|].
    split; [congruence|]. split; [exact (Hins false)|].
    split; [exact Hin|]. split; [|exact Hkeep].
    rewrite Hout, <- !app_assoc. eexists. reflexivity. }
  do 4 eexists. split; [reflexivity|].
  cbn [approve userApproved sudoTested sudoAvailable].
  split; [congruence|]. split; [intros _; apply lookup_insert_eq|].
  split; [congruence|]. split; [exact (Hins false)|].
  split; [exact Hin|]. split; [|exact Hkeep].
  rewrite stdout_print, Hout, <- !app_assoc. eexists. reflexivity.
Qed.

End RequestFacts.


(** X22.  A denial is final, also the one that an unrecognised answer is
    taken for: once a request has come back denied without error, the same
    tool and command are denied again, in any world and for any purpose,
    without a word printed or a line read. *)
Theorem RequestRootPermission_denial_final (pm pm' : PermissionManager)
    (w w' : World) (tool purpose command : string) :
  RequestRootPermission pm w tool purpose command = ((false, None), pm', w') ->
  forall w2 purpose',
    RequestRootPermission pm' w2 tool purpose' command = ((false, None), pm', w2).
Proof.
  intros H w2 purpose'. apply RequestRootPermission_cached.
  destruct (RequestRootPermission_outcome pm w tool purpose command)
    as (approved & err & pm1 & w1 & E & _ & H2 & _).
  rewrite E in H. injection H as -> -> -> ->. now apply H2.
Qed.

Lemma RequestRootPermission_denial_final_witness :
  RequestRootPermission
    (snd (fst (RequestRootPermission NewPermissionManager
                 {| stdin := ["maybe"]; stdout := [];
                    lookPathSudo := true; sudoNonInteractive := true |}
                 "nmap" "SYN scan" "sudo nmap -sS example.com")))
    terminal "nmap" "OS detection" "sudo nmap -sS example.com"
  = ((false, None),
     snd (fst (RequestRootPermission NewPermissionManager
                 {| stdin := ["maybe"]; stdout := [];
                    lookPathSudo := true; sudoNonInteractive := true |}
                 "nmap" "SYN scan" "sudo nmap -sS example.com")),
     terminal).
Proof.
  apply (RequestRootPermission_denial_final NewPermissionManager _
           {| stdin := ["maybe"]; stdout := [];
              lookPathSudo := true; sudoNonInteractive := true |}
           (snd (RequestRootPermission NewPermissionManager
                   {| stdin := ["maybe"]; stdout := [];
                      lookPathSudo := true; sudoNonInteractive := true |}
                   "nmap" "SYN scan" "sudo nmap -sS example.com"))
           "nmap" "SYN scan" "sudo nmap -sS example.com").
  vm_compute. reflexivity.
Defined.

(** X23.  The probe for sudo is made once.  After it has failed, every
    request for a command not yet answered fails with "sudo not available",
    in whatever world it is made, also one where sudo works by then: the
    user is not asked, no input is read, and the manager stays as it is. *)
Theorem sudo_probe_is_sticky (pm : PermissionManager) (w w2 : World)
    (tool purpose command : string) :
  fst (CheckSudoAvailable pm w) = false ->
  userApproved pm !! (tool +:+ ":" +:+ command) = None ->
  CheckSudoAvailable (snd (CheckSudoAvailable pm w)) w2
  = (false, snd (CheckSudoAvailable pm w)) /\
  fst (RequestRootPermission (snd (CheckSudoAvailable pm w)) w2 tool purpose command)
  = ((false, Some (Plain "sudo not available")), snd (CheckSudoAvailable pm w)) /\
  stdin (snd (RequestRootPermission (snd (CheckSudoAvailable pm w)) w2 tool
                purpose command)) = stdin w2 /\
  asked (snd (RequestRootPermission (snd (CheckSudoAvailable pm w)) w2 tool
                purpose command)) = asked w2.
Proof.
  intros Hf Hc.
  destruct (CheckSudoAvailable_cache pm w) as (Hca & Hte & Hav).
  rewrite Hf in Hav.
  set (pm1 := snd (CheckSudoAvailable pm w)) in *.
  assert (Hs : forall w3, CheckSudoAvailable pm1 w3 = (false, pm1)).
  { intros w3. rewrite (CheckSudoAvailable_tested pm1 w3 Hte), Hav. reflexivity. }
  split; [apply Hs|].
  unfold RequestRootPermission. rewrite Hca, Hc, Hs. cbn [negb fst snd].
  split; [reflexivity|]. split; [reflexivity|].
  unfold asked. rewrite !stdout_print, !List.filter_app. cbn [List.filter].
  repeat match goal with
         | |- context [String.eqb question ?x] =>
             change (String.eqb question x) with false
         end.
  now rewrite !app_nil_r.
Qed.

Lemma sudo_probe_is_sticky_witness :
  CheckSudoAvailable
    (snd (CheckSudoAvailable NewPermissionManager
            {| stdin := []; stdout := [];
               lookPathSudo := false; sudoNonInteractive := false |}))
    terminal
  = (false,
     snd (CheckSudoAvailable NewPermissionManager
            {| stdin := []; stdout := [];
               lookPathSudo := false; sudoNonInteractive := false |})) /\
  fst (RequestRootPermission
         (snd (CheckSudoAvailable NewPermissionManager
                 {| stdin := []; stdout := [];
                    lookPathSudo := false; sudoNonInteractive := false |}))
         terminal "nmap" "SYN scan" "sudo nmap -sS example.com")
  = ((false, Some (Plain "sudo not available")),
     snd (CheckSudoAvailable NewPermissionManager
            {| stdin := []; stdout := [];
               lookPathSudo := false; sudoNonInteractive := false |})) /\
  stdin (snd (RequestRootPermission
                (snd (CheckSudoAvailable NewPermissionManager
                        {| stdin := []; stdout := [];
                           lookPathSudo := false; sudoNonInteractive := false |}))
                terminal "nmap" "SYN scan" "sudo nmap -sS example.com"))
  = stdin terminal /\
  asked (snd (RequestRootPermission
                (snd (CheckSudoAvailable NewPermissionManager
                        {| stdin := []; stdout := [];
                           lookPathSudo := false; sudoNonInteractive := false |}))
                terminal "nmap" "SYN scan" "sudo nmap -sS example.com"))
  = asked terminal.
Proof.
  exact (sudo_probe_is_sticky NewPermissionManager
           {| stdin := []; stdout := [];
              lookPathSudo := false; sudoNonInteractive := false |}
           terminal "nmap" "SYN scan" "sudo nmap -sS example.com"
           eq_refl eq_refl).
Defined.

Module RunFacts.
Import PermissionRun.

Lemma runFallback_outcome (pm : PermissionManager) (m : Machine)
    (tool : string) (fallbackArgs : list string) :
  fst (fst (runFallback pm m tool fallbackArgs))
  = (fst (exec m tool fallbackArgs), false,
     match snd (exec m tool fallbackArgs) with
     | Some err => Some (Errorf "fallback scan failed: " err EmptyString)
     | None => None
     end) /\
  snd (fst (runFallback pm m tool fallbackArgs)) = pm /\
  executed (snd (runFallback pm m tool fallbackArgs))
  = executed m ++ [(tool, fallbackArgs)] /\
  stdin (world (snd (runFallback pm m tool fallbackArgs))) = stdin (world m) /\
  asked (world (snd (runFallback pm m tool fallbackArgs))) = asked (world m).
Proof.
  unfold runFallback, CombinedOutput, say, withWorld. cbn [exec world executed].
  destruct (exec m tool fallbackArgs) as [output [err|]]; cbn [fst snd world executed];
    (split; [reflexivity|]); (split; [reflexivity|]); (split; [reflexivity|]);
    (split; [reflexivity|]);
    unfold asked; rewrite !stdout_print, !List.filter_app; cbn [List.filter];
    repeat match goal with
           | |- context [String.eqb question ?x] =>
               change (String.eqb question x) with false
           end;
    now rewrite !app_nil_r.
Qed.

End RunFacts.

(** X24.  [RunWithSudo] starts a program only behind an approval.  When the
    request leaves an approval of the command line in the cache, exactly
    [sudo tool args...] is started, its output is returned, and the error
    is nil exactly when the program's is.  Otherwise nothing is started,
    the output is empty and the error is not nil. *)
Theorem RunWithSudo_gate (pm : PermissionManager) (m : PermissionRun.Machine)
    (tool purpose : string) (args : list string) :
  let command := "sudo " +:+ tool +:+ " " +:+ JoinWith " " args in
  let r := PermissionRun.RunWithSudo pm m tool purpose args in
  let output := fst (fst (fst r)) in
  let err := snd (fst (fst r)) in
  let pm' := snd (fst r) in
  let m' := snd r in
  match userApproved pm' !! (tool +:+ ":" +:+ command) with
  | Some true =>
      PermissionRun.executed m'
      = PermissionRun.executed m ++ [("sudo", tool :: args)] /\
      output = fst (PermissionRun.exec m "sudo" (tool :: args)) /\
      (err = None <-> snd (PermissionRun.exec m "sudo" (tool :: args)) = None)
  | _ =>
      PermissionRun.executed m' = PermissionRun.executed m /\
      output = EmptyString /\ err <> None
  end.
Proof.
  cbv zeta. unfold PermissionRun.RunWithSudo.
  destruct (RequestRootPermission_outcome pm (PermissionRun.world m) tool purpose
              ("sudo " +:+ tool +:+ " " +:+ JoinWith " " args))
    as (approved & err & pm1 & w1 & -> & H1 & H2 & H3 & _).
  destruct err as [err|].
  - destruct H3 as (Hca & Hc); [discriminate|].
    cbn [fst snd]. rewrite Hca, Hc. cbn. repeat split. discriminate.
  - specialize (H2 eq_refl). destruct approved; cbn [negb].
    + unfold PermissionRun.CombinedOutput, PermissionRun.say,
        PermissionRun.withWorld.
      cbn [PermissionRun.exec PermissionRun.world PermissionRun.executed].
      destruct (PermissionRun.exec m "sudo" ([tool] ++ args))
        as [output [err|]] eqn:Hx;
        cbn [fst snd PermissionRun.executed]; rewrite H2;
        change ([tool] ++ args) with (tool :: args) in Hx; rewrite Hx;
        cbn [fst snd]; repeat split; intros; congruence.
    + cbn [fst snd]. rewrite H2. cbn. repeat split. discriminate.
Qed.

(** X25.  [RunWithFallback] starts one or two programs: the privileged
    command alone, when it is approved and succeeds, and then the result
    is marked as privileged; or the fallback command, alone or after an
    approved privileged command that failed, and then the result is the
    fallback's and is not marked.  When the probe for sudo fails, the user is
    not asked and no input is read. *)
Theorem RunWithFallback_outcomes (pm : PermissionManager)
    (m : PermissionRun.Machine) (tool purpose : string)
    (rootArgs fallbackArgs : list string) :
  let command := "sudo " +:+ tool +:+ " " +:+ JoinWith " " rootArgs in
  let r := PermissionRun.RunWithFallback pm m tool purpose rootArgs fallbackArgs in
  let output := fst (fst (fst (fst r))) in
  let usedRoot := snd (fst (fst (fst r))) in
  let err := snd (fst (fst r)) in
  let pm' := snd (fst r) in
  let m' := snd r in
  let fallback :=
    output = fst (PermissionRun.exec m tool fallbackArgs) /\
    err = match snd (PermissionRun.exec m tool fallbackArgs) with
          | Some e => Some (Errorf "fallback scan failed: " e EmptyString)
          | None => None
          end in
  ((usedRoot = true /\ err = None /\
    PermissionRun.executed m'
    = PermissionRun.executed m ++ [("sudo", tool :: rootArgs)] /\
    PermissionRun.exec m "sudo" (tool :: rootArgs) = (output, None) /\
    userApproved pm' !! (tool +:+ ":" +:+ command) = Some true) \/
   (usedRoot = false /\ fallback /\
    PermissionRun.executed m'
    = PermissionRun.executed m ++ [(tool, fallbackArgs)]) \/
   (usedRoot = false /\ fallback /\
    PermissionRun.executed m'
    = PermissionRun.executed m
        ++ [("sudo", tool :: rootArgs); (tool, fallbackArgs)] /\
    snd (PermissionRun.exec m "sudo" (tool :: rootArgs)) <> None /\
    userApproved pm' !! (tool +:+ ":" +:+ command) = Some true)) /\
  (fst (CheckSudoAvailable pm (PermissionRun.world m)) = false ->
   stdin (PermissionRun.world m') = stdin (PermissionRun.world m) /\
   asked (PermissionRun.world m') = asked (PermissionRun.world m) /\
   PermissionRun.executed m'
   = PermissionRun.executed m ++ [(tool, fallbackArgs)]).
Proof.
  cbv zeta. unfold PermissionRun.RunWithFallback.
  destruct (CheckSudoAvailable_cache pm (PermissionRun.world m)) as (Hca & _).
  destruct (CheckSudoAvailable pm (PermissionRun.world m)) as [available pm0].
  cbn [fst snd] in *.
  destruct available.
  2: { destruct (RunFacts.runFallback_outcome pm0 m tool fallbackArgs)
         as (Ho & Hp & He & Hi & Ha).
       destruct (PermissionRun.runFallback pm0 m tool fallbackArgs)
         as [[[[output usedRoot] err] pm'] m'].
       cbn [fst snd] in *. injection Ho as -> -> ->. subst pm'.
       split; [right; left; auto|]. auto. }
  split; [|discriminate].
  destruct (RequestRootPermission_outcome pm0 (PermissionRun.world m) tool purpose
              ("sudo " +:+ tool +:+ " " +:+ JoinWith " " rootArgs))
    as (approved & err & pm1 & w1 & -> & H1 & H2 & H3 & _).
  assert (Hfb : forall m1,
             PermissionRun.exec m1 = PermissionRun.exec m ->
             PermissionRun.executed m1 = PermissionRun.executed m ->
             let r := PermissionRun.runFallback pm1 m1 tool fallbackArgs in
             snd (fst (fst (fst r))) = false /\
             (fst (fst (fst (fst r)))
              = fst (PermissionRun.exec m tool fallbackArgs) /\
              snd (fst (fst r))
              = match snd (PermissionRun.exec m tool fallbackArgs) with
                | Some e => Some (Errorf "fallback scan failed: " e EmptyString)
                | None => None
                end) /\
             PermissionRun.executed (snd r)
             = PermissionRun.executed m ++ [(tool, fallbackArgs)]).
  { intros m1 Hx He. cbv zeta.
    destruct (RunFacts.runFallback_outcome pm1 m1 tool fallbackArgs)
      as (Ho & _ & Hex & _).
    rewrite Ho, Hex, Hx, He. auto. }
  destruct err as [err|].
  { right; left. apply Hfb; reflexivity. }
  specialize (H2 eq_refl). destruct approved.
  2: { right; left. apply Hfb; reflexivity. }
  unfold PermissionRun.CombinedOutput, PermissionRun.say, PermissionRun.withWorld.
  cbn [PermissionRun.exec PermissionRun.world PermissionRun.executed].
  change ([tool] ++ rootArgs) with (tool :: rootArgs).
  destruct (PermissionRun.exec m "sudo" (tool :: rootArgs))
    as [output [xerr|]] eqn:Hx.
  - right; right.
    match goal with
    | |- context [PermissionRun.runFallback ?a ?b ?c ?d] =>
        destruct (RunFacts.runFallback_outcome a b c d) as (Ho & Hp & Hex & _);
        destruct (PermissionRun.runFallback a b c d)
          as [[[[output' usedRoot'] err'] pm'] m']
    end.
    cbn [fst snd] in *. cbn [PermissionRun.exec PermissionRun.world
                               PermissionRun.executed] in *.
    injection Ho as -> -> ->. subst pm'.
    rewrite Hex, <- app_assoc. cbn [app fst snd]. repeat split; auto.
  - left. cbn [fst snd PermissionRun.executed]. auto.
Qed.

(** X26.  The two counters of [GetApprovalSummary] are the numbers of
    approvals and of denials in the cache and add up to its size; for a
    manager that has stored no answer nothing is printed, otherwise five
    lines are. *)
Theorem GetApprovalSummary_counts (pm : PermissionManager) (w : World) :
  fst (PermissionRun.approvalCounts (userApproved pm))
  = Z.of_nat (size (filter (fun kv => snd kv = true) (userApproved pm))) /\
  snd (PermissionRun.approvalCounts (userApproved pm))
  = Z.of_nat (size (filter (fun kv => snd kv = false) (userApproved pm))) /\
  fst (PermissionRun.approvalCounts (userApproved pm))
  + snd (PermissionRun.approvalCounts (userApproved pm))
  = Z.of_nat (size (userApproved pm)) /\
  (userApproved pm = ∅ -> PermissionRun.GetApprovalSummary pm w = w) /\
  (userApproved pm <> ∅ ->
   stdout (PermissionRun.GetApprovalSummary pm w)
   = stdout w
       ++ [nl +:+ "📊 Permission Summary" +:+ nl;
           rule +:+ nl;
           "✅ Approved: "
             +:+ Itoa (fst (PermissionRun.approvalCounts (userApproved pm)))
             +:+ " commands" +:+ nl;
           "❌ Denied: "
             +:+ Itoa (snd (PermissionRun.approvalCounts (userApproved pm)))
             +:+ " commands" +:+ nl;
           nl]).
Proof.
  assert (Hc : forall m : gmap string bool,
             fst (PermissionRun.approvalCounts m)
             = Z.of_nat (size (filter (fun kv => snd kv = true) m)) /\
             snd (PermissionRun.approvalCounts m)
             = Z.of_nat (size (filter (fun kv => snd kv = false) m)) /\
             fst (PermissionRun.approvalCounts m)
             + snd (PermissionRun.approvalCounts m)
             = Z.of_nat (size m)).
  { unfold PermissionRun.approvalCounts.
    apply (map_fold_weak_ind
             (fun (r : Z * Z) (m : gmap string bool) =>
                fst r = Z.of_nat (size (filter (fun kv => snd kv = true) m)) /\
                snd r = Z.of_nat (size (filter (fun kv => snd kv = false) m)) /\
                fst r + snd r = Z.of_nat (size m))).
    - rewrite !map_filter_empty, !map_size_empty. cbn. auto.
    - intros i x m r Hi (Ht & Hf & Hs).
      rewrite map_size_insert_None by exact Hi.
      destruct x; cbn [fst snd].
      + rewrite map_filter_insert_True by reflexivity.
        rewrite map_size_insert_None by (apply map_lookup_filter_None; auto).
        rewrite map_filter_insert_False by (cbn; discriminate).
        rewrite delete_id by exact Hi. lia.
      + rewrite (map_filter_insert_True (fun kv => snd kv = false)) by reflexivity.
        rewrite map_size_insert_None by (apply map_lookup_filter_None; auto).
        rewrite (map_filter_insert_False (fun kv => snd kv = true))
          by (cbn; discriminate).
        rewrite delete_id by exact Hi. lia. }
  destruct (Hc (userApproved pm)) as (Ht & Hf & Hs).
  split; [exact Ht|]. split; [exact Hf|]. split; [exact Hs|].
  unfold PermissionRun.GetApprovalSummary. split.
  - intros ->. reflexivity.
  - intros Hne.
    destruct (Z.of_nat (size (userApproved pm)) =? 0) eqn:Hz.
    + apply Z.eqb_eq in Hz. exfalso. apply Hne, map_size_empty_iff. lia.
    + rewrite !stdout_print, <- !app_assoc. reflexivity.
Qed.

(** ** The scanning engine *)

Module ScannerFacts.
Import Scanner.

Lemma moduleLoop_findings (E : Sources) (target : string) (mods : list Module_) :
  forall findings sys,
    exists found,
      fst (moduleLoop E target mods findings sys) = findings ++ found /\
      length found = length (List.filter isBasic mods) /\
      List.Forall (reachable target) found.
Proof.
  induction mods as [|m rest IH]; intros findings sys.
  - exists []. cbn. rewrite app_nil_r. auto.
  - cbn [moduleLoop List.filter].
    destruct m; cbn [moduleRun isBasic newID now fst snd].
    + match goal with
      | |- context [moduleLoop E target rest ?f ?s] =>
          destruct (IH f s) as (found & Hf & Hl & Hall)
      end.
      eexists (_ :: found). rewrite Hf, <- app_assoc. cbn [app length].
      split; [reflexivity|]. split; [now rewrite Hl|].
      constructor; [|exact Hall]. repeat split.
    + match goal with
      | |- context [moduleLoop E target rest ?f ?s] =>
          destruct (IH f s) as (found & Hf & Hl & Hall)
      end.
      exists found. rewrite Hf, app_nil_r. auto.
    + match goal with
      | |- context [moduleLoop E target rest ?f ?s] =>
          destruct (IH f s) as (found & Hf & Hl & Hall)
      end.
      exists found. rewrite Hf, app_nil_r. auto.
    + match goal with
      | |- context [moduleLoop E target rest ?f ?s] =>
          destruct (IH f s) as (found & Hf & Hl & Hall)
      end.
      exists found. rewrite Hf, app_nil_r. auto.
Qed.

Lemma loadModules_basic (s : t) :
  config (loadModules s) = config s /\
  length (List.filter isBasic (modules (loadModules s)))
  = (length (List.filter isBasic (modules s))
     + if knownProfile (Profile (config s)) then 1 else 0)%nat.
Proof.
  unfold loadModules, knownProfile.
  destruct (String.eqb _ "quick"); [|destruct (String.eqb _ "standard");
    [|destruct (String.eqb _ "deep")]];
    cbn [config modules orb]; rewrite ?List.filter_app, ?length_app; cbn;
    split; try reflexivity; lia.
Qed.

Lemma Run_findings (E : Sources) (s : t) (sys : Sys) :
  config (snd (fst (Run E s sys))) = config s /\
  modules (snd (fst (Run E s sys))) = modules (loadModules s) /\
  ScanResult.Target (result (fst (fst (Run E s sys)))) = Target (config s) /\
  Status (fst (fst (Run E s sys))) = "completed" /\
  length (ScanResult.Findings (result (fst (fst (Run E s sys)))))
  = length (List.filter isBasic (modules (loadModules s))) /\
  List.Forall (reachable (Target (config s)))
    (ScanResult.Findings (result (fst (fst (Run E s sys))))).
Proof.
  unfold Run. cbn [now newID].
  destruct (loadModules_basic s) as (Hc & _).
  match goal with
  | |- context [moduleLoop E ?tg ?ms ?f ?y] =>
      destruct (moduleLoop_findings E tg ms f y) as (found & Hf & Hl & Hall);
      destruct (moduleLoop E tg ms f y) as [findings sys1]
  end.
  cbn [fst snd config modules result Status ScanResult.Target
         ScanResult.Findings] in *.
  subst findings. rewrite Hc in *. cbn [app]. auto 10.
Qed.

Lemma afterRuns_basic (E : Sources) (n : nat) :
  forall s sys,
    config (fst (afterRuns E n s sys)) = config s /\
    length (List.filter isBasic (modules (fst (afterRuns E n s sys))))
    = (length (List.filter isBasic (modules s))
       + if knownProfile (Profile (config s)) then n else 0)%nat.
Proof.
  induction n as [|n IH]; intros s sys.
  - cbn. split; [reflexivity|]. destruct (knownProfile (Profile (config s))); lia.
  - cbn [afterRuns].
    destruct (Run_findings E s sys) as (Hc & Hm & _).
    destruct (Run E s sys) as [[scan s1] sys1]. cbn [fst snd] in *.
    destruct (IH s1 sys1) as (Hc1 & Hl1).
    destruct (loadModules_basic s) as (_ & Hb).
    rewrite Hc1, Hl1, Hc, Hm, Hb.
    split; [reflexivity|]. destruct (knownProfile (Profile (config s))); lia.
Qed.

End ScannerFacts.

(** X27.  A scanner keeps the modules it has loaded, and every run loads
    the modules of the profile again.  So the run number [n + 1] of one
    scanner reports, for the profiles quick, standard and deep, [n + 1]
    findings, and for any other profile none.  Every finding is the
    reachability note of the basic module for the configured target, and
    the scan comes back completed. *)
Theorem Run_accumulates_modules (E : Scanner.Sources) (config : Scanner.ScanConfig)
    (n : nat) (sys : Scanner.Sys) :
  let s := fst (Scanner.afterRuns E n (Scanner.New config) sys) in
  let sys' := snd (Scanner.afterRuns E n (Scanner.New config) sys) in
  let scan := fst (fst (Scanner.Run E s sys')) in
  length (ScanResult.Findings (Scanner.result scan))
  = (if Scanner.knownProfile (Scanner.Profile config) then S n else 0%nat) /\
  (forall f, In f (ScanResult.Findings (Scanner.result scan)) ->
     Finding.Title f = "Target Reachable" /\ Finding.Severity f = "info" /\
     Finding.Location f = Scanner.Target config /\
     Finding.Description f
     = "Successfully connected to " +:+ Scanner.Target config) /\
  ScanResult.Target (Scanner.result scan) = Scanner.Target config /\
  Scanner.Status scan = "completed".
Proof.
  cbv zeta.
  destruct (ScannerFacts.afterRuns_basic E n (Scanner.New config) sys) as (Hc & Hl).
  destruct (Scanner.afterRuns E n (Scanner.New config) sys) as [s sys'].
  cbn [fst snd Scanner.New Scanner.config Scanner.modules List.filter length] in *.
  destruct (ScannerFacts.Run_findings E s sys') as (_ & _ & Ht & Hs & Hn & Hall).
  destruct (ScannerFacts.loadModules_basic s) as (_ & Hb).
  rewrite Hc in *. rewrite Hn, Hb, Hl.
  split; [destruct (Scanner.knownProfile (Scanner.Profile config)); lia|].
  split; [|auto].
  intros f Hf. rewrite List.Forall_forall in Hall.
  destruct (Hall f Hf) as (H1 & H2 & _ & H4 & H5). auto.
Qed.

(** ** The reconnaissance planner *)

Module WrapFacts.
Import ReconPlanner.

Lemma Contains_char_app (a b : string) (c : ascii) :
  Contains (a +:+ b) (String c EmptyString)
  = Contains a (String c EmptyString) || Contains b (String c EmptyString).
Proof.
  induction a as [|d a IH].
  - cbn. reflexivity.
  - change (String d a +:+ b) with (String d (a +:+ b)).
    cbn [Contains HasPrefix]. rewrite IH.
    destruct (Ascii.eqb d c); cbn; [reflexivity|].
    destruct a; reflexivity.
Qed.

Lemma len_app (a b : string) : len (a +:+ b) = len a + len b.
Proof.
  unfold len. induction a as [|c a IH]; [reflexivity|].
  change (String c a +:+ b) with (String c (a +:+ b)). cbn [String.length].
  lia.
Qed.

Lemma eqb_empty_false (w : string) :
  w <> EmptyString -> String.eqb w EmptyString = false.
Proof. intros H. now apply String.eqb_neq. Qed.

Lemma fieldsLoop_words (s : string) :
  forall word,
    Contains word nl = false ->
    List.Forall (fun w => w <> EmptyString /\ Contains w nl = false)
      (fieldsLoop s word).
Proof.
  induction s as [|c s IH]; intros word Hw; cbn [fieldsLoop].
  - destruct word; constructor; [|constructor]. split; [discriminate|exact Hw].
  - destruct (isSpace c) eqn:Hc.
    + destruct word; [apply IH; reflexivity|].
      constructor; [split; [discriminate|exact Hw]|apply IH; reflexivity].
    + apply IH. unfold nl in *. rewrite Contains_char_app, Hw. cbn.
      destruct (Ascii.eqb c (ascii_of_nat 10)) eqn:He; [|reflexivity].
      apply Ascii.eqb_eq in He. subst c. discriminate.
Qed.

Lemma Fields_words (text : string) :
  List.Forall (fun w => w <> EmptyString /\ Contains w nl = false) (Fields text).
Proof. apply fieldsLoop_words. reflexivity. Qed.

Lemma JoinWith_snoc (sep : string) (l : list string) (w : string) :
  l <> [] -> JoinWith sep (l ++ [w]) = JoinWith sep l +:+ sep +:+ w.
Proof.
  induction l as [|a l IH]; [congruence|]. intros _.
  destruct l as [|b l]; [reflexivity|].
  change ((a :: b :: l) ++ [w]) with (a :: ((b :: l) ++ [w])).
  change (JoinWith sep (a :: (b :: l) ++ [w]))
    with (a +:+ sep +:+ JoinWith sep ((b :: l) ++ [w])).
  rewrite IH by discriminate.
  change (JoinWith sep (a :: b :: l)) with (a +:+ sep +:+ JoinWith sep (b :: l)).
  now rewrite !append_assoc.
Qed.

Lemma JoinWith_extend (sep : string) (l : list string) (a w : string) :
  JoinWith sep (l ++ [a +:+ (sep +:+ w)]) = JoinWith sep (l ++ [a]) +:+ sep +:+ w.
Proof.
  destruct l as [|b l]; [reflexivity|].
  rewrite !JoinWith_snoc by discriminate. now rewrite !append_assoc.
Qed.

Lemma SplitLines_single (s : string) :
  Contains s nl = false -> SplitLines s = [s].
Proof.
  induction s as [|c s IH]; [reflexivity|].
  cbn [Contains HasPrefix nl SplitLines]. intros H.
  apply orb_false_iff in H as [Hc Hs].
  destruct (Ascii.eqb c (ascii_of_nat 10)); [destruct s; discriminate|].
  now rewrite (IH Hs).
Qed.

Lemma SplitLines_JoinWith (lines : list string) :
  lines <> [] ->
  List.Forall (fun line => Contains line nl = false) lines ->
  SplitLines (JoinWith nl lines) = lines.
Proof.
  induction lines as [|a l IH]; [congruence|]. intros _ Hall.
  inversion Hall as [|? ? Ha Hl]; subst.
  destruct l as [|b l]; [now apply SplitLines_single|].
  change (JoinWith nl (a :: b :: l)) with (a +:+ nl +:+ JoinWith nl (b :: l)).
  rewrite SplitLines_app, (SplitLines_single a Ha), IH by (discriminate || assumption).
  reflexivity.
Qed.

Section Loop.
Context (all : list string) (width : Z).

Lemma wrapped_word (w : string) :
  w <> EmptyString -> Contains w nl = false -> In w all -> wrapped all width w.
Proof. intros. repeat split; auto. Qed.

Lemma flushed_word (l : list string) (w : string) :
  w <> EmptyString -> flushed l w = l ++ [w].
Proof. intros H. unfold flushed. now rewrite (eqb_empty_false w H). Qed.

Lemma JoinWith_same_snoc (l done : list string) (w : string) :
  (l = [] <-> done = []) ->
  JoinWith " " l = JoinWith " " done ->
  JoinWith " " (l ++ [w]) = JoinWith " " (done ++ [w]).
Proof.
  intros He Hj. destruct l as [|a l], done as [|b done].
  - reflexivity.
  - destruct He as [He _]. specialize (He eq_refl). discriminate.
  - destruct He as [_ He]. specialize (He eq_refl). discriminate.
  - rewrite !JoinWith_snoc by discriminate. now rewrite Hj.
Qed.

Lemma wrapLoop_inv (words : list string) :
  forall lines cur done,
    List.Forall (fun w => w <> EmptyString /\ Contains w nl = false) words ->
    (forall w, In w words -> In w all) ->
    (flushed lines cur = [] <-> done = []) ->
    JoinWith " " (flushed lines cur) = JoinWith " " done ->
    List.Forall (wrapped all width) (flushed lines cur) ->
    JoinWith " " (flushed (fst (wrapLoop width words lines cur))
                    (snd (wrapLoop width words lines cur)))
    = JoinWith " " (done ++ words) /\
    List.Forall (wrapped all width)
      (flushed (fst (wrapLoop width words lines cur))
         (snd (wrapLoop width words lines cur))).
Proof.
  induction words as [|w rest IH]; intros lines cur done Hw Hin He Hj Hall.
  - cbn. rewrite app_nil_r. auto.
  - inversion Hw as [|? ? [Hne Hnl] Hrest]; subst.
    assert (Hwin : In w all) by (apply Hin; now left).
    assert (Hin' : forall x, In x rest -> In x all) by (intros x Hx; apply Hin; now right).
    assert (Hsnoc : forall l,
               (l = [] <-> done = []) -> JoinWith " " l = JoinWith " " done ->
               List.Forall (wrapped all width) l ->
               JoinWith " " (flushed (fst (wrapLoop width rest l w))
                               (snd (wrapLoop width rest l w)))
               = JoinWith " " (done ++ w :: rest) /\
               List.Forall (wrapped all width)
                 (flushed (fst (wrapLoop width rest l w))
                    (snd (wrapLoop width rest l w)))).
    { intros l Hle Hlj Hlall.
      replace (done ++ w :: rest) with ((done ++ [w]) ++ rest)
        by (now rewrite <- app_assoc).
      apply IH; try assumption.
      - rewrite flushed_word by exact Hne.
        split; intros H; destruct l, done; discriminate.
      - rewrite flushed_word by exact Hne. now apply JoinWith_same_snoc.
      - rewrite flushed_word by exact Hne. apply Forall_app. split; [exact Hlall|].
        constructor; [|constructor]. now apply wrapped_word. }
    cbn [wrapLoop].
    destruct (len cur + len w + 1 >? width) eqn:Hfit.
    + apply Hsnoc; assumption.
    + destruct (String.eqb cur EmptyString) eqn:Hcur.
      * apply Hsnoc; unfold flushed in *; rewrite Hcur in *; assumption.
      * unfold flushed in He, Hj, Hall. rewrite Hcur in He, Hj, Hall.
        cbn [negb] in He, Hj, Hall.
        assert (Hcne : cur <> EmptyString) by (now apply String.eqb_neq).
        assert (Hnew : cur +:+ (" " +:+ w) <> EmptyString).
        { destruct cur; [congruence|discriminate]. }
        apply Forall_app in Hall as [Hlines Hc].
        inversion Hc as [|? ? (_ & Hcnl & _) _]; subst.
        replace (done ++ w :: rest) with ((done ++ [w]) ++ rest)
          by (now rewrite <- app_assoc).
        apply IH; try assumption.
        -- rewrite flushed_word by exact Hnew.
           split; intros H; [destruct lines|destruct done]; discriminate.
        -- rewrite flushed_word by exact Hnew.
           rewrite JoinWith_extend, Hj. symmetry. apply JoinWith_snoc.
           intros ->. destruct He as [_ He]. specialize (He eq_refl).
           destruct lines; discriminate.
        -- rewrite flushed_word by exact Hnew. apply Forall_app.
           split; [exact Hlines|]. constructor; [|constructor].
           split; [exact Hnew|]. split.
           ++ unfold nl in *. rewrite !Contains_char_app, Hcnl, Hnl. reflexivity.
           ++ right. rewrite !len_app. change (len " ") with 1. lia.
Qed.

End Loop.
End WrapFacts.



Module PlanFacts.
Import ReconPlanner.

Lemma HasPrefix_elim (s p : string) :
  HasPrefix s p = true -> exists r, s = p +:+ r.
Proof.
  revert s; induction p as [|c p IH]; intros s H.
  - now exists s.
  - destruct s as [|d s]; [discriminate|]. cbn [HasPrefix] in H.
    apply andb_true_iff in H as [Hc Hp]. apply Ascii.eqb_eq in Hc. subst d.
    destruct (IH s Hp) as [r ->]. now exists r.
Qed.

Lemma toolNames_snoc (phases : list ReconPhase) (phase : ReconPhase) :
  toolNames (phases ++ [phase]) = toolNames phases ++ map ToolName (Tools phase).
Proof. unfold toolNames. rewrite flat_map_app. cbn. now rewrite app_nil_r. Qed.

Lemma parseToolRequirement_blank (line : string) :
  Command (parseToolRequirement line) = EmptyString /\
  Flags (parseToolRequirement line) = [] /\
  Fallback (parseToolRequirement line) = EmptyString.
Proof. repeat split. Qed.

Lemma parseDetail_keeps (target : string) (done : list string) (st : Parser)
    (line : string) :
  invariant target done st ->
  invariant target done (parseDetail st line).
Proof.
  destruct st as [[tg phases root tools est reasoning] cur ip ir].
  unfold invariant, phasesSoFar, parseDetail.
  cbn [plan currentPhase inPermissions inReasoning].
  intros (Ht & He & Hn & Hr & Ha).
  cbn [Target EstimatedTime] in Ht, He. subst tg est.
  destruct cur as [phase|].
  2: { cbn [closePhase] in *.
       destruct (ip && _); destruct (ir && _ && _);
         cbn [plan currentPhase Target EstimatedTime Phases RequiredTools closePhase];
         auto. }
  cbn [closePhase appendPhase Phases] in Hn, Hr, Ha.
  rewrite map_app in Hn. rewrite toolNames_snoc in Hr.
  apply Forall_app in Ha as [Ha Hp]. inversion Hp as [|? ? [Hpt Hpe] _]; subst.
  assert (Hsame : forall (p' : ReconPlan) (phase' : ReconPhase) bp br,
             Target p' = target -> EstimatedTime p' = EmptyString ->
             Phases p' = phases -> RequiredTools p' = tools ->
             PhaseName phase' = PhaseName phase -> Tools phase' = Tools phase ->
             ExpectedOutputs phase' = ExpectedOutputs phase ->
             Target (plan (mkParser p' (Some phase') bp br)) = target /\
             EstimatedTime (plan (mkParser p' (Some phase') bp br)) = EmptyString /\
             map PhaseName
               (Phases (closePhase (plan (mkParser p' (Some phase') bp br))
                          (currentPhase (mkParser p' (Some phase') bp br))))
             = List.filter isPhaseHeading (map TrimSpace done) /\
             RequiredTools (plan (mkParser p' (Some phase') bp br))
             = toolNames
                 (Phases (closePhase (plan (mkParser p' (Some phase') bp br))
                            (currentPhase (mkParser p' (Some phase') bp br)))) /\
             List.Forall parsedPhase
               (Phases (closePhase (plan (mkParser p' (Some phase') bp br))
                          (currentPhase (mkParser p' (Some phase') bp br))))).
  { intros p' phase' bp br H1 H2 H3 H4 H5 H6 H7.
    cbn [plan currentPhase closePhase appendPhase Phases].
    rewrite H3, map_app, toolNames_snoc, H4, H6. cbn [map]. rewrite H5.
    cbn [Target EstimatedTime] in *.
    split; [congruence|]. split; [congruence|]. split; [exact Hn|].
    split; [exact Hr|]. apply Forall_app. split; [exact Ha|].
    constructor; [|constructor]. split; [now rewrite H6|congruence]. }
  destruct (HasPrefix line "Priority:").
  { destruct (ip && _); destruct (ir && _ && _); now apply Hsame. }
  destruct (HasPrefix line "Description:").
  { destruct (ip && _); destruct (ir && _ && _); now apply Hsame. }
  destruct (HasPrefix line "- " && Contains line "(requires root:").
  2: { destruct (ip && _); destruct (ir && _ && _); now apply Hsame. }
  destruct (negb (String.eqb (ToolName (parseToolRequirement line)) EmptyString))
    eqn:Hname.
  2: { destruct (ip && _); destruct (ir && _ && _); now apply Hsame. }
  apply negb_true_iff, String.eqb_neq in Hname.
  assert (Htool : forall (p' : ReconPlan),
             Target p' = target -> EstimatedTime p' = EmptyString ->
             Phases p' = phases -> RequiredTools p' = tools ->
             forall bp br,
             invariant target done
               (mkParser
                  {| Target := Target p'; Phases := Phases p';
                     RequiresRoot := RequiresRoot p';
                     RequiredTools :=
                       RequiredTools p' ++ [ToolName (parseToolRequirement line)];
                     EstimatedTime := EstimatedTime p';
                     Reasoning := Reasoning p' |}
                  (Some {| PhaseName := PhaseName phase;
                           Description := Description phase;
                           Tools := Tools phase ++ [parseToolRequirement line];
                           Priority := Priority phase;
                           ExpectedOutputs := ExpectedOutputs phase |})
                  bp br)).
  { intros p' H1 H2 H3 H4 bp br. unfold invariant, phasesSoFar.
    cbn [plan currentPhase closePhase appendPhase Phases Target EstimatedTime
           RequiredTools].
    rewrite H3, H4, map_app, toolNames_snoc. cbn [map Tools PhaseName].
    rewrite map_app, app_assoc, <- Hr. cbn [map].
    cbn [Target EstimatedTime] in *.
    split; [congruence|]. split; [congruence|]. split; [exact Hn|].
    split; [reflexivity|]. apply Forall_app. split; [exact Ha|].
    constructor; [|constructor]. split; [|exact Hpe]. cbn [Tools].
    apply Forall_app. split; [exact Hpt|]. constructor; [|constructor].
    split; [exact Hname|]. apply parseToolRequirement_blank. }
  destruct (ip && _); destruct (ir && _ && _); apply Htool; reflexivity.
Qed.

Lemma parseLine_keeps (target : string) (done : list string) (st : Parser)
    (line : string) :
  invariant target done st ->
  invariant target (done ++ [line]) (parseLine st line).
Proof.
  intros Hinv.
  assert (Hflags : forall bp br,
             invariant target done
               (mkParser (plan st) (currentPhase st) bp br)).
  { intros bp br. exact Hinv. }
  assert (Hclose : forall bp br,
             invariant target done
               (mkParser (closePhase (plan st) (currentPhase st)) None bp br)).
  { intros bp br. destruct Hinv as (Ht & He & Hn & Hr & Ha).
    unfold invariant, phasesSoFar in *. cbn [plan currentPhase closePhase].
    destruct (currentPhase st); cbn [closePhase appendPhase Target EstimatedTime
                                       RequiredTools Phases] in *; auto. }
  assert (Hgrow : forall (st' : Parser),
             invariant target done st' ->
             isPhaseHeading (TrimSpace line) = false ->
             invariant target (done ++ [line]) st').
  { intros st' (Ht & He & Hn & Hr & Ha) Hh. unfold invariant.
    rewrite map_app, List.filter_app. cbn [map List.filter]. rewrite Hh, app_nil_r.
    auto. }
  unfold parseLine.
  destruct (HasPrefix (TrimSpace line) "### PHASE") eqn:Hph.
  - destruct (HasPrefix_elim _ _ Hph) as [r Hr]. rewrite Hr.
    change (HasPrefix ("### PHASE" +:+ r) "### PERMISSIONS REQUIRED") with false.
    change (HasPrefix ("### PHASE" +:+ r) "### REASONING") with false.
    cbv iota. unfold parseDetail.
    cbn [plan currentPhase inPermissions inReasoning andb].
    change (HasPrefix ("### PHASE" +:+ r) "Priority:") with false.
    change (HasPrefix ("### PHASE" +:+ r) "Description:") with false.
    change (HasPrefix ("### PHASE" +:+ r) "- ") with false.
    cbn [andb]. cbv iota.
    destruct (Hclose false false) as (Ht & He & Hn & Hrt & Ha).
    unfold invariant, phasesSoFar in *.
    cbn [plan currentPhase closePhase appendPhase Phases Target EstimatedTime
           RequiredTools] in *.
    rewrite !map_app, List.filter_app, toolNames_snoc. cbn [map List.filter Tools PhaseName].
    unfold isPhaseHeading at 2. rewrite Hph, app_nil_r, Hr.
    split; [exact Ht|]. split; [exact He|].
    split; [now rewrite Hn|]. split; [exact Hrt|].
    apply Forall_app. split; [exact Ha|]. constructor; [|constructor].
    split; [constructor|reflexivity].
  - destruct (HasPrefix (TrimSpace line) "### PERMISSIONS REQUIRED").
    { apply Hgrow; [apply Hflags|exact Hph]. }
    destruct (HasPrefix (TrimSpace line) "### REASONING").
    { apply Hgrow; [apply Hclose|exact Hph]. }
    apply Hgrow; [|exact Hph]. apply parseDetail_keeps. exact Hinv.
Qed.

Lemma fold_parseLine_keeps (target : string) (lines : list string) :
  forall done st,
    invariant target done st ->
    invariant target (done ++ lines) (fold_left parseLine lines st).
Proof.
  induction lines as [|line rest IH]; intros done st Hinv.
  - now rewrite app_nil_r.
  - cbn [fold_left].
    replace (done ++ line :: rest) with ((done ++ [line]) ++ rest)
      by (now rewrite <- app_assoc).
    apply IH, parseLine_keeps, Hinv.
Qed.

End PlanFacts.


(** X30.  A reply returned by [QueryWithRetry] is a reply of the client,
    as it came and not blank.  An error of the client that is not retryable
    is returned as it is after one call, where [PiClaudeAnalyzer.QueryResults]
    returns it behind the prefix "failed to run query: ". *)
Theorem QueryWithRetry_reply (S : Session) (scanID question : string) :
  (forall text,
     snd (QueryWithRetry S scanID question) = Ok text ->
     exists k,
       clientRun S k ("Scan ID: " +:+ scanID +:+ nl +:+ "Question: " +:+ question)
       = Ok text /\
       TrimSpace text <> EmptyString) /\
  (forall e,
     ctxBefore S 0 = None ->
     clientRun S 0 ("Scan ID: " +:+ scanID +:+ nl +:+ "Question: " +:+ question)
     = Err e ->
     isRetryableError (Some e) = false ->
     snd (QueryWithRetry S scanID question) = Err e /\
     attempts (fst (QueryWithRetry S scanID question)) = [0] /\
     PiClaudeAnalyzer.QueryResults (clientRun S 0) scanID question
     = Err (Errorf "failed to run query: " e EmptyString)).
Proof.
  unfold QueryWithRetry. split.
  - intros text H. unfold retryStringWithBackoff in H.
    rewrite (proj2 (retryStringLoop_agrees _ _ 0 None [] [] eq_refl)) in H.
    apply retryWithBackoff_ok in H as (k & _ & Hk). cbn [fn] in Hk.
    unfold queryOnce in Hk.
    destruct (clientRun S k _) as [reply|err] eqn:Hr; [|discriminate].
    destruct (String.eqb (TrimSpace reply) EmptyString) eqn:Hb; [discriminate|].
    injection Hk as <-. exists k. split; [exact Hr|]. now apply String.eqb_neq.
  - intros e Hctx Hr Hfatal.
    unfold retryStringWithBackoff.
    change (Z.to_nat maxRetryAttempts) with 3%nat.
    cbn [retryStringLoop fn doneBefore doneDuringSleep].
    unfold queryOnce. rewrite Hctx, Hr, Hfatal. cbn [negb fst snd app].
    unfold PiClaudeAnalyzer.QueryResults. rewrite Hr. repeat split.
Qed.
